(** * HYROXPace: simulation engine and live race runtime

    A shallow embedding of the deterministic core of the mobile client:
    - [generateMockSimulation]            (mobile/src/lib/api.ts)
    - the dashboard store                 (store/dashboardStore.ts)
    - [getTrackPosition]                  (lib/RaceTrackMapper.ts)
    - [recordHRSample], [getRecoveryTip]  (lib/RedlineTracker.ts)
    - the coach rules, [evaluate]         (lib/CoachEngine.ts)
    - the race store                      (store/raceStore.ts)

    TypeScript's [number] is an IEEE 754 binary64 value.  It is modelled by
    the Standard Library's [spec_float] with precision 53 and maximal
    exponent 1024, whose operations are ordinary functions: every value below
    is computed, rounding included, the way the JavaScript engine computes
    it. *)

From Stdlib Require Import ZArith List String Bool Lia.
From Stdlib Require Import Floats.SpecFloat.
Import ListNotations.
Open Scope Z_scope.

(* ================================================================= *)
(** ** JavaScript numbers *)

Module Js.

Definition number := spec_float.

Definition prec : Z := 53.
Definition emax : Z := 1024.

(** An integer as a number (exact below 2^53, rounded to nearest above). *)
Definition of_Z (z : Z) : number := binary_normalize prec emax z 0 false.

(** A count (of segments, of laps) as a number. *)
Definition count (k : nat) : number := of_Z (Z.of_nat k).

Definition NaN : number := S754_nan.
Definition Infinity : number := S754_infinity false.

Definition add : number -> number -> number := SFadd prec emax.
Definition sub : number -> number -> number := SFsub prec emax.
Definition mul : number -> number -> number := SFmul prec emax.
Definition div : number -> number -> number := SFdiv prec emax.

(** A decimal literal [n/d] of the source text, e.g. [1.1] is [lit 11 10]:
    both integers are exact, and the correctly rounded quotient is the
    binary64 value nearest to the decimal, which is what the literal
    denotes. *)
Definition lit (n d : Z) : number := div (of_Z n) (of_Z d).

(** [a < b], [a <= b], [a > b], [a >= b], [a === b]: all false on NaN. *)
Definition ltb : number -> number -> bool := SFltb.
Definition leb : number -> number -> bool := SFleb.
Definition gtb (a b : number) : bool := ltb b a.
Definition geb (a b : number) : bool := leb b a.
Definition eqb : number -> number -> bool := SFeqb.

Definition is_nan (x : number) : bool :=
  match x with S754_nan => true | _ => false end.

Definition is_zero (x : number) : bool :=
  match x with S754_zero _ => true | _ => false end.

(** A value of the binary64 format (a finite one has a canonical mantissa
    and exponent). *)
Definition is_number (x : number) : bool := valid_binary prec emax x.

Definition is_finite (x : number) : bool :=
  match x with S754_zero _ | S754_finite _ _ _ => true | _ => false end.

(** ToBoolean on a number: false for [+0], [-0] and [NaN]. *)
Definition truthy (x : number) : bool := negb (is_zero x || is_nan x).

(** The integer [q] as the result of rounding [x]: a zero result keeps the
    sign of [x]. *)
Definition integral (s : bool) (q : Z) : number :=
  if q =? 0 then S754_zero s else of_Z q.

(** [Math.round]: the nearest integer, ties towards +Infinity.  A finite
    value is [+-m * 2^e]; with [e < 0] its rounding is
    [floor ((2 * (+-m) + 2^-e) / 2^(1-e))], computed exactly in [Z]. *)
Definition round (x : number) : number :=
  match x with
  | S754_finite s m (Zneg k) =>
      integral s ((2 * cond_Zopp s (Zpos m) + 2 ^ Zpos k) / 2 ^ (Zpos k + 1))
  | _ => x
  end.

(** [Math.floor]. *)
Definition floor (x : number) : number :=
  match x with
  | S754_finite s m (Zneg k) => integral s (cond_Zopp s (Zpos m) / 2 ^ Zpos k)
  | _ => x
  end.

(** [Math.min] and [Math.max] of two arguments: NaN if either is NaN, and
    [-0] is below [+0]. *)
Definition min (a b : number) : number :=
  if is_nan a || is_nan b then NaN
  else if ltb a b then a
  else if ltb b a then b
  else match a with S754_zero true => a | _ => b end.

Definition max (a b : number) : number :=
  if is_nan a || is_nan b then NaN
  else if ltb a b then b
  else if ltb b a then a
  else match a with S754_zero false => a | _ => b end.

(** The remainder operator [x % y]: the exact [x - trunc (x / y) * y], with
    the sign of the dividend. *)
Definition rem (x y : number) : number :=
  match x, y with
  | S754_nan, _ | _, S754_nan => NaN
  | S754_infinity _, _ => NaN
  | _, S754_zero _ => NaN
  | _, S754_infinity _ => x
  | S754_zero _, _ => x
  | S754_finite sx mx ex, S754_finite _ my ey =>
      let e := Z.min ex ey in
      let nx := Zpos mx * 2 ^ (ex - e) in
      let ny := Zpos my * 2 ^ (ey - e) in
      match Z.rem nx ny with
      | Z0 => S754_zero sx
      | r => binary_normalize prec emax (cond_Zopp sx r) e false
      end
  end.

(** A number at the smallest exponent of the format: [q * 2^-1074]. *)
Definition as_bottom (q : Z) : number :=
  match q with
  | 0 => S754_zero false
  | Zpos p => S754_finite false p (-1074)
  | Zneg _ => S754_nan
  end.

(** [Math.abs]. *)
Definition abs : number -> number := SFabs.

(** The integer a number denotes, if it denotes one ([-0] and [+0] denote 0);
    this is the number as a property key. *)
Definition to_integer (x : number) : option Z :=
  match x with
  | S754_zero _ => Some 0
  | S754_finite s m (Zneg k) =>
      if Zpos m mod 2 ^ Zpos k =? 0
      then Some (cond_Zopp s (Zpos m / 2 ^ Zpos k))
      else None
  | S754_finite s m e => Some (cond_Zopp s (Zpos m * 2 ^ e))
  | _ => None
  end.

(** [arr[x]] on an array, or on an object whose keys are [0 .. length-1]:
    [None] is [undefined]. *)
Definition array_get {A : Type} (arr : list A) (x : number) : option A :=
  match to_integer x with
  | Some z => if z <? 0 then None else nth_error arr (Z.to_nat z)
  | None => None
  end.

End Js.

(* ================================================================= *)
(** ** Simulation engine (mobile/src/lib/api.ts) *)

Module Simulation.
Import Js.

Inductive SledComfort := comfortable | manageable | soul_crushing.

Inductive PerformanceTier :=
  elite | advanced | intermediate | beginner | recreational.

Inductive RiskLevel := low | moderate | high | critical.

Inductive Feasibility := too_fast | aggressive | realistic | easy.

Inductive Mode := goal | prediction.

Inductive SegmentType :=
  | RUN | SKI_ERG | SLED_PUSH | SLED_PULL | BURPEE_BROAD_JUMP
  | ROW | FARMERS_CARRY | SANDBAG_LUNGES | WALL_BALLS.

(** The fields of [AthleteProfile] that [generateMockSimulation] reads. *)
Record AthleteProfile := {
  five_k_time_seconds : number;
  sled_comfort : SledComfort;
  wall_ball_unbroken_max : number
}.

Record Segment := { type : SegmentType; name : string; baseTime : number }.

Record SegmentPlan := {
  segment_order : number;
  segment_type : SegmentType;
  target_time_seconds : number;
  effort_percentage : number;
  fatigue_level_entering : number;
  fatigue_level_exiting : number;
  risk_level : RiskLevel;
  risk_reason : option string
}.

Record FinishTimePrediction := {
  conservative_seconds : number;
  likely_seconds : number;
  aggressive_seconds : number;
  confidence_score : number;
  predicted_finish_seconds : number
}.

Record RiskAnalysis := {
  high_risk_segments : list number;
  danger_runs : list number;
  primary_limiter : string;
  blow_up_probability : number;
  blow_up_zone : string
}.

Record PenaltyWarning := { station : SegmentType; time_penalty_seconds : number }.

(** [RaceSimulation] without the fields made from the clock ([id],
    [profile_id], [created_at]) and without the display strings, cues and
    insights, which are formatted from the numbers kept here. *)
Record RaceSimulation := {
  mode : Mode;
  goal_time_seconds : option number;
  goal_feasibility : option Feasibility;
  predictions : FinishTimePrediction;
  segment_plans : list SegmentPlan;
  risk_analysis : RiskAnalysis;
  penalty_warnings : list PenaltyWarning;
  total_run_time_seconds : number;
  total_station_time_seconds : number;
  total_roxzone_time_seconds : number;
  estimated_tier : PerformanceTier
}.

Definition SegmentType_eqb (a b : SegmentType) : bool :=
  match a, b with
  | RUN, RUN | SKI_ERG, SKI_ERG | SLED_PUSH, SLED_PUSH | SLED_PULL, SLED_PULL
  | BURPEE_BROAD_JUMP, BURPEE_BROAD_JUMP | ROW, ROW
  | FARMERS_CARRY, FARMERS_CARRY | SANDBAG_LUNGES, SANDBAG_LUNGES
  | WALL_BALLS, WALL_BALLS => true
  | _, _ => false
  end.

Definition n (z : Z) : number := of_Z z.

(** [fiveKPace = five_k_time_seconds / 5; baseRunTime = round (fiveKPace * 1.1)] *)
Definition baseRunTime (profile : AthleteProfile) : number :=
  let fiveKPace := div (five_k_time_seconds profile) (n 5) in
  round (mul fiveKPace (lit 11 10)).

Definition tier_of (profile : AthleteProfile) : PerformanceTier :=
  if ltb (five_k_time_seconds profile) (n (20 * 60)) then elite
  else if ltb (five_k_time_seconds profile) (n (24 * 60)) then advanced
  else if gtb (five_k_time_seconds profile) (n (30 * 60)) then beginner
  else intermediate.

Definition segments (profile : AthleteProfile) : list Segment :=
  let b := baseRunTime profile in
  [ {| type := RUN; name := "Run 1"; baseTime := b |};
    {| type := SKI_ERG; name := "SkiErg"; baseTime := n 240 |};
    {| type := RUN; name := "Run 2"; baseTime := b |};
    {| type := SLED_PUSH; name := "Sled Push"; baseTime := n 180 |};
    {| type := RUN; name := "Run 3"; baseTime := b |};
    {| type := SLED_PULL; name := "Sled Pull"; baseTime := n 240 |};
    {| type := RUN; name := "Run 4"; baseTime := b |};
    {| type := BURPEE_BROAD_JUMP; name := "Burpee BJ"; baseTime := n 300 |};
    {| type := RUN; name := "Run 5"; baseTime := b |};
    {| type := ROW; name := "Row"; baseTime := n 240 |};
    {| type := RUN; name := "Run 6"; baseTime := b |};
    {| type := FARMERS_CARRY; name := "Farmers"; baseTime := n 120 |};
    {| type := RUN; name := "Run 7"; baseTime := b |};
    {| type := SANDBAG_LUNGES; name := "Lunges"; baseTime := n 270 |};
    {| type := RUN; name := "Run 8"; baseTime := b |};
    {| type := WALL_BALLS; name := "Wall Balls"; baseTime := n 360 |} ]%string.

(** [1 + (runNum - 1) * 0.05] *)
Definition degradation (runNum : number) : number :=
  add (n 1) (mul (sub runNum (n 1)) (lit 5 100)).

(** The sled and wall-ball modifiers applied to a station's base time (the
    same block appears in both passes over the segments). *)
Definition station_modifiers (profile : AthleteProfile) (seg : Segment) : number :=
  let time := baseTime seg in
  let time :=
    if SegmentType_eqb (type seg) SLED_PUSH || SegmentType_eqb (type seg) SLED_PULL
    then match sled_comfort profile with
         | soul_crushing => mul time (lit 13 10)
         | comfortable => mul time (lit 85 100)
         | manageable => time
         end
    else time in
  if SegmentType_eqb (type seg) WALL_BALLS
  then if ltb (wall_ball_unbroken_max profile) (n 15) then mul time (lit 13 10)
       else if gtb (wall_ball_unbroken_max profile) (n 40) then mul time (lit 85 100)
       else time
  else time.

(** First pass, [segments.forEach]: the state is [(predictedTotal, runNum)]. *)
Definition total_step (profile : AthleteProfile)
    (st : number * number) (seg : Segment) : number * number :=
  let '(predictedTotal, runNum) := st in
  match type seg with
  | RUN =>
      let runNum := add runNum (n 1) in
      (add predictedTotal (round (mul (baseTime seg) (degradation runNum))), runNum)
  | _ => (add predictedTotal (round (station_modifiers profile seg)), runNum)
  end.

(** The sum of the sixteen rounded slot times, before the overhead is added. *)
Definition segment_total (profile : AthleteProfile) : number :=
  fst (fold_left (total_step profile) (segments profile) (n 0, n 0)).

Definition roxzoneTime_of (tier : PerformanceTier) : number :=
  match tier with
  | elite => n 180
  | advanced => n 300
  | _ => n 420
  end.

Definition roxzoneTime (profile : AthleteProfile) : number :=
  roxzoneTime_of (tier_of profile).

(** [predictedTotal] once [predictedTotal += roxzoneTime] has run. *)
Definition predictedTotal (profile : AthleteProfile) : number :=
  add (segment_total profile) (roxzoneTime profile).

(** [typeof goalTimeSeconds === 'number' && goalTimeSeconds > 0] *)
Definition isGoalMode (goalTimeSeconds : option number) : bool :=
  match goalTimeSeconds with
  | Some g => gtb g (n 0)
  | None => false
  end.

(** [goalTimeSeconds!] where goal mode holds; unused otherwise. *)
Definition goal_value (goalTimeSeconds : option number) : number :=
  match goalTimeSeconds with Some g => g | None => NaN end.

Definition scaleFactor (profile : AthleteProfile) (goalTimeSeconds : option number)
  : number :=
  if isGoalMode goalTimeSeconds
  then div (sub (goal_value goalTimeSeconds) (roxzoneTime profile))
           (sub (predictedTotal profile) (roxzoneTime profile))
  else n 1.

Definition percentDiff (profile : AthleteProfile) (g : number) : number :=
  let timeDiff := sub g (predictedTotal profile) in
  mul (div timeDiff (predictedTotal profile)) (n 100).

Definition goalFeasibility (profile : AthleteProfile) (goalTimeSeconds : option number)
  : Feasibility :=
  if isGoalMode goalTimeSeconds
  then let pd := percentDiff profile (goal_value goalTimeSeconds) in
       if ltb pd (n (-20)) then too_fast
       else if ltb pd (n (-10)) then aggressive
       else if ltb pd (n 10) then realistic
       else easy
  else realistic.

(** [Math.min(0.9, idx * 0.05)] *)
Definition fatigue_at (idx : number) : number :=
  min (lit 9 10) (mul idx (lit 5 100)).

Definition riskLevel_of (isGoal : bool) (f : Feasibility) (fatigue : number)
  : RiskLevel :=
  if isGoal then
    match f with
    | too_fast => critical
    | aggressive => if gtb fatigue (lit 4 10) then high else moderate
    | _ => if gtb fatigue (lit 6 10) then moderate else low
    end
  else if gtb fatigue (lit 6 10) then high
  else if gtb fatigue (lit 4 10) then moderate
  else low.

Definition is_high_risk (r : RiskLevel) : bool :=
  match r with high | critical => true | _ => false end.

(** The target time of one slot in the second pass; [runNum] is the run
    counter after its increment. *)
Definition segment_time (profile : AthleteProfile) (goalTimeSeconds : option number)
    (seg : Segment) (runNum : number) : number :=
  let isGoal := isGoalMode goalTimeSeconds in
  let scale := scaleFactor profile goalTimeSeconds in
  match type seg with
  | RUN =>
      let time := round (mul (baseTime seg) (degradation runNum)) in
      if isGoal then round (mul time scale) else time
  | _ =>
      let time :=
        if negb isGoal then station_modifiers profile seg
        else round (mul (baseTime seg) scale) in
      round time
  end.

Definition effort_of (isGoal : bool) (scale fatigue : number) : number :=
  min (n 100)
      (if isGoal
       then round (add (add (n 70) (mul (sub (div (n 1) scale) (n 1)) (n 50)))
                       (mul fatigue (n 20)))
       else add (n 70) (round (mul fatigue (n 30)))).

(** State of the second pass, [segments.map((seg, idx) => ...)]. *)
Record PlanState := {
  idx : Z;
  runNum : number;
  totalRunTime : number;
  totalStationTime : number;
  plans : list SegmentPlan
}.

Definition plan_step (profile : AthleteProfile) (goalTimeSeconds : option number)
    (st : PlanState) (seg : Segment) : PlanState :=
  let isGoal := isGoalMode goalTimeSeconds in
  let fatigue := fatigue_at (n (idx st)) in
  let is_run := SegmentType_eqb (type seg) RUN in
  let runNum' := if is_run then add (runNum st) (n 1) else runNum st in
  let time := segment_time profile goalTimeSeconds seg runNum' in
  let risk := riskLevel_of isGoal (goalFeasibility profile goalTimeSeconds) fatigue in
  let plan :=
    {| segment_order := add (n (idx st)) (n 1);
       segment_type := type seg;
       target_time_seconds := time;
       effort_percentage :=
         effort_of isGoal (scaleFactor profile goalTimeSeconds) fatigue;
       fatigue_level_entering := div (round (mul fatigue (n 100))) (n 100);
       fatigue_level_exiting :=
         div (round (mul (add fatigue (lit 5 100)) (n 100))) (n 100);
       risk_level := risk;
       risk_reason :=
         if is_high_risk risk
         then Some (if isGoal then "Aggressive pace required for goal"
                    else "High fatigue accumulated")%string
         else None |} in
  {| idx := idx st + 1;
     runNum := runNum';
     totalRunTime := if is_run then add (totalRunTime st) time else totalRunTime st;
     totalStationTime :=
       if is_run then totalStationTime st else add (totalStationTime st) time;
     plans := plans st ++ [plan] |}.

Definition plan_pass (profile : AthleteProfile) (goalTimeSeconds : option number)
  : PlanState :=
  fold_left (plan_step profile goalTimeSeconds) (segments profile)
    {| idx := 0; runNum := n 0; totalRunTime := n 0; totalStationTime := n 0;
       plans := [] |}.

Definition penaltyWarnings (profile : AthleteProfile) : list PenaltyWarning :=
  (match sled_comfort profile with
   | soul_crushing => [ {| station := SLED_PULL; time_penalty_seconds := n 15 |} ]
   | _ => []
   end)
  ++ (if ltb (wall_ball_unbroken_max profile) (n 20)
      then [ {| station := WALL_BALLS; time_penalty_seconds := n 15 |} ]
      else []).

Definition generateMockSimulation (profile : AthleteProfile)
    (goalTimeSeconds : option number) : RaceSimulation :=
  let tier := tier_of profile in
  let isGoal := isGoalMode goalTimeSeconds in
  let g := goal_value goalTimeSeconds in
  let feas := goalFeasibility profile goalTimeSeconds in
  let total := predictedTotal profile in
  let pass := plan_pass profile goalTimeSeconds in
  {| mode := if isGoal then goal else prediction;
     goal_time_seconds := goalTimeSeconds;
     goal_feasibility := if isGoal then Some feas else None;
     predictions :=
       {| conservative_seconds :=
            if isGoal then g else round (mul total (lit 105 100));
          likely_seconds := if isGoal then g else total;
          aggressive_seconds :=
            if isGoal then g else round (mul total (lit 95 100));
          confidence_score :=
            if isGoal
            then match feas with
                 | realistic => lit 75 100
                 | easy => lit 9 10
                 | aggressive => lit 4 10
                 | too_fast => lit 15 100
                 end
            else lit 72 100;
          predicted_finish_seconds := total |};
     segment_plans := plans pass;
     risk_analysis :=
       {| high_risk_segments :=
            map segment_order
                (filter (fun s => is_high_risk (risk_level s)) (plans pass));
          danger_runs := [n 5; n 8];
          primary_limiter :=
            (if isGoal
             then match feas with
                  | too_fast | aggressive => "goal_pace"
                  | _ => "execution"
                  end
             else if gtb (five_k_time_seconds profile) (n (26 * 60))
                  then "aerobic" else "pacing")%string;
          blow_up_probability :=
            if isGoal
            then match feas with
                 | too_fast => lit 8 10
                 | aggressive => lit 5 10
                 | _ => lit 2 10
                 end
            else match tier with
                 | beginner => lit 45 100
                 | intermediate => lit 3 10
                 | _ => lit 15 100
                 end;
          blow_up_zone := "Run 5 (mid-race wall)"%string |};
     penalty_warnings := penaltyWarnings profile;
     total_run_time_seconds := totalRunTime pass;
     total_station_time_seconds := totalStationTime pass;
     total_roxzone_time_seconds := roxzoneTime profile;
     estimated_tier := tier |}.

(** The state in which an [async] function's promise settles. *)
Inductive Promise (A : Type) :=
  | Resolved (value : A)
  | Rejected (reason : string).
Arguments Resolved {A} value.
Arguments Rejected {A} reason.

(** [SimulationResponse] without [shareable_link], which is formatted from
    the simulation's [id]. *)
Record SimulationResponse := { simulation : RaceSimulation }.

Definition USE_MOCK : bool := true.

Section RunSimulation.

(** The [POST /simulate] call of the branch taken when [USE_MOCK] is off. *)
Variable post_simulate :
  AthleteProfile -> option number -> Promise SimulationResponse.

Definition runSimulation (profile : AthleteProfile)
    (goalTimeSeconds : option number) : Promise SimulationResponse :=
  if USE_MOCK
  then Resolved {| simulation := generateMockSimulation profile goalTimeSeconds |}
  else post_simulate profile goalTimeSeconds.

End RunSimulation.

Definition not_finite_target (pl : SegmentPlan) : Prop :=
  is_finite (target_time_seconds pl) = false.

(** A backend that cannot be reached. *)
Definition offline (_ : AthleteProfile) (_ : option number)
  : Promise SimulationResponse :=
  Rejected "Network Error".

(** Scenario A: a 25:00 five-kilometre runner. *)
Definition scenarioA : AthleteProfile :=
  {| five_k_time_seconds := n 1500;
     sled_comfort := manageable;
     wall_ball_unbroken_max := n 25 |}.

(** A profile whose sixteen slot times sum to zero: the runs come out
    negative and cancel the stations. *)
Definition degenerate : AthleteProfile :=
  {| five_k_time_seconds := n (-1005);
     sled_comfort := soul_crushing;
     wall_ball_unbroken_max := n 25 |}.

(** A profile with a zero five-kilometre time and a negative wall-ball
    count. *)
Definition malformed : AthleteProfile :=
  {| five_k_time_seconds := n 0;
     sled_comfort := manageable;
     wall_ball_unbroken_max := n (-5) |}.

End Simulation.

(* ================================================================= *)
(** ** Dashboard store (store/dashboardStore.ts) *)

Module DashboardStore.
Import Js.

Definition SEGMENT_NAMES : list string :=
  [ "Run 1"; "SkiErg"; "Run 2"; "Sled Push";
    "Run 3"; "Sled Pull"; "Run 4"; "Burpee BJ";
    "Run 5"; "Row"; "Run 6"; "Farmers Carry";
    "Run 7"; "Lunges"; "Run 8"; "Wall Balls" ]%string.

Definition SEGMENT_TYPES : list string :=
  [ "RUN"; "SKI_ERG"; "RUN"; "SLED_PUSH";
    "RUN"; "SLED_PULL"; "RUN"; "BURPEE_BROAD_JUMP";
    "RUN"; "ROW"; "RUN"; "FARMERS_CARRY";
    "RUN"; "SANDBAG_LUNGES"; "RUN"; "WALL_BALLS" ]%string.

(** A name read from [SEGMENT_NAMES] is [None] where the read is
    [undefined]. *)
Record Participant := {
  id : string;
  name : string;
  isUser : bool;
  segmentsCompleted : number;
  currentSegmentIndex : number;
  elapsedSeconds : number;
  lastStationName : option string
}.

Record SegmentSplit := {
  segmentIndex : number;
  segmentName : option string;
  elapsedAtCompletion : number;
  splitSeconds : number
}.

Record DashboardState := {
  participants : list Participant;
  isActive : bool;
  splits : list SegmentSplit
}.

Definition initial : DashboardState :=
  {| participants := []; isActive := false; splits := [] |}.

(** [splits.length > 0 ? splits[splits.length - 1].elapsedAtCompletion : 0] *)
Definition lastElapsed (splits : list SegmentSplit) : number :=
  last (map elapsedAtCompletion splits) (of_Z 0).

Definition initLiveRace (displayName : string) (st : DashboardState)
  : DashboardState :=
  let user :=
    {| id := "user";
       name := if String.eqb displayName "" then "You" else displayName;
       isUser := true;
       segmentsCompleted := of_Z 0;
       currentSegmentIndex := of_Z 0;
       elapsedSeconds := of_Z 0;
       lastStationName := array_get SEGMENT_NAMES (of_Z 0) |}%string in
  {| participants := [user]; isActive := true; splits := [] |}.

Definition advanceSegment (currentElapsedSeconds : number) (st : DashboardState)
  : DashboardState :=
  match participants st with
  | [] => st
  | user :: _ =>
      if geb (segmentsCompleted user) (of_Z 16) then st
      else
        let prevElapsed := lastElapsed (splits st) in
        let newSplit :=
          {| segmentIndex := segmentsCompleted user;
             segmentName := array_get SEGMENT_NAMES (segmentsCompleted user);
             elapsedAtCompletion := currentElapsedSeconds;
             splitSeconds := sub currentElapsedSeconds prevElapsed |} in
        let newCompleted := add (segmentsCompleted user) (of_Z 1) in
        let newIndex := min newCompleted (of_Z 15) in
        {| participants :=
             [ {| id := id user; name := name user; isUser := isUser user;
                  segmentsCompleted := newCompleted;
                  currentSegmentIndex := newIndex;
                  elapsedSeconds := currentElapsedSeconds;
                  lastStationName :=
                    array_get SEGMENT_NAMES (min newCompleted (of_Z 15)) |} ];
           isActive := isActive st;
           splits := splits st ++ [newSplit] |}
  end.

Definition undoSegment (st : DashboardState) : DashboardState :=
  match participants st with
  | [] => st
  | user :: _ =>
      if leb (segmentsCompleted user) (of_Z 0)
         || (Nat.eqb (List.length (splits st)) 0)
      then st
      else
        let newSplits := removelast (splits st) in
        let newCompleted := sub (segmentsCompleted user) (of_Z 1) in
        let prevElapsed := lastElapsed newSplits in
        {| participants :=
             [ {| id := id user; name := name user; isUser := isUser user;
                  segmentsCompleted := newCompleted;
                  currentSegmentIndex := newCompleted;
                  elapsedSeconds := prevElapsed;
                  lastStationName := array_get SEGMENT_NAMES newCompleted |} ];
           isActive := isActive st;
           splits := newSplits |}
  end.

Definition updateElapsed (seconds : number) (st : DashboardState)
  : DashboardState :=
  match participants st with
  | [] => st
  | user :: _ =>
      {| participants :=
           [ {| id := id user; name := name user; isUser := isUser user;
                segmentsCompleted := segmentsCompleted user;
                currentSegmentIndex := currentSegmentIndex user;
                elapsedSeconds := seconds;
                lastStationName := lastStationName user |} ];
         isActive := isActive st;
         splits := splits st |}
  end.

Definition reset (st : DashboardState) : DashboardState := initial.

(** [SEGMENT_TYPES[Math.min(index, 15)]] *)
Definition getSegmentType (index : number) : option string :=
  array_get SEGMENT_TYPES (min index (of_Z 15)).

(** The calls of a live race that move the segment counter. *)
Inductive Call :=
  | AdvanceSegment (currentElapsedSeconds : number)
  | UndoSegment.

Definition call (st : DashboardState) (c : Call) : DashboardState :=
  match c with
  | AdvanceSegment t => advanceSegment t st
  | UndoSegment => undoSegment st
  end.

Definition calls (st : DashboardState) (cs : list Call) : DashboardState :=
  fold_left call cs st.

(** A race in which two segments were completed and the second one was
    undone. *)
Definition one_undone : DashboardState :=
  calls (initLiveRace "" initial)
        [AdvanceSegment (of_Z 95); AdvanceSegment (of_Z 340); UndoSegment].

(** The shape of the store during a live race with [k] segments completed:
    one participant, one split per completed segment, and the participant's
    index, elapsed time and station name as the last advance or undo left
    them. *)
Definition tracked (st : DashboardState) (k : nat) (user : Participant) : Prop :=
  participants st = [user] /\
  (k <= 16)%nat /\
  segmentsCompleted user = count k /\
  List.length (splits st) = k /\
  currentSegmentIndex user = count (Nat.min k 15) /\
  elapsedSeconds user = lastElapsed (splits st) /\
  lastStationName user = nth_error SEGMENT_NAMES (Nat.min k 15).

End DashboardStore.

(* ================================================================= *)
(** ** Race track mapper (lib/RaceTrackMapper.ts) *)

Module RaceTrackMapper.
Import Js.

Definition SEGMENT_ACTIVITIES : list string :=
  [ "Run 1"; "SkiErg"; "Run 2"; "Sled Push";
    "Run 3"; "Sled Pull"; "Run 4"; "Burpee BJ";
    "Run 5"; "Row"; "Run 6"; "Farmers Carry";
    "Run 7"; "Lunges"; "Run 8"; "Wall Balls" ]%string.

Record TrackPosition := {
  stationIndex : number;
  lapFraction : number;
  continuousPosition : number;
  isFinished : bool;
  currentActivity : string
}.

(** [Math.max(0, Math.min(16, segmentsCompleted))] *)
Definition clamp (segmentsCompleted : number) : number :=
  max (of_Z 0) (min (of_Z 16) segmentsCompleted).

Definition getTrackPosition (segmentsCompleted : number) : TrackPosition :=
  let clamped := clamp segmentsCompleted in
  if geb clamped (of_Z 16) then
    {| stationIndex := of_Z 7;
       lapFraction := of_Z 1;
       continuousPosition := of_Z 8;
       isFinished := true;
       currentActivity := "Finished" |}
  else
    let lap := floor (div clamped (of_Z 2)) in
    let withinLap := rem clamped (of_Z 2) in
    let lapFraction := if eqb withinLap (of_Z 0) then of_Z 0 else lit 5 10 in
    let continuousPosition := add lap lapFraction in
    let stationIndex := min lap (of_Z 7) in
    let currentActivity :=
      match array_get SEGMENT_ACTIVITIES clamped with
      | Some a => a
      | None => "Unknown"%string
      end in
    {| stationIndex := stationIndex;
       lapFraction := lapFraction;
       continuousPosition := continuousPosition;
       isFinished := false;
       currentActivity := currentActivity |}.

Definition start_position : TrackPosition :=
  {| stationIndex := of_Z 0;
     lapFraction := of_Z 0;
     continuousPosition := of_Z 0;
     isFinished := false;
     currentActivity := "Run 1" |}.

Definition finished_position : TrackPosition :=
  {| stationIndex := of_Z 7;
     lapFraction := of_Z 1;
     continuousPosition := of_Z 8;
     isFinished := true;
     currentActivity := "Finished" |}.

(** The values the lap can take below the finish. *)
Definition laps : list number := map count [0; 1; 2; 3; 4; 5; 6; 7]%nat.

(** The station index is within 0 .. 7 and the position within 0 .. 8. *)
Definition in_range (p : TrackPosition) : bool :=
  leb (of_Z 0) (stationIndex p) && leb (stationIndex p) (of_Z 7)
  && leb (of_Z 0) (continuousPosition p) && leb (continuousPosition p) (of_Z 8).

Definition position_of (k : nat) : number :=
  continuousPosition (getTrackPosition (count k)).

(** The position after [k] segments as the specification words it:
    floor (k / 2), plus 0.5 when [k] is odd. *)
Definition lap_position (k : nat) : number :=
  if Nat.odd k then add (count (k / 2)) (lit 5 10) else count (k / 2).

(** [(Math.max(0, Math.min(8, continuousPosition)) / 8) * 100] *)
Definition positionToPercent (continuousPosition : number) : number :=
  mul (div (max (of_Z 0) (min (of_Z 8) continuousPosition)) (of_Z 8)) (of_Z 100).

End RaceTrackMapper.

(* ================================================================= *)
(** ** Redline tracker (lib/RedlineTracker.ts) *)

Module RedlineTracker.
Import Js.

Definition REDLINE_THRESHOLD : number := lit 95 100.
Definition REDLINE_DURATION_MS : number := of_Z (2 * 60 * 1000).

(** The module-level variables. *)
Record Tracker := {
  redlineStartTime : option number;
  lastSampleTime : option number;
  alertCounter : number
}.

Definition initial : Tracker :=
  {| redlineStartTime := None; lastSampleTime := None; alertCounter := of_Z 0 |}.

(** [id] is the counter printed in [local-redline-<alertCounter>], and
    [triggered_at] the start time printed as an ISO date. *)
Record RedlineAlert := {
  id : number;
  triggered_at : number;
  hr_avg : number;
  hr_max_pct : number;
  duration_seconds : number;
  recovery_tip : string;
  resolved_at : option string
}.

Definition TIP_CRITICAL : string :=
  "CRITICAL: Walk immediately. Slow deep breaths for 60 seconds before resuming any effort.".
Definition TIP_EXTENDED : string :=
  "Extended redline detected. Walk the first 200m of the next run. Sip water at the next opportunity.".
Definition TIP_DEFAULT : string :=
  "HR sustained above 95% for 2+ minutes. Reduce effort by 10% on the next segment. Nasal breathing to bring HR down.".

Definition getRecoveryTip (hrPct durationSec : number) : string :=
  if geb hrPct (lit 98 100) then TIP_CRITICAL
  else if gtb durationSec (of_Z 180) then TIP_EXTENDED
  else TIP_DEFAULT.

Definition clear_start (now : number) (t : Tracker) : Tracker :=
  {| redlineStartTime := None; lastSampleTime := Some now;
     alertCounter := alertCounter t |}.

(** How a call ends: with a value returned or with an error thrown. *)
Inductive Completion (A : Type) :=
  | Returned (value : A)
  | Thrown (error : string).
Arguments Returned {A} value.
Arguments Thrown {A} error.

(** [new Date(x).toISOString()] throws a RangeError unless [x] is a time
    value: a finite number within 8.64e15 ms of the epoch. *)
Definition is_time_value (x : number) : bool :=
  is_finite x && leb (abs x) (of_Z 8640000000000000).

(** The tracker after the call, and how the call ended.  The alert's
    [triggered_at] is formatted after [alertCounter] is incremented and
    before the marker is cleared: when the formatting throws, the counter
    keeps its increment and the marker stays. *)
Definition recordHRSample (currentHR maxHR : option number) (now : number)
    (t : Tracker) : Tracker * Completion (option RedlineAlert) :=
  match currentHR, maxHR with
  | Some hr, Some mx =>
      if leb mx (of_Z 0) then (clear_start now t, Returned None)
      else
        let hrPct := div hr mx in
        if ltb hrPct REDLINE_THRESHOLD then (clear_start now t, Returned None)
        else
          match redlineStartTime t with
          | None =>
              ({| redlineStartTime := Some now; lastSampleTime := Some now;
                  alertCounter := alertCounter t |}, Returned None)
          | Some start =>
              let durationMs := sub now start in
              if geb durationMs REDLINE_DURATION_MS then
                let durationSec := round (div durationMs (of_Z 1000)) in
                let counter := add (alertCounter t) (of_Z 1) in
                if is_time_value start then
                  ({| redlineStartTime := None; lastSampleTime := Some now;
                      alertCounter := counter |},
                   Returned
                     (Some {| id := counter;
                              triggered_at := start;
                              hr_avg := hr;
                              hr_max_pct := hrPct;
                              duration_seconds := durationSec;
                              recovery_tip := getRecoveryTip hrPct durationSec;
                              resolved_at := None |}))
                else
                  ({| redlineStartTime := Some start;
                      lastSampleTime := Some now;
                      alertCounter := counter |},
                   Thrown "RangeError")
              else
                ({| redlineStartTime := Some start; lastSampleTime := Some now;
                    alertCounter := alertCounter t |}, Returned None)
          end
  | _, _ => (clear_start now t, Returned None)
  end.

Record RedlineStatus := { isInRedline : bool; secondsInRedline : number }.

Definition getRedlineStatus (now : number) (t : Tracker) : RedlineStatus :=
  match redlineStartTime t with
  | None => {| isInRedline := false; secondsInRedline := of_Z 0 |}
  | Some start =>
      {| isInRedline := true;
         secondsInRedline := round (div (sub now start) (of_Z 1000)) |}
  end.

Definition resetRedlineTracker (t : Tracker) : Tracker :=
  {| redlineStartTime := None; lastSampleTime := None;
     alertCounter := alertCounter t |}.

(** A sample stream, and the alerts the tracker returns over it, in order.
    A call that throws returns no alert, and the stream goes on with the
    tracker as that call left it. *)
Record Sample := { currentHR : option number; maxHR : option number; at_ms : number }.









End RedlineTracker.

(* ================================================================= *)
(** ** Coach engine (lib/CoachEngine.ts) *)

Module CoachEngine.
Import Js.

Record RaceState := {
  currentSegmentIndex : number;
  currentSegmentType : string;
  elapsedSeconds : number;
  targetElapsedSeconds : number;
  currentHR : option number;
  maxHR : option number;
  competitorDelta : option number
}.

Inductive CoachPriority := critical | warning | info.

(** A template literal, before its numbers are printed. *)
Inductive Part := Lit (s : string) | Num (x : number).

Record CoachTip := {
  message : list Part;
  priority : CoachPriority;
  context : list Part
}.

Definition SEGMENT_TIPS : list (string * string) :=
  [ ("RUN", "Steady rhythm, controlled breathing.");
    ("SKI_ERG", "Powerful pulls, pace the first 500m.");
    ("SLED_PUSH", "Stay low, drive through your legs.");
    ("SLED_PULL", "Hand over hand rhythm, steady pace.");
    ("BURPEE_BROAD_JUMP", "Controlled jumps, land soft.");
    ("ROW", "Strong drive, quick recovery.");
    ("FARMERS_CARRY", "Grip and go, short quick steps.");
    ("SANDBAG_LUNGES", "Step through, keep bag stable.");
    ("WALL_BALLS", "Catch and throw rhythm, break at 10s.") ]%string.

Fixpoint lookup (key : string) (table : list (string * string)) : option string :=
  match table with
  | [] => None
  | (k, v) :: rest => if String.eqb k key then Some v else lookup key rest
  end.

(** [currentHR && maxHR ? currentHR / maxHR : 0] *)
Definition hrPct (state : RaceState) : number :=
  match currentHR state, maxHR state with
  | Some hr, Some mx => if truthy hr && truthy mx then div hr mx else of_Z 0
  | _, _ => of_Z 0
  end.

Definition delta (state : RaceState) : number :=
  sub (elapsedSeconds state) (targetElapsedSeconds state).

Definition isEarlyRace (state : RaceState) : bool :=
  ltb (currentSegmentIndex state) (of_Z 6).

Definition hr_context (state : RaceState) : list Part :=
  [Lit "HR at "; Num (round (mul (hrPct state) (of_Z 100))); Lit "% of max"].

Definition critical_tip (state : RaceState) : CoachTip :=
  {| message := [Lit "HR critical -- walk first 100m after station."];
     priority := critical;
     context := hr_context state |}.

Definition ahead_tip (state : RaceState) : CoachTip :=
  let ahead := abs (round (delta state)) in
  {| message := [Num ahead; Lit "s ahead -- hold back. Save for Run 5+."];
     priority := warning;
     context := [Lit "Pacing too fast early"] |}.

Definition behind_tip (state : RaceState) : CoachTip :=
  let behind := round (delta state) in
  {| message := [Num behind; Lit "s behind. Steady effort, don't panic."];
     priority := warning;
     context := [Lit "Behind target pace"] |}.

Definition elevated_tip (state : RaceState) : CoachTip :=
  {| message := [Lit "HR elevated. Controlled breathing."];
     priority := info;
     context := hr_context state |}.

Definition competitor_tip (competitorDelta : number) : CoachTip :=
  let ahead := round competitorDelta in
  {| message := [Lit "Competitor "; Num ahead; Lit "s ahead. Stick to YOUR plan."];
     priority := info;
     context := [Lit "Competitor gap"] |}.

Definition default_tip (state : RaceState) : CoachTip :=
  let tip :=
    match lookup (currentSegmentType state) SEGMENT_TIPS with
    | Some tip => tip
    | None => "Stay focused, keep moving."%string
    end in
  {| message := [Lit tip];
     priority := info;
     context :=
       [Lit "Segment "; Num (add (currentSegmentIndex state) (of_Z 1)); Lit "/16"] |}.

Definition evaluate (state : RaceState) : CoachTip :=
  (* Rule 1: HR >= 93% max *)
  if geb (hrPct state) (lit 93 100) then critical_tip state
  (* Rule 2: >30s ahead of plan in early runs *)
  else if ltb (delta state) (of_Z (-30)) && isEarlyRace state then ahead_tip state
  (* Rule 3: >20s behind plan *)
  else if gtb (delta state) (of_Z 20) then behind_tip state
  (* Rule 4: HR 85-93% max *)
  else if geb (hrPct state) (lit 85 100) && ltb (hrPct state) (lit 93 100)
  then elevated_tip state
  else
    match competitorDelta state with
    (* Rule 5: competitor >15s ahead *)
    | Some cd => if gtb cd (of_Z 15) then competitor_tip cd else default_tip state
    (* Rule 6: default segment-specific tip *)
    | None => default_tip state
    end.

(** The same rules as a table of numbered conditions and outcomes, to state
    which rule an evaluation selected. *)
Definition rule_holds (k : nat) (state : RaceState) : bool :=
  match k with
  | 1%nat => geb (hrPct state) (lit 93 100)
  | 2%nat => ltb (delta state) (of_Z (-30)) && isEarlyRace state
  | 3%nat => gtb (delta state) (of_Z 20)
  | 4%nat => geb (hrPct state) (lit 85 100) && ltb (hrPct state) (lit 93 100)
  | 5%nat => match competitorDelta state with
             | Some cd => gtb cd (of_Z 15)
             | None => false
             end
  | 6%nat => true
  | _ => false
  end.

Definition rule_outcome (k : nat) (state : RaceState) : CoachTip :=
  match k with
  | 1%nat => critical_tip state
  | 2%nat => ahead_tip state
  | 3%nat => behind_tip state
  | 4%nat => elevated_tip state
  | 5%nat => competitor_tip match competitorDelta state with
                            | Some cd => cd
                            | None => NaN
                            end
  | _ => default_tip state
  end.

(** A state in which rules 1, 2 and 5 hold at once: heart rate at 180 of
    190, 200 s ahead of target on the second segment, a competitor 20 s
    ahead. *)
Definition overheated : RaceState :=
  {| currentSegmentIndex := of_Z 1;
     currentSegmentType := "SKI_ERG";
     elapsedSeconds := of_Z 100;
     targetElapsedSeconds := of_Z 300;
     currentHR := Some (of_Z 180);
     maxHR := Some (of_Z 190);
     competitorDelta := Some (of_Z 20) |}.

(** A heart rate of 150 against a max heart rate of 0, 100 s behind target
    on the second segment. *)
Definition zero_max : RaceState :=
  {| currentSegmentIndex := of_Z 1;
     currentSegmentType := "SKI_ERG";
     elapsedSeconds := of_Z 400;
     targetElapsedSeconds := of_Z 300;
     currentHR := Some (of_Z 150);
     maxHR := Some (of_Z 0);
     competitorDelta := None |}.

End CoachEngine.

(* ================================================================= *)
(** ** Race store (store/raceStore.ts) *)

Module RaceStore.
Import Js.

Inductive RacePhase := no_race | countdown | race_day.
Inductive LiveStatus := idle | running | paused | finished.

(** The fields of a calendar entry that the store reads. *)
Record HyroxRace := {
  id : string;
  date : option string;
  dateEnd : option string
}.

Record RaceState := {
  selectedRace : option HyroxRace;
  phase : RacePhase;
  liveStatus : LiveStatus;
  raceStartedAt : option number;
  racePausedElapsed : number;
  totalElapsedSeconds : number
}.

Definition initial : RaceState :=
  {| selectedRace := None; phase := no_race; liveStatus := idle;
     raceStartedAt := None; racePausedElapsed := of_Z 0;
     totalElapsedSeconds := of_Z 0 |}.

(** [isRaceDay] of data/raceCalendar.ts; [todayStr] is today's date as
    YYYY-MM-DD, and dates compare as strings. *)
Definition isRaceDay (todayStr : string) (race : HyroxRace) : bool :=
  match date race with
  | None => false
  | Some d =>
      if String.eqb d "" then false
      else match dateEnd race with
           | Some e =>
               if String.eqb e "" then String.eqb todayStr d
               else String.leb d todayStr && String.leb todayStr e
           | None => String.eqb todayStr d
           end
  end.

Definition computePhase (todayStr : string) (race : option HyroxRace) : RacePhase :=
  match race with
  | None => no_race
  | Some r => if isRaceDay todayStr r then race_day else countdown
  end.

(** [!raceStartedAt] is false exactly on a timestamp that is neither null,
    zero nor NaN. *)
Definition started (raceStartedAt : option number) : option number :=
  match raceStartedAt with
  | Some t => if truthy t then Some t else None
  | None => None
  end.

Definition selectRace (todayStr : string) (race : HyroxRace) (st : RaceState)
  : RaceState :=
  {| selectedRace := Some race;
     phase := computePhase todayStr (Some race);
     liveStatus := idle;
     raceStartedAt := None;
     racePausedElapsed := of_Z 0;
     totalElapsedSeconds := of_Z 0 |}.

Definition clearRace (st : RaceState) : RaceState :=
  {| selectedRace := None;
     phase := no_race;
     liveStatus := idle;
     raceStartedAt := None;
     racePausedElapsed := of_Z 0;
     totalElapsedSeconds := of_Z 0 |}.

Definition recomputePhase (todayStr : string) (st : RaceState) : RaceState :=
  match liveStatus st with
  | idle =>
      {| selectedRace := selectedRace st;
         phase := computePhase todayStr (selectedRace st);
         liveStatus := liveStatus st;
         raceStartedAt := raceStartedAt st;
         racePausedElapsed := racePausedElapsed st;
         totalElapsedSeconds := totalElapsedSeconds st |}
  | _ => st
  end.

Definition startRace (now : number) (st : RaceState) : RaceState :=
  {| selectedRace := selectedRace st;
     phase := race_day;
     liveStatus := running;
     raceStartedAt := Some now;
     racePausedElapsed := of_Z 0;
     totalElapsedSeconds := of_Z 0 |}.

Definition pauseRace (now : number) (st : RaceState) : RaceState :=
  match started (raceStartedAt st) with
  | None => st
  | Some t =>
      let runningMs := sub now t in
      {| selectedRace := selectedRace st;
         phase := phase st;
         liveStatus := paused;
         raceStartedAt := None;
         racePausedElapsed := add (racePausedElapsed st) runningMs;
         totalElapsedSeconds := totalElapsedSeconds st |}
  end.

Definition resumeRace (now : number) (st : RaceState) : RaceState :=
  {| selectedRace := selectedRace st;
     phase := phase st;
     liveStatus := running;
     raceStartedAt := Some now;
     racePausedElapsed := racePausedElapsed st;
     totalElapsedSeconds := totalElapsedSeconds st |}.

Definition finishRace (now : number) (st : RaceState) : RaceState :=
  let totalMs :=
    match started (raceStartedAt st) with
    | Some t => add (racePausedElapsed st) (sub now t)
    | None => racePausedElapsed st
    end in
  {| selectedRace := selectedRace st;
     phase := phase st;
     liveStatus := finished;
     raceStartedAt := None;
     racePausedElapsed := racePausedElapsed st;
     totalElapsedSeconds := floor (div totalMs (of_Z 1000)) |}.

Definition tickElapsed (now : number) (st : RaceState) : RaceState :=
  match liveStatus st, started (raceStartedAt st) with
  | running, Some t =>
      let totalMs := add (racePausedElapsed st) (sub now t) in
      {| selectedRace := selectedRace st;
         phase := phase st;
         liveStatus := liveStatus st;
         raceStartedAt := raceStartedAt st;
         racePausedElapsed := racePausedElapsed st;
         totalElapsedSeconds := floor (div totalMs (of_Z 1000)) |}
  | _, _ => st
  end.

(** [loadPersistedRace] once the stored value is read: [found] is the
    calendar entry with the stored id, if the value parsed and one exists. *)
Definition loadPersistedRace (todayStr : string) (found : option HyroxRace)
    (st : RaceState) : RaceState :=
  match found with
  | Some race =>
      {| selectedRace := Some race;
         phase := computePhase todayStr (Some race);
         liveStatus := liveStatus st;
         raceStartedAt := raceStartedAt st;
         racePausedElapsed := racePausedElapsed st;
         totalElapsedSeconds := totalElapsedSeconds st |}
  | None => st
  end.

(** The operations of the store; [now] is the value of [Date.now()] and
    [todayStr] the date at the time of the call. *)
Inductive Op :=
  | SelectRace (todayStr : string) (race : HyroxRace)
  | ClearRace
  | RecomputePhase (todayStr : string)
  | StartRace (now : number)
  | PauseRace (now : number)
  | ResumeRace (now : number)
  | FinishRace (now : number)
  | TickElapsed (now : number)
  | LoadPersistedRace (todayStr : string) (found : option HyroxRace).

Definition apply (st : RaceState) (op : Op) : RaceState :=
  match op with
  | SelectRace today race => selectRace today race st
  | ClearRace => clearRace st
  | RecomputePhase today => recomputePhase today st
  | StartRace now => startRace now st
  | PauseRace now => pauseRace now st
  | ResumeRace now => resumeRace now st
  | FinishRace now => finishRace now st
  | TickElapsed now => tickElapsed now st
  | LoadPersistedRace today found => loadPersistedRace today found st
  end.

(** The states the store can be in: its initial state and whatever the
    operations make of it. *)
Inductive reachable : RaceState -> Prop :=
  | reach_initial : reachable initial
  | reach_step st op : reachable st -> reachable (apply st op).

(** A race started and, an hour later, finished. *)
Definition finished_session : RaceState :=
  apply (apply initial (StartRace (of_Z 1700000000000)))
        (FinishRace (of_Z 1700003600000)).

End RaceStore.

(* ================================================================= *)
(** ** The pacing plan, slot by slot *)

Module PlanShape.
Import Js Simulation.

(** The sixteen slots in race order. *)
Definition slot_types : list SegmentType :=
  [ RUN; SKI_ERG; RUN; SLED_PUSH; RUN; SLED_PULL; RUN; BURPEE_BROAD_JUMP;
    RUN; ROW; RUN; FARMERS_CARRY; RUN; SANDBAG_LUNGES; RUN; WALL_BALLS ].

(** The slot indices [from, from + 1, ...], [len] of them. *)
Fixpoint slots_from (from : Z) (len : nat) : list Z :=
  match len with
  | O => []
  | S len' => from :: slots_from (from + 1) len'
  end.

(** What [plan_step] writes into the entry of slot [i] besides its time. *)
Definition slot_order (i : Z) : number := add (n i) (n 1).

Definition slot_risk (profile : AthleteProfile) (goalTimeSeconds : option number)
    (i : Z) : RiskLevel :=
  riskLevel_of (isGoalMode goalTimeSeconds)
               (goalFeasibility profile goalTimeSeconds) (fatigue_at (n i)).

Definition slot_effort (profile : AthleteProfile)
    (goalTimeSeconds : option number) (i : Z) : number :=
  effort_of (isGoalMode goalTimeSeconds)
            (scaleFactor profile goalTimeSeconds) (fatigue_at (n i)).

Definition slot_fatigue (i : Z) : number * number :=
  (div (round (mul (fatigue_at (n i)) (n 100))) (n 100),
   div (round (mul (add (fatigue_at (n i)) (lit 5 100)) (n 100))) (n 100)).

(** The order and risk level of a plan entry. *)
Definition order_and_risk (pl : SegmentPlan) : number * RiskLevel :=
  (segment_order pl, risk_level pl).

Definition low_moderate_high : list RiskLevel :=
  repeat low 9 ++ repeat moderate 3 ++ repeat high 4.

Definition in_unit_interval (x : number) : bool :=
  leb (n 0) x && leb x (n 1).

(** The five-kilometre times of each tier, as bounds. *)
Definition tier_bounds (tier : PerformanceTier) (x : number) : bool :=
  match tier with
  | elite => ltb x (n 1200)
  | advanced => leb (n 1200) x && ltb x (n 1440)
  | intermediate => (leb (n 1440) x && leb x (n 1800)) || is_nan x
  | beginner => gtb x (n 1800)
  | recreational => false
  end.

End PlanShape.

(* ================================================================= *)
(** ** A session of the dashboard store *)

Module LiveRace.
Import Js DashboardStore.

(** The five actions of the store. *)
Inductive Action :=
  | InitLiveRace (displayName : string)
  | Advance (currentElapsedSeconds : number)
  | Undo
  | UpdateElapsed (seconds : number)
  | Reset.

Definition dispatch (st : DashboardState) (a : Action) : DashboardState :=
  match a with
  | InitLiveRace displayName => initLiveRace displayName st
  | Advance t => advanceSegment t st
  | Undo => undoSegment st
  | UpdateElapsed seconds => updateElapsed seconds st
  | Reset => reset st
  end.

(** The store after a list of actions on the store as created. *)
Definition session (acts : list Action) : DashboardState :=
  fold_left dispatch acts initial.

(** The split list as [advanceSegment] writes it: entry [i] carries the
    index [i], the name of segment [i], and as split time its completion
    time less the completion time of the entry before it ([prev] for the
    first). *)
Fixpoint recorded (i : nat) (prev : number) (sp : list SegmentSplit) : Prop :=
  match sp with
  | [] => True
  | s :: rest =>
      segmentIndex s = count i /\
      segmentName s = nth_error SEGMENT_NAMES i /\
      splitSeconds s = sub (elapsedAtCompletion s) prev /\
      recorded (S i) (elapsedAtCompletion s) rest
  end.

(** The store during a live race with [k] segments completed. *)
Definition live (st : DashboardState) (k : nat) (user : Participant) : Prop :=
  participants st = [user] /\
  isActive st = true /\
  (k <= 16)%nat /\
  id user = "user"%string /\
  isUser user = true /\
  segmentsCompleted user = count k /\
  currentSegmentIndex user = count (Nat.min k 15) /\
  lastStationName user = nth_error SEGMENT_NAMES (Nat.min k 15) /\
  List.length (splits st) = k /\
  recorded 0 (of_Z 0) (splits st).

(** What the store can be after any list of actions. *)
Definition reached (st : DashboardState) : Prop :=
  st = initial \/ exists k user, live st k user.

(** A session with a re-initialisation, timer ticks between the segments
    and an undo. *)
Definition ticking : list Action :=
  [ Advance (of_Z 5); InitLiveRace "Kim"; UpdateElapsed (of_Z 60);
    Advance (of_Z 95); UpdateElapsed (of_Z 200); Advance (of_Z 340);
    UpdateElapsed (of_Z 350) ].

End LiveRace.

(* ================================================================= *)
(** ** The track marker *)

Module TrackMarker.
Import Js RaceTrackMapper.

(** Where the marker is drawn for a count of completed segments:
    [positionToPercent(getTrackPosition(n).continuousPosition)]. *)
Definition marker_percent (segmentsCompleted : number) : number :=
  positionToPercent (continuousPosition (getTrackPosition segmentsCompleted)).

(** The seventeen marks 0, 6.25, ..., 100. *)
Definition sixteenths : list number :=
  map (fun k => mul (count k) (lit 625 100)) (seq 0 17).

End TrackMarker.

(* ================================================================= *)
(** ** The redline tracker over a mounted dashboard *)

Module RedlineSession.
Import Js RedlineTracker.

(** What happens to the tracker: a sample is recorded, or the dashboard
    unmounts and resets it. *)
Inductive Event :=
  | Sampled (s : Sample)
  | Unmounted.

(** What a call that reaches the two-minute mark leaves behind: the alert
    it returns, or, when it throws, the counter as it stands after the
    call. *)
Inductive Firing :=
  | Alerted (a : RedlineAlert)
  | Failed (counter : number).

(** The firings over a list of events, in order.  A call that throws
    returns nothing to its caller, and the next event finds the tracker as
    that call left it. *)
Fixpoint play (t : Tracker) (events : list Event) : Tracker * list Firing :=
  match events with
  | [] => (t, [])
  | Sampled s :: rest =>
      let '(t', c) := recordHRSample (currentHR s) (maxHR s) (at_ms s) t in
      let '(t'', firings) := play t' rest in
      (t'', match c with
            | Returned (Some x) => Alerted x :: firings
            | Returned None => firings
            | Thrown _ => Failed (alertCounter t') :: firings
            end)
  | Unmounted :: rest => play (resetRedlineTracker t) rest
  end.

(** The alerts returned, among the firings. *)
Definition alerts_of (firings : list Firing) : list RedlineAlert :=
  flat_map (fun f => match f with Alerted a => [a] | Failed _ => [] end) firings.

(** The counter value a firing took. *)
Definition number_of (f : Firing) : number :=
  match f with
  | Alerted a => id a
  | Failed counter => counter
  end.


(** [len] increments of a counter that stands at [c]. *)
Fixpoint counting_from (c : number) (len : nat) : list number :=
  match len with
  | O => []
  | S len' => add c (of_Z 1) :: counting_from (add c (of_Z 1)) len'
  end.

(** 1 while an excursion is open, 0 otherwise. *)
Definition open_excursion (t : Tracker) : nat :=
  match redlineStartTime t with Some _ => 1 | None => 0 end.

End RedlineSession.

(* ================================================================= *)
(** ** Scout engine (lib/ScoutEngine.ts) *)

Module ScoutEngine.
Import Js CoachEngine RaceTrackMapper DashboardStore.

(** Unary minus. *)
Definition opp : number -> number := SFopp.

(** [Math.ceil]: a zero result keeps the sign of the argument. *)
Definition ceil (x : number) : number :=
  match x with
  | S754_finite s m (Zneg k) =>
      integral s (- ((- cond_Zopp s (Zpos m)) / 2 ^ Zpos k))
  | _ => x
  end.

Inductive ScoutCategory :=
  | gap_analysis
  | pace_projection
  | critical_moment
  | general.

(** [detail] is [None] where it is read from [HARD_STATION_TIPS] and the
    read is [undefined]. *)
Record ScoutInsight := {
  headline : list Part;
  detail : option (list Part);
  category : ScoutCategory
}.

Definition STATION_SHORT_LABELS : list string :=
  [ "SKI"; "PUSH"; "PULL"; "BBJ"; "ROW"; "FARM"; "LUNG"; "WALL" ]%string.

Definition HARD_STATION_TIPS : list (string * string) :=
  [ ("Sled Pull",
     "Sled Pull is a grip-killer. Hand-over-hand rhythm — short pulls, never stop moving. Save legs for the run after.");
    ("Burpee BJ",
     "Burpee Broad Jumps tax the legs hard. Controlled landings, step back instead of jumping back to save energy.");
    ("Lunges",
     "Lunges are the quad-burner. Short steps, upright torso. Break into sets of 10 if needed — walking rest costs less than blowing up.");
    ("Wall Balls",
     "Wall Balls are the final push. Break early (sets of 10-15) rather than going to failure. Catch-and-throw rhythm is everything.")
  ]%string.

Definition HARD_STATIONS : list string :=
  [ "Sled Pull"; "Burpee BJ"; "Lunges"; "Wall Balls" ]%string.

(** [Set.prototype.has] *)
Definition has (set : list string) (x : string) : bool :=
  existsb (String.eqb x) set.

(** A string or [undefined] inside a template literal. *)
Definition text (x : option string) : Part :=
  match x with
  | Some s => Lit s
  | None => Lit "undefined"
  end.

Definition expectedSegments (elapsedSeconds : number) : number :=
  div elapsedSeconds (of_Z 270).

(** [competitors.reduce((best, c) => ..., null)] *)
Definition leader_of (competitors : list Participant) : option Participant :=
  fold_left
    (fun best c =>
       match best with
       | None => Some c
       | Some b =>
           if gtb (segmentsCompleted c) (segmentsCompleted b)
           then Some c else Some b
       end)
    competitors None.

(** Rule 1: the leader is two or more segments ahead. *)
Definition gap_insight (user leader : Participant) : ScoutInsight :=
  let userPos := getTrackPosition (segmentsCompleted user) in
  let gap := sub (segmentsCompleted leader) (segmentsCompleted user) in
  let leaderPos := getTrackPosition (segmentsCompleted leader) in
  let passStation :=
    array_get STATION_SHORT_LABELS
              (min (add (stationIndex userPos) (of_Z 1)) (of_Z 7)) in
  {| headline := [Lit (name leader); Lit " is "; Num gap; Lit " segments ahead"];
     detail :=
       Some [ Lit "They're at "; Lit (currentActivity leaderPos);
              Lit ". Your best chance to close: "; text passStation;
              Lit " station — fast transition, no rest between." ];
     category := gap_analysis |}.

(** [${segDiff === 1 ? '' : 's'}] *)
Definition plural_unless (one : bool) : Part :=
  Lit (if one then EmptyString else "s").

(** Rule 1b: the leader is at most one segment ahead and more than 30 s
    apart. *)
Definition close_insight (user leader : Participant) : option ScoutInsight :=
  let segDiff := sub (segmentsCompleted leader) (segmentsCompleted user) in
  let timeDiff := sub (elapsedSeconds leader) (elapsedSeconds user) in
  if geb segDiff (of_Z 0) && leb segDiff (of_Z 1) && gtb (abs timeDiff) (of_Z 30)
  then
    let ahead := gtb timeDiff (of_Z 0) in
    let gapSec := abs timeDiff in
    if ahead then
      Some {| headline :=
                [Lit (name leader); Lit " is "; Num gapSec;
                 Lit "s slower — closeable"];
              detail :=
                Some [ Lit "Only "; Num segDiff; Lit " segment";
                       plural_unless (eqb segDiff (of_Z 1));
                       Lit " apart and they're burning more time. Maintain your pace and you'll pull away." ];
              category := gap_analysis |}
    else
      Some {| headline :=
                [Num gapSec; Lit "s gap to "; Lit (name leader);
                 Lit " — within striking distance"];
              detail :=
                Some [ Lit "They're faster by "; Num gapSec; Lit "s but only ";
                       Num segDiff; Lit " segment";
                       plural_unless (eqb segDiff (of_Z 1));
                       Lit " ahead. A fast station transition can close this." ];
              category := gap_analysis |}
  else None.

(** [-paceDelta * 270], the seconds behind the reference pace of 270 s a
    segment. *)
Definition behindSeconds (user : Participant) : number :=
  let expected := expectedSegments (elapsedSeconds user) in
  let paceDelta := sub (segmentsCompleted user) expected in
  mul (opp paceDelta) (of_Z 270).

Definition behind_insight (behindSeconds : number) : ScoutInsight :=
  let behind := round behindSeconds in
  {| headline := [Lit "~"; Num behind; Lit "s behind target pace"];
     detail :=
       Some [Lit "Don't panic — reduce transition time between stations. Walk-jog the first 200m of runs, then build."];
     category := pace_projection |}.

Definition ahead_insight (behindSeconds : number) : ScoutInsight :=
  let ahead := round (abs behindSeconds) in
  {| headline := [Num ahead; Lit "s ahead of pace — banking time early"];
     detail :=
       Some [Lit "You have a buffer, but blowing up in the second half is the #1 HYROX mistake. Ease off 5% on the next run."];
     category := pace_projection |}.

(** The object [{5: 'Sled Pull', 7: 'Burpee BJ', 13: 'Lunges',
    15: 'Wall Balls'}] read at a number. *)
Definition nextNames (x : number) : option string :=
  match to_integer x with
  | Some 5 => Some "Sled Pull"
  | Some 7 => Some "Burpee BJ"
  | Some 13 => Some "Lunges"
  | Some 15 => Some "Wall Balls"
  | _ => None
  end%string.

Definition tip_of (station : string) : option (list Part) :=
  match lookup station HARD_STATION_TIPS with
  | Some tip => Some [Lit tip]
  | None => None
  end.

(** Rule 3, first half: on a run, with a hard station next. *)
Definition approaching (user : Participant) (currentActivity : string)
  : option ScoutInsight :=
  if String.prefix "Run" currentActivity
     && ltb (segmentsCompleted user) (of_Z 15)
  then
    let nextSegmentIndex := add (segmentsCompleted user) (of_Z 1) in
    match nextNames nextSegmentIndex with
    | Some nextStation =>
        if negb (String.eqb nextStation EmptyString)
           && has HARD_STATIONS nextStation
        then
          Some {| headline := [Lit nextStation; Lit " is next — prepare now"];
                  detail := tip_of nextStation;
                  category := critical_moment |}
        else None
    | None => None
    end
  else None.

(** Rule 3, second half: on a hard station. *)
Definition on_station (currentActivity : string) : ScoutInsight :=
  {| headline := [Lit "In "; Lit currentActivity; Lit " — stay composed"];
     detail := tip_of currentActivity;
     category := critical_moment |}.

(** Rule 4. *)
Definition general_insight (user : Participant) (currentActivity : string)
  : ScoutInsight :=
  let stationsLeft :=
    sub (of_Z 8) (ceil (div (segmentsCompleted user) (of_Z 2))) in
  {| headline :=
       [ Lit currentActivity; Lit " — "; Num stationsLeft; Lit " station";
         Lit (if negb (eqb stationsLeft (of_Z 1)) then "s" else EmptyString);
         Lit " remaining" ];
     detail :=
       Some [Lit "Steady rhythm. Focus on smooth transitions — every second saved between stations adds up."];
     category := general |}.

(** Rules 2 to 4, which look at the user alone. *)
Definition own_insight (user : Participant) : ScoutInsight :=
  let userPos := getTrackPosition (segmentsCompleted user) in
  let behindSeconds := behindSeconds user in
  if gtb behindSeconds (of_Z 45) then behind_insight behindSeconds
  else if ltb behindSeconds (of_Z (-45))
          && ltb (segmentsCompleted user) (of_Z 8)
  then ahead_insight behindSeconds
  else
    let currentActivity := currentActivity userPos in
    match approaching user currentActivity with
    | Some insight => insight
    | None =>
        if has HARD_STATIONS currentActivity then on_station currentActivity
        else general_insight user currentActivity
    end.

Definition generateInsight (user : Participant) (competitors : list Participant)
  : ScoutInsight :=
  let leader := leader_of competitors in
  let about_leader :=
    match leader with
    | Some leader =>
        if geb (sub (segmentsCompleted leader) (segmentsCompleted user)) (of_Z 2)
        then Some (gap_insight user leader)
        else close_insight user leader
    | None => None
    end in
  match about_leader with
  | Some insight => insight
  | None => own_insight user
  end.

(** The counts of completed segments at which a hard station is next or
    under way. *)
Definition hard_stretch (k : nat) : bool :=
  existsb (Nat.eqb k) [4; 5; 6; 7; 12; 13; 14; 15]%nat.

(** A participant on the reference pace. *)
Definition on_pace (k : nat) : Participant :=
  {| id := "user"; name := "You"; isUser := true;
     segmentsCompleted := count k;
     currentSegmentIndex := count (Nat.min k 15);
     elapsedSeconds := of_Z (270 * Z.of_nat k);
     lastStationName := nth_error SEGMENT_NAMES (Nat.min k 15) |}.

End ScoutEngine.

(* ================================================================= *)
(** ** Wearable service and store (services/WearableService.ts,
       store/wearableStore.ts) *)

Module WearableService.
Import Js Simulation.

(** The service as shipped: the native health modules are not installed. *)
Definition isAvailable : bool := false.

Definition requestPermissions : Promise bool := Resolved false.

Record Reading := { heartRate : option number; calories : option number }.

Definition readLatestHR : Promise Reading :=
  Resolved {| heartRate := None; calories := None |}.

End WearableService.

Module WearableStore.
Import Js Simulation.

(** [RedlineAlert] as the backend returns it (types/auth.ts). *)
Record Alert := {
  id : string;
  triggered_at : string;
  hr_avg : number;
  hr_max_pct : number;
  duration_seconds : number;
  recovery_tip : string;
  resolved_at : option string
}.

(** The store's fields, and the service's [pollTimer] (set or [null]). *)
Record WearableState := {
  isConnected : bool;
  isMonitoring : bool;
  currentHR : option number;
  activeAlerts : list Alert;
  pollTimer : bool
}.

Definition initial : WearableState :=
  {| isConnected := false; isMonitoring := false; currentHR := None;
     activeAlerts := []; pollTimer := false |}.

Inductive Action :=
  | Connect
  | StartMonitoring (competitorId : option string)
  | StopMonitoring
  | FetchAlerts (competitorId : option string)
  | DismissAlert (alertId : string).

Section Backend.

(** The calls of the branches taken when [USE_MOCK] is off, and the clock
    read by the mock of [resolveAlert]. *)
Variable get_alerts : Promise (list Alert).
Variable get_competitor_alerts : string -> Promise (list Alert).
Variable post_resolve : string -> Promise Alert.
Variable now_iso : string.

Definition getActiveAlerts : Promise (list Alert) :=
  if USE_MOCK then Resolved [] else get_alerts.

Definition getCompetitorAlerts (competitorId : string) : Promise (list Alert) :=
  if USE_MOCK then Resolved [] else get_competitor_alerts competitorId.

Definition resolveAlert (alertId : string) : Promise Alert :=
  if USE_MOCK
  then Resolved {| id := alertId; triggered_at := EmptyString;
                   hr_avg := of_Z 0; hr_max_pct := of_Z 0;
                   duration_seconds := of_Z 0; recovery_tip := EmptyString;
                   resolved_at := Some now_iso |}
  else post_resolve alertId.

(** [connect]: the store after the call and the value its promise settles
    with. *)
Definition connect (st : WearableState) : WearableState * Promise bool :=
  if negb WearableService.isAvailable then (st, Resolved false)
  else
    match WearableService.requestPermissions with
    | Resolved granted =>
        ({| isConnected := granted; isMonitoring := isMonitoring st;
            currentHR := currentHR st; activeAlerts := activeAlerts st;
            pollTimer := pollTimer st |}, Resolved granted)
    | Rejected reason => (st, Rejected reason)
    end.

(** The rest of [startMonitoring] once connected: the service starts its
    timer, the store is marked, and [updateHR] reads the heart rate once. *)
Definition monitor (st : WearableState) : WearableState :=
  let hr :=
    match WearableService.readLatestHR with
    | Resolved r =>
        match WearableService.heartRate r with
        | Some heartRate => Some heartRate
        | None => currentHR st
        end
    | Rejected _ => currentHR st
    end in
  {| isConnected := isConnected st; isMonitoring := true;
     currentHR := hr; activeAlerts := activeAlerts st;
     pollTimer := true |}.

Definition startMonitoring (st : WearableState) : WearableState :=
  if negb (isConnected st) then
    match connect st with
    | (st', Resolved granted) => if negb granted then st' else monitor st'
    | (st', Rejected _) => st'
    end
  else monitor st.

Definition stopMonitoring (st : WearableState) : WearableState :=
  {| isConnected := isConnected st; isMonitoring := false;
     currentHR := None; activeAlerts := activeAlerts st;
     pollTimer := false |}.

Definition fetchAlerts (competitorId : option string) (st : WearableState)
  : WearableState :=
  let request :=
    match competitorId with
    | Some c =>
        if String.eqb c EmptyString then getActiveAlerts
        else getCompetitorAlerts c
    | None => getActiveAlerts
    end in
  match request with
  | Resolved alerts =>
      {| isConnected := isConnected st; isMonitoring := isMonitoring st;
         currentHR := currentHR st; activeAlerts := alerts;
         pollTimer := pollTimer st |}
  | Rejected _ => st
  end.

Definition dismissAlert (alertId : string) (st : WearableState)
  : WearableState :=
  match resolveAlert alertId with
  | Resolved _ =>
      {| isConnected := isConnected st; isMonitoring := isMonitoring st;
         currentHR := currentHR st;
         activeAlerts :=
           filter (fun a => negb (String.eqb (id a) alertId)) (activeAlerts st);
         pollTimer := pollTimer st |}
  | Rejected _ => st
  end.

(** One call of the store, run until its promise has settled. *)
Definition dispatch (st : WearableState) (a : Action) : WearableState :=
  match a with
  | Connect => fst (connect st)
  | StartMonitoring _ => startMonitoring st
  | StopMonitoring => stopMonitoring st
  | FetchAlerts competitorId => fetchAlerts competitorId st
  | DismissAlert alertId => dismissAlert alertId st
  end.

Definition session (acts : list Action) : WearableState :=
  fold_left dispatch acts initial.

End Backend.

End WearableStore.

(* ================================================================= *)
(** ** The live screen's engines (screens/AgentDashboard.tsx) *)

Module AgentDashboard.
Import Js CoachEngine ScoutEngine RedlineTracker DashboardStore.

(** The component state that [updateEngines] writes, and the tracker's
    module-level variables. *)
Record Screen := {
  coachTip : option CoachTip;
  scoutInsight : option ScoutInsight;
  localAlerts : list RedlineAlert;
  redlineStatus : RedlineStatus;
  tracker : Tracker
}.

Definition mounted : Screen :=
  {| coachTip := None;
     scoutInsight := None;
     localAlerts := [];
     redlineStatus := {| isInRedline := false; secondsInRedline := of_Z 0 |};
     tracker := RedlineTracker.initial |}.

(** [user?.max_hr || null] *)
Definition or_null (max_hr : option number) : option number :=
  match max_hr with
  | Some v => if truthy v then Some v else None
  | None => None
  end.

(** The key under which [SEGMENT_TIPS] is read: a string, or [undefined]
    as the key it is converted to. *)
Definition key_of (segmentType : option string) : string :=
  match segmentType with
  | Some ty => ty
  | None => "undefined"
  end.

(** The state handed to [evaluate]. *)
Definition coach_state (userP : Participant) (hr max_hr : option number)
  : RaceState :=
  let targetElapsed := mul (segmentsCompleted userP) (of_Z 300) in
  {| CoachEngine.currentSegmentIndex := currentSegmentIndex userP;
     currentSegmentType := key_of (getSegmentType (currentSegmentIndex userP));
     CoachEngine.elapsedSeconds := elapsedSeconds userP;
     targetElapsedSeconds := targetElapsed;
     CoachEngine.currentHR := hr;
     CoachEngine.maxHR := or_null max_hr;
     competitorDelta := None |}.

(** [updateEngines], with the store's state, the wearable store's heart
    rate, the signed-in user's [max_hr] and the two clock readings (of
    [recordHRSample] and of [getRedlineStatus]) passed in: the component
    state and the tracker after the call, and how the call ended.  When
    [recordHRSample] throws, the tip and the insight are already set and the
    alerts and the status are not touched. *)
Definition updateEngines (store : DashboardState) (hr max_hr : option number)
    (now now' : number) (scr : Screen) : Screen * Completion unit :=
  match participants store with
  | [] => (scr, Returned tt)
  | userP :: _ =>
      let tip := evaluate (coach_state userP hr max_hr) in
      let insight := generateInsight userP [] in
      match recordHRSample hr (or_null max_hr) now (tracker scr) with
      | (tracker', Returned alert) =>
          ({| coachTip := Some tip;
              scoutInsight := Some insight;
              localAlerts :=
                match alert with
                | Some a => a :: localAlerts scr
                | None => localAlerts scr
                end;
              redlineStatus := getRedlineStatus now' tracker';
              tracker := tracker' |}, Returned tt)
      | (tracker', Thrown error) =>
          ({| coachTip := Some tip;
              scoutInsight := Some insight;
              localAlerts := localAlerts scr;
              redlineStatus := redlineStatus scr;
              tracker := tracker' |}, Thrown error)
      end
  end.

(** The tips that read no heart rate. *)
Definition pace_tips (state : RaceState) : list CoachTip :=
  [ahead_tip state; behind_tip state; default_tip state].

(** The seconds at which, with [k] segments completed, the elapsed time is
    more than 45 s over 270 s a segment and more than 30 s under 300 s a
    segment. *)
Definition between_paces (k e : Z) : bool :=
  (270 * k + 45 <? e) && (e <? 300 * k - 30).

(** A participant with [k] segments completed at [e] seconds. *)
Definition participant_at (k e : Z) : Participant :=
  {| id := "user"; name := "You"; isUser := true;
     segmentsCompleted := of_Z k;
     currentSegmentIndex := of_Z k;
     elapsedSeconds := of_Z e;
     lastStationName := array_get SEGMENT_NAMES (of_Z k) |}.

(** The conditions of the coach's ahead rule and of the scout's behind rule
    on such a participant. *)
Definition ahead_and_behind (k e : Z) : bool :=
  let userP := participant_at k e in
  let state := coach_state userP None None in
  ltb (delta state) (of_Z (-30)) && isEarlyRace state
  && gtb (behindSeconds userP) (of_Z 45).

(** The integers [lo + 1 .. hi - 1]. *)
Definition strictly_between (lo hi : Z) : list Z :=
  map (fun i => lo + 1 + Z.of_nat i) (seq 0 (Z.to_nat (hi - lo - 1))).

End AgentDashboard.

(* ================================================================= *)
(** ** The controls of the live screen (screens/AgentDashboard.tsx) *)

Module LiveTracking.
Import Js.

(** The two stores the screen drives. *)
Record World := {
  race : RaceStore.RaceState;
  dashboard : DashboardStore.DashboardState
}.

Inductive Control :=
  | Start
  | Pause
  | Resume
  | Finish
  | NewRace
  | NextSegment
  | Undo.

(** [participants[0]] *)
Definition userP (w : World) : option DashboardStore.Participant :=
  head (DashboardStore.participants (dashboard w)).

Definition is_status (a b : RaceStore.LiveStatus) : bool :=
  match a, b with
  | RaceStore.idle, RaceStore.idle
  | RaceStore.running, RaceStore.running
  | RaceStore.paused, RaceStore.paused
  | RaceStore.finished, RaceStore.finished => true
  | _, _ => false
  end.

(** Whether the control is rendered and enabled. *)
Definition offered (w : World) (c : Control) : bool :=
  let liveStatus := RaceStore.liveStatus (race w) in
  match c with
  | Start => is_status liveStatus RaceStore.idle
  | Pause => is_status liveStatus RaceStore.running
  | Resume => is_status liveStatus RaceStore.paused
  | Finish =>
      is_status liveStatus RaceStore.running
      || is_status liveStatus RaceStore.paused
  | NewRace => is_status liveStatus RaceStore.finished
  | NextSegment =>
      negb (is_status liveStatus RaceStore.finished)
      && negb (negb (is_status liveStatus RaceStore.running)
               || match userP w with
                  | None => true
                  | Some u => geb (DashboardStore.segmentsCompleted u) (of_Z 16)
                  end)
  | Undo =>
      negb (is_status liveStatus RaceStore.finished)
      && match userP w with
         | None => false
         | Some u => gtb (DashboardStore.segmentsCompleted u) (of_Z 0)
         end
  end.

(** The handler of each control, on the two stores. *)
Definition handle (now : number) (c : Control) (w : World) : World :=
  match c with
  | Start =>
      {| race := RaceStore.startRace now (race w); dashboard := dashboard w |}
  | Pause =>
      {| race := RaceStore.pauseRace now (race w); dashboard := dashboard w |}
  | Resume =>
      {| race := RaceStore.resumeRace now (race w); dashboard := dashboard w |}
  | Finish =>
      {| race := RaceStore.finishRace now (race w); dashboard := dashboard w |}
  | NewRace =>
      {| race := RaceStore.clearRace (race w);
         dashboard := DashboardStore.reset (dashboard w) |}
  | NextSegment =>
      let elapsed := RaceStore.totalElapsedSeconds (race w) in
      {| race := race w;
         dashboard := DashboardStore.advanceSegment elapsed (dashboard w) |}
  | Undo =>
      {| race := race w;
         dashboard := DashboardStore.undoSegment (dashboard w) |}
  end.

(** The timer, which is set while the status is running: [tickElapsed],
    then [updateElapsed] with the new total. *)
Definition tick (now : number) (w : World) : World :=
  if is_status (RaceStore.liveStatus (race w)) RaceStore.running then
    let race' := RaceStore.tickElapsed now (race w) in
    {| race := race';
       dashboard :=
         DashboardStore.updateElapsed (RaceStore.totalElapsedSeconds race')
                                      (dashboard w) |}
  else w.

(** What reaches the screen: a press of a control, which does something
    only if the control is offered, or a tick of the timer. *)
Inductive Event :=
  | Press (c : Control) (now : number)
  | Tick (now : number).

Definition step (w : World) (ev : Event) : World :=
  match ev with
  | Press c now => if offered w c then handle now c w else w
  | Tick now => tick now w
  end.

Definition is_new_race (ev : Event) : bool :=
  match ev with
  | Press NewRace _ => true
  | _ => false
  end.

(** The screen as it mounts on an empty dashboard store: the race store as
    it stands, and the dashboard store initialised for the user. *)
Definition mounted (r : RaceStore.RaceState) (displayName : string) : World :=
  {| race := r;
     dashboard :=
       DashboardStore.initLiveRace displayName DashboardStore.initial |}.

(** A race started, advanced once and finished on the screen. *)
Definition raced : World :=
  fold_left step
    [ Press Start (of_Z 1700000000000); Tick (of_Z 1700000095000);
      Press NextSegment (of_Z 1700000095500);
      Press Finish (of_Z 1700003600000) ]
    {| race := RaceStore.initial;
       dashboard := DashboardStore.initLiveRace "Kim" DashboardStore.initial |}.

End LiveTracking.

(* ================================================================= *)
(** ** The coach of the agentic screen (screens/AgenticDashboard.tsx) *)

Module AgenticDashboard.
Import Js CoachEngine DashboardStore.

(** [updateCoach]: the tip it sets, or [None] where it returns without
    setting one. *)
Definition updateCoach (store : DashboardState) (hr max_hr : option number)
  : option CoachTip :=
  match find isUser (participants store) with
  | None => None
  | Some userParticipant =>
      let alice :=
        find (fun p => String.eqb (id p) "alice") (participants store) in
      let competitorDelta :=
        match alice with
        | Some alice =>
            Some (mul (sub (segmentsCompleted alice)
                           (segmentsCompleted userParticipant))
                      (of_Z 180))
        | None => None
        end in
      let targetElapsed := mul (segmentsCompleted userParticipant) (of_Z 300) in
      Some (evaluate
              {| CoachEngine.currentSegmentIndex :=
                   currentSegmentIndex userParticipant;
                 currentSegmentType :=
                   AgentDashboard.key_of
                     (getSegmentType (currentSegmentIndex userParticipant));
                 CoachEngine.elapsedSeconds := elapsedSeconds userParticipant;
                 targetElapsedSeconds := targetElapsed;
                 CoachEngine.currentHR := hr;
                 CoachEngine.maxHR := AgentDashboard.or_null max_hr;
                 competitorDelta := competitorDelta |})
  end.

End AgenticDashboard.

(* ================================================================= *)
(** * Properties *)

(** ** Facts about numbers *)

Module JsFacts.
Import Js.

(** *** The model on known values *)

(** [1.1] is 0x1.199999999999ap+0 and [0.05] is 0x1.999999999999ap-5. *)
Example literals :
  lit 11 10 = S754_finite false 4953959590107546 (-52) /\
  lit 5 100 = S754_finite false 7205759403792794 (-57).
Proof. vm_compute. split; reflexivity. Qed.

(** [0.1 + 0.2 > 0.3] and [3 * 0.05 > 0.15]. *)
Example sums_round :
  ltb (lit 3 10) (add (lit 1 10) (lit 2 10)) = true /\
  ltb (lit 15 100) (mul (of_Z 3) (lit 5 100)) = true.
Proof. vm_compute. split; reflexivity. Qed.

(** [Math.round]: 2.5 to 3, -2.5 to -2, 0.5 to 1, -0.5 to -0, and
    0.49999999999999994 to 0. *)
Example round_ties :
  round (lit 5 2) = of_Z 3 /\
  round (lit (-5) 2) = of_Z (-2) /\
  round (lit 1 2) = of_Z 1 /\
  round (lit (-1) 2) = S754_zero true /\
  round (S754_finite false 9007199254740991 (-54)) = of_Z 0.
Proof. vm_compute. repeat split; reflexivity. Qed.

(** [Math.floor]: 3.5 to 3 and -3.5 to -4. *)
Example floor_values :
  floor (lit 7 2) = of_Z 3 /\ floor (lit (-7) 2) = of_Z (-4).
Proof. vm_compute. split; reflexivity. Qed.

(** [15 % 2 = 1], [-15 % 2 = -1], [14 % 2 = 0], [3.5 % 2 = 1.5]. *)
Example rem_values :
  rem (of_Z 15) (of_Z 2) = of_Z 1 /\
  rem (of_Z (-15)) (of_Z 2) = of_Z (-1) /\
  rem (of_Z 14) (of_Z 2) = of_Z 0 /\
  rem (lit 7 2) (of_Z 2) = lit 3 2.
Proof. vm_compute. repeat split; reflexivity. Qed.

(** [Math.min(16, NaN)] is NaN, [Math.max(0, -0)] is 0, [Math.min(0, -0)]
    is -0. *)
Example min_max_values :
  min (of_Z 16) NaN = NaN /\
  max (of_Z 0) (S754_zero true) = of_Z 0 /\
  min (of_Z 0) (S754_zero true) = S754_zero true.
Proof. vm_compute. repeat split; reflexivity. Qed.

(** *** Comparisons *)

Lemma eqb_finite_eq (a : number) s m e :
  eqb a (S754_finite s m e) = true -> a = S754_finite s m e.
Proof.
  unfold eqb, SFeqb.
  destruct a as [sa|sa| |sa ma ea]; simpl; try discriminate;
    try (destruct s; discriminate); try (destruct sa; discriminate).
  intros H.
  assert (Hs : sa = s) by (destruct sa, s; try reflexivity; discriminate H).
  subst sa.
  assert (He : ea = e).
  { destruct (Z.compare_spec ea e) as [E|E|E]; [exact E| |];
      destruct s; discriminate H. }
  subst ea. rewrite Z.compare_refl in H.
  assert (Hm : (ma ?= m)%positive = Eq).
  { unfold Pos.compare.
    destruct (Pos.compare_cont Eq ma m); destruct s;
      try discriminate H; reflexivity. }
  apply Pos.compare_eq in Hm. subst ma. reflexivity.
Qed.

(** Comparing the other way round gives the opposite answer. *)
Lemma compare_antisym (a b : number) :
  SFcompare b a = option_map CompOpp (SFcompare a b).
Proof.
  destruct a as [sa|sa| |sa ma ea], b as [sb|sb| |sb mb eb];
    cbn [SFcompare option_map];
    try reflexivity; try (destruct sa; reflexivity);
    try (destruct sb; reflexivity); try (destruct sa, sb; reflexivity).
  destruct sa, sb; cbn [CompOpp]; try reflexivity;
    rewrite (Z.compare_antisym ea eb);
    destruct (ea ?= eb); cbn [CompOpp]; try reflexivity;
    rewrite ?CompOpp_involutive;
    rewrite Pos.compare_cont_antisym; reflexivity.
Qed.

Lemma ltb_asym (a b : number) : ltb a b = true -> ltb b a = false.
Proof.
  unfold ltb, SFltb. rewrite (compare_antisym a b).
  destruct (SFcompare a b) as [[]|]; cbn; intros H;
    try discriminate H; reflexivity.
Qed.

Lemma ltb_not_geb (a b : number) : ltb a b = true -> geb a b = false.
Proof.
  unfold geb, leb, ltb, SFleb, SFltb. rewrite (compare_antisym a b).
  destruct (SFcompare a b) as [[]|]; cbn; intros H;
    try discriminate H; reflexivity.
Qed.

(** Dividing by a zero never gives a finite number. *)
Lemma div_zero_not_finite (a : number) s :
  is_finite (div a (S754_zero s)) = false.
Proof. destruct a; reflexivity. Qed.

(** Scaling by a non-finite factor and rounding stays non-finite. *)
Lemma round_mul_not_finite (x k : number) :
  is_finite k = false -> is_finite (round (mul x k)) = false.
Proof. destruct x, k; simpl; intros H; try discriminate H; reflexivity. Qed.

Lemma round_not_finite (x : number) :
  is_finite x = false -> is_finite (round x) = false.
Proof. destruct x; simpl; intros H; try discriminate H; reflexivity. Qed.

(** A number at most zero is below every positive finite number. *)
Lemma leb_zero_ltb_pos (x : number) m e :
  leb x (S754_zero false) = true -> ltb x (S754_finite false m e) = true.
Proof.
  unfold leb, ltb, SFleb, SFltb.
  destruct x as [sx|sx| |sx mx ex]; simpl; try discriminate; try reflexivity;
    destruct sx; simpl; try discriminate; reflexivity.
Qed.

Lemma ltb_zero_ltb_pos (x : number) m e :
  ltb x (S754_zero false) = true -> ltb x (S754_finite false m e) = true.
Proof.
  unfold ltb, SFltb.
  destruct x as [sx|sx| |sx mx ex]; simpl; try discriminate; try reflexivity;
    destruct sx; simpl; try discriminate; reflexivity.
Qed.

(** *** Halving *)

(** The integer operations of the number format, as the library's. *)
Ltac std :=
  change IntDef.Z.min with Z.min in *; change IntDef.Z.max with Z.max in *;
  change IntDef.Z.sub with Z.sub in *; change IntDef.Z.add with Z.add in *;
  change IntDef.Z.div_eucl with Z.div_eucl in *;
  change IntDef.Z.shiftl with Z.shiftl in *.

Lemma digits2_pos_bound (m : positive) :
  2 ^ (Zpos (digits2_pos m) - 1) <= Zpos m < 2 ^ Zpos (digits2_pos m).
Proof.
  induction m as [m IH|m IH|]; cbn [digits2_pos].
  - rewrite Pos2Z.inj_succ.
    replace (Z.succ (Zpos (digits2_pos m)) - 1)
      with (Z.succ (Zpos (digits2_pos m) - 1)) by lia.
    rewrite !Z.pow_succ_r by lia. lia.
  - rewrite Pos2Z.inj_succ.
    replace (Z.succ (Zpos (digits2_pos m)) - 1)
      with (Z.succ (Zpos (digits2_pos m) - 1)) by lia.
    rewrite !Z.pow_succ_r by lia. lia.
  - cbn. lia.
Qed.

Lemma Zdigits2_le (z k : Z) :
  0 <= z < 2 ^ k -> 0 <= k -> 0 <= Zdigits2 z <= k.
Proof.
  intros Hz Hk. destruct z as [|p|p]; cbn [Zdigits2]; try lia.
  pose proof (digits2_pos_bound p) as [Hlo _].
  split; [lia|].
  destruct (Z_le_gt_dec (Zpos (digits2_pos p)) k) as [|Hgt];
    [assumption|exfalso].
  assert (2 ^ k <= 2 ^ (Zpos (digits2_pos p) - 1))
    by (apply Z.pow_le_mono_r; lia).
  lia.
Qed.

Lemma loc_of_record_of_loc q l : loc_of_shr_record (shr_record_of_loc q l) = l.
Proof. destruct l as [|[]]; reflexivity. Qed.

Lemma shr_m_record_of_loc q l : shr_m (shr_record_of_loc q l) = q.
Proof. destruct l as [|[]]; reflexivity. Qed.

Lemma round_nearest_even_bound q l :
  0 <= q -> q <= round_nearest_even q l <= q + 1.
Proof.
  intros Hq. destruct l as [|[]]; cbn [round_nearest_even]; try lia.
  destruct (Z.even q); std; lia.
Qed.

(** Rounding at the smallest exponent shifts nothing. *)
Lemma round_aux_bottom (q : Z) (l : location) :
  0 <= q -> round_nearest_even q l < 2 ^ 53 ->
  binary_round_aux prec emax false q (-1074) l
  = as_bottom (round_nearest_even q l).
Proof.
  intros Hq Hr.
  pose proof (round_nearest_even_bound q l Hq) as Hb.
  unfold binary_round_aux, shr_fexp.
  assert (H1 : fexp prec emax (Zdigits2 q + -1074) - -1074 = 0).
  { pose proof (Zdigits2_le q 53 ltac:(lia) ltac:(lia)).
    unfold fexp, emin, prec, emax. std. lia. }
  std. rewrite H1. cbn [shr].
  rewrite shr_m_record_of_loc, loc_of_record_of_loc.
  assert (H2 : fexp prec emax (Zdigits2 (round_nearest_even q l) + -1074)
               - -1074 = 0).
  { pose proof (Zdigits2_le (round_nearest_even q l) 53 ltac:(lia) ltac:(lia)).
    unfold fexp, emin, prec, emax. std. lia. }
  rewrite H2. cbn [shr shr_m]. reflexivity.
Qed.

(** Half of a normal number, away from the bottom of the range, has the
    same mantissa and the exponent below. *)
Lemma div_two_normal (m : positive) (e : Z) :
  Zpos (digits2_pos m) = 53 -> -1072 <= e <= 900 ->
  div (S754_finite false m e) (of_Z 2) = S754_finite false m (e - 1).
Proof.
  intros HD He.
  change (of_Z 2) with (S754_finite false 4503599627370496 (-51)).
  unfold div, SFdiv. cbn [xorb].
  unfold SFdiv_core_binary.
  cbn [Zdigits2]. rewrite HD.
  change (Z.pos (digits2_pos 4503599627370496)) with 53.
  unfold fexp, emin, prec, emax. std.
  replace (Z.min (Z.max (53 + e - (53 + -51) - 53) (3 - 1024 - 53)) (e - -51))
    with (e - 2) by lia.
  replace (e - -51 - (e - 2)) with 53 by lia.
  rewrite Z.shiftl_mul_pow2 by lia.
  assert (Hdiv : Z.div_eucl (Z.pos m * 2 ^ 53) 4503599627370496
                 = (Zpos m~0, 0)).
  { pose proof (Z_div_mod (Z.pos m * 2 ^ 53) 4503599627370496 eq_refl) as H.
    destruct (Z.div_eucl (Z.pos m * 2 ^ 53) 4503599627370496) as [q r].
    change (2 ^ 53) with 9007199254740992 in H.
    assert (q = Zpos m~0 /\ r = 0) as [-> ->]; [|reflexivity].
    rewrite Pos2Z.inj_xO. lia. }
  rewrite Hdiv.
  change (new_location 4503599627370496 0) with loc_Exact.
  unfold binary_round_aux, shr_fexp.
  cbn [Zdigits2 shr_record_of_loc digits2_pos].
  rewrite Pos2Z.inj_succ, HD.
  unfold fexp, emin. std.
  replace (Z.max (Z.succ 53 + (e - 2) - 53) (3 - 1024 - 53) - (e - 2))
    with 1 by lia.
  cbn [shr iter_pos shr_1 orb shr_m loc_of_shr_record round_nearest_even
       Zdigits2].
  rewrite HD.
  replace (Z.max (53 + (e - 2 + 1) - 53) (3 - 1024 - 53) - (e - 2 + 1))
    with 0 by lia.
  cbn [shr shr_m].
  replace (e - 2 + 1) with (e - 1) by lia.
  replace (e - 1 <=? 1024 - 53) with true by (symmetry; apply Z.leb_le; lia).
  reflexivity.
Qed.

(** Half of a number at the smallest exponent is at the smallest exponent. *)
Lemma div_two_bottom (m : positive) :
  Zpos (digits2_pos m) <= 53 ->
  exists q, 0 <= q < 2 ^ 53 /\
    div (S754_finite false m (-1074)) (of_Z 2) = as_bottom q.
Proof.
  intros HD.
  pose proof (digits2_pos_bound m) as [_ Hm].
  assert (Hm53 : Zpos m < 2 ^ 53).
  { apply Z.lt_le_trans with (1 := Hm). apply Z.pow_le_mono_r; lia. }
  change (of_Z 2) with (S754_finite false 4503599627370496 (-51)).
  unfold div, SFdiv. cbn [xorb]. unfold SFdiv_core_binary. cbn [Zdigits2].
  change (Z.pos (digits2_pos 4503599627370496)) with 53.
  assert (He' : Z.min (fexp prec emax
                         (Zpos (digits2_pos m) + -1074 - (53 + -51)))
                      (-1074 - -51) = -1074).
  { unfold fexp, emin, prec, emax. std. lia. }
  std. rewrite He'.
  change (-1074 - -51 - -1074) with 51.
  rewrite Z.shiftl_mul_pow2 by lia.
  pose proof (Z_div_mod (Z.pos m * 2 ^ 51) 4503599627370496 eq_refl) as H.
  destruct (Z.div_eucl (Z.pos m * 2 ^ 51) 4503599627370496) as [q r].
  change (2 ^ 51) with 2251799813685248 in H.
  change (2 ^ 53) with 9007199254740992 in *.
  assert (Hq : 0 <= q < 4503599627370496) by lia.
  exists (round_nearest_even q (new_location 4503599627370496 r)).
  pose proof (round_nearest_even_bound q (new_location 4503599627370496 r)
                ltac:(lia)).
  split; [lia|].
  apply round_aux_bottom; [lia|].
  change (2 ^ 53) with 9007199254740992. lia.
Qed.

Lemma div_two_above_bottom (m : positive) :
  Zpos (digits2_pos m) = 53 ->
  div (S754_finite false m (-1073)) (of_Z 2) = as_bottom (Zpos m).
Proof.
  intros HD.
  pose proof (digits2_pos_bound m) as [_ Hm]. rewrite HD in Hm.
  change (of_Z 2) with (S754_finite false 4503599627370496 (-51)).
  unfold div, SFdiv. cbn [xorb]. unfold SFdiv_core_binary. cbn [Zdigits2].
  rewrite HD.
  change (Z.pos (digits2_pos 4503599627370496)) with 53.
  change (IntDef.Z.min (fexp prec emax (53 + -1073 - (53 + -51))) (-1073 - -51))
    with (-1074).
  change (IntDef.Z.sub (-1073 - -51) (-1074)) with 52.
  std. rewrite Z.shiftl_mul_pow2 by lia.
  assert (Hdiv : Z.div_eucl (Z.pos m * 2 ^ 52) 4503599627370496 = (Zpos m, 0)).
  { pose proof (Z_div_mod (Z.pos m * 2 ^ 52) 4503599627370496 eq_refl) as H.
    destruct (Z.div_eucl (Z.pos m * 2 ^ 52) 4503599627370496) as [q r].
    change (2 ^ 52) with 4503599627370496 in H.
    assert (q = Zpos m /\ r = 0) as [-> ->]; [lia|reflexivity]. }
  rewrite Hdiv.
  change (new_location 4503599627370496 0) with loc_Exact.
  rewrite round_aux_bottom by (cbn [round_nearest_even]; lia).
  reflexivity.
Qed.

(** A number at the smallest exponent is below one. *)
Lemma floor_bottom (q : Z) :
  0 <= q < 2 ^ 53 -> floor (as_bottom q) = S754_zero false.
Proof.
  intros Hq. destruct q as [|p|p]; [reflexivity| |lia].
  cbn [as_bottom floor cond_Zopp].
  rewrite Z.div_small; [reflexivity|].
  split; [lia|].
  apply Z.lt_le_trans with (2 ^ 53); [lia|].
  apply Z.pow_le_mono_r; lia.
Qed.

(** A fact about the counts 0 .. 16, settled by evaluating it at each one;
    [H] is the bound on [k]. *)
Ltac each_count k H :=
  do 17 (destruct k as [|k]; [vm_compute; try reflexivity; try lia|]);
  exfalso; clear - H; lia.

End JsFacts.

(** ** The simulation engine *)

Module SimulationSpec.
Import Js Simulation JsFacts.

(** The fourth run of scenario A: 330 * (1 + 3 * 0.05) is
    379.49999999999994 in binary64, just under the tie, and rounds down. *)
Lemma scenarioA_fourth_run :
  baseRunTime scenarioA = n 330 /\
  ltb (mul (n 330) (degradation (n 4))) (lit 759 2) = true /\
  round (mul (n 330) (degradation (n 4))) = n 379.
Proof. vm_compute. repeat split; reflexivity. Qed.

Lemma scenarioA_slot_times :
  map target_time_seconds (segment_plans (generateMockSimulation scenarioA None))
  = map n [330; 240; 347; 180; 363; 240; 379; 300;
           396; 240; 413; 120; 429; 270; 446; 360].
Proof. vm_compute. reflexivity. Qed.

(** C1 (amended): scenario A is classified intermediate; every tier other
    than elite and advanced gets the 420 second roxzone overhead, so the
    predicted total is 5053 + 420 = 5473 seconds, with conservative 5747 and
    aggressive 5199; danger runs are 5 and 8, the limiter is pacing and the
    blow-up probability 0.3. *)
Theorem scenario_A_prediction :
  let r := generateMockSimulation scenarioA None in
  estimated_tier r = intermediate /\
  segment_total scenarioA = n 5053 /\
  total_roxzone_time_seconds r = n 420 /\
  predictedTotal scenarioA = n 5473 /\
  predicted_finish_seconds (predictions r) = n 5473 /\
  likely_seconds (predictions r) = n 5473 /\
  conservative_seconds (predictions r) = n 5747 /\
  aggressive_seconds (predictions r) = n 5199 /\
  danger_runs (risk_analysis r) = [n 5; n 8] /\
  primary_limiter (risk_analysis r) = "pacing"%string /\
  blow_up_probability (risk_analysis r) = lit 3 10.
Proof. vm_compute. repeat split; reflexivity. Qed.

(** C1 as stated fails: the simulation of scenario A does not use a 300
    second overhead, nor return a total of 5354 seconds with conservative
    5622 and aggressive 5086. *)
Lemma scenario_A_not_5354 :
  ~ (let r := generateMockSimulation scenarioA None in
     estimated_tier r = intermediate /\
     total_roxzone_time_seconds r = n 300 /\
     likely_seconds (predictions r) = n 5354 /\
     conservative_seconds (predictions r) = n 5622 /\
     aggressive_seconds (predictions r) = n 5086 /\
     danger_runs (risk_analysis r) = [n 5; n 8] /\
     primary_limiter (risk_analysis r) = "pacing"%string /\
     blow_up_probability (risk_analysis r) = lit 3 10).
Proof. intros (_ & H & _). vm_compute in H. discriminate H. Qed.

Lemma scenario_A_total_differs :
  predictedTotal scenarioA <> n 5354.
Proof. intros H. vm_compute in H. discriminate H. Qed.

(** C2: in goal mode (a goal time that is a number above zero) the three
    prediction tiers all equal the goal time, for every profile. *)
Theorem goal_mode_predictions_equal_goal
    (profile : AthleteProfile) (g : number) (Hgoal : gtb g (n 0) = true) :
  let r := generateMockSimulation profile (Some g) in
  mode r = goal /\
  goal_time_seconds r = Some g /\
  conservative_seconds (predictions r) = g /\
  likely_seconds (predictions r) = g /\
  aggressive_seconds (predictions r) = g.
Proof.
  unfold generateMockSimulation, isGoalMode, goal_value.
  cbn [mode goal_time_seconds predictions conservative_seconds likely_seconds
       aggressive_seconds].
  rewrite Hgoal. repeat split; reflexivity.
Qed.

Lemma goal_mode_predictions_equal_goal_witness :
  gtb (n 4800) (n 0) = true /\
  let r := generateMockSimulation scenarioA (Some (n 4800)) in
  mode r = goal /\
  goal_time_seconds r = Some (n 4800) /\
  conservative_seconds (predictions r) = n 4800 /\
  likely_seconds (predictions r) = n 4800 /\
  aggressive_seconds (predictions r) = n 4800.
Proof.
  split; [reflexivity | apply (goal_mode_predictions_equal_goal scenarioA (n 4800))].
  reflexivity.
Defined.

(** *** Goal mode with a zero denominator *)

Lemma roxzoneTime_finite (profile : AthleteProfile) :
  exists m e,
    roxzoneTime profile = S754_finite false m e /\
    sub (roxzoneTime profile) (roxzoneTime profile) = S754_zero false.
Proof.
  unfold roxzoneTime.
  destruct (tier_of profile); do 2 eexists; split; vm_compute; reflexivity.
Qed.

Lemma scaleFactor_not_finite (profile : AthleteProfile) (g : number) :
  gtb g (n 0) = true ->
  eqb (predictedTotal profile) (roxzoneTime profile) = true ->
  is_finite (scaleFactor profile (Some g)) = false.
Proof.
  intros Hgoal Hzero.
  destruct (roxzoneTime_finite profile) as (m & e & HR & Hsub).
  rewrite HR in Hzero. apply eqb_finite_eq in Hzero.
  unfold scaleFactor, isGoalMode. rewrite Hgoal.
  rewrite Hzero, <- HR, Hsub.
  apply div_zero_not_finite.
Qed.

Lemma segment_time_not_finite profile goalTimeSeconds seg r :
  isGoalMode goalTimeSeconds = true ->
  is_finite (scaleFactor profile goalTimeSeconds) = false ->
  is_finite (segment_time profile goalTimeSeconds seg r) = false.
Proof.
  intros Hgoal Hscale. unfold segment_time. rewrite Hgoal.
  destruct (type seg); cbn [negb];
    first [ apply round_mul_not_finite; exact Hscale
          | apply round_not_finite, round_mul_not_finite; exact Hscale ].
Qed.

Lemma plan_step_plans profile goalTimeSeconds st seg :
  exists pl,
    plans (plan_step profile goalTimeSeconds st seg) = plans st ++ [pl] /\
    target_time_seconds pl =
      segment_time profile goalTimeSeconds seg
        (if SegmentType_eqb (type seg) RUN then add (runNum st) (n 1)
         else runNum st).
Proof. eexists; split; reflexivity. Qed.

Lemma plan_fold_not_finite profile goalTimeSeconds :
  isGoalMode goalTimeSeconds = true ->
  is_finite (scaleFactor profile goalTimeSeconds) = false ->
  forall segs st,
    Forall not_finite_target (plans st) ->
    Forall not_finite_target
      (plans (fold_left (plan_step profile goalTimeSeconds) segs st)).
Proof.
  intros Hgoal Hscale segs.
  induction segs as [|seg segs IH]; intros st Hst; [exact Hst|].
  cbn [fold_left]. apply IH.
  destruct (plan_step_plans profile goalTimeSeconds st seg) as (pl & Hpl & Ht).
  rewrite Hpl. apply Forall_app; split; [exact Hst|].
  constructor; [|constructor].
  unfold not_finite_target. rewrite Ht.
  apply segment_time_not_finite; assumption.
Qed.

(** C3 (amended): in goal mode, when the predicted total equals the roxzone
    overhead, no error is raised: the division by zero is performed, the
    scale factor is an infinity or NaN, the request still resolves, and
    every segment of the returned plan has a non-finite target time. *)
Theorem goal_mode_zero_denominator_divides
    (post : AthleteProfile -> option number -> Promise SimulationResponse)
    (profile : AthleteProfile) (g : number)
    (Hgoal : gtb g (n 0) = true)
    (Hzero : eqb (predictedTotal profile) (roxzoneTime profile) = true) :
  runSimulation post profile (Some g)
    = Resolved {| simulation := generateMockSimulation profile (Some g) |} /\
  is_finite (scaleFactor profile (Some g)) = false /\
  Forall not_finite_target
    (segment_plans (generateMockSimulation profile (Some g))).
Proof.
  split; [reflexivity|].
  pose proof (scaleFactor_not_finite profile g Hgoal Hzero) as Hscale.
  split; [exact Hscale|].
  unfold generateMockSimulation. cbn [segment_plans]. unfold plan_pass.
  apply plan_fold_not_finite; [exact Hgoal | exact Hscale | constructor].
Qed.

Lemma goal_mode_zero_denominator_divides_witness :
  gtb (n 4800) (n 0) = true /\
  eqb (predictedTotal degenerate) (roxzoneTime degenerate) = true /\
  runSimulation offline degenerate (Some (n 4800))
    = Resolved {| simulation := generateMockSimulation degenerate (Some (n 4800)) |} /\
  is_finite (scaleFactor degenerate (Some (n 4800))) = false /\
  Forall not_finite_target
    (segment_plans (generateMockSimulation degenerate (Some (n 4800)))).
Proof.
  split; [reflexivity|]. split; [vm_compute; reflexivity|].
  apply (goal_mode_zero_denominator_divides offline degenerate (n 4800)).
  - reflexivity.
  - vm_compute. reflexivity.
Defined.

(** C3 as stated fails: for the degenerate profile and a goal of 4800
    seconds the predicted total equals the overhead, yet the request is not
    rejected; the scale factor is Infinity and the first run and the first
    station of the returned plan have targets -Infinity and Infinity. *)
Lemma degenerate_goal_is_not_rejected :
  isGoalMode (Some (n 4800)) = true /\
  predictedTotal degenerate = roxzoneTime degenerate /\
  (forall reason,
     runSimulation offline degenerate (Some (n 4800)) <> Rejected reason) /\
  scaleFactor degenerate (Some (n 4800)) = Infinity /\
  firstn 2 (map target_time_seconds
              (segment_plans (generateMockSimulation degenerate (Some (n 4800)))))
    = [S754_infinity true; Infinity].
Proof.
  split; [reflexivity|]. split; [vm_compute; reflexivity|].
  split; [intros reason H; discriminate H|].
  split; vm_compute; reflexivity.
Qed.

(** *** Malformed profiles *)

(** C4 (amended): no profile is validated.  For every malformed profile
    (a five-kilometre time that is not positive, or a negative wall-ball
    count) the request resolves with the simulation computed from the fields
    as given: a non-positive five-kilometre time is classified elite with
    the 180 second overhead, and a negative wall-ball count gets the
    wall-ball penalty warning. *)
Theorem malformed_profile_is_simulated
    (post : AthleteProfile -> option number -> Promise SimulationResponse)
    (profile : AthleteProfile) (goalTimeSeconds : option number)
    (Hbad : leb (five_k_time_seconds profile) (n 0) = true \/
            ltb (wall_ball_unbroken_max profile) (n 0) = true) :
  let r := generateMockSimulation profile goalTimeSeconds in
  runSimulation post profile goalTimeSeconds = Resolved {| simulation := r |} /\
  (leb (five_k_time_seconds profile) (n 0) = true ->
   estimated_tier r = elite /\ total_roxzone_time_seconds r = n 180) /\
  (ltb (wall_ball_unbroken_max profile) (n 0) = true ->
   In {| station := WALL_BALLS; time_penalty_seconds := n 15 |}
      (penalty_warnings r)).
Proof.
  cbv zeta. split; [reflexivity|]. split.
  - intros H5k.
    assert (Ht : tier_of profile = elite).
    { unfold tier_of.
      change (n (20 * 60)) with (S754_finite false 5277655813324800 (-42)).
      rewrite (leb_zero_ltb_pos _ _ _ H5k). reflexivity. }
    unfold generateMockSimulation.
    cbn [estimated_tier total_roxzone_time_seconds].
    unfold roxzoneTime. rewrite Ht. split; reflexivity.
  - intros Hwb.
    unfold generateMockSimulation. cbn [penalty_warnings].
    unfold penaltyWarnings.
    change (n 20) with (S754_finite false 5629499534213120 (-48)).
    rewrite (ltb_zero_ltb_pos _ _ _ Hwb).
    apply in_or_app. right. left. reflexivity.
Qed.

Lemma malformed_profile_is_simulated_witness :
  (leb (five_k_time_seconds malformed) (n 0) = true \/
   ltb (wall_ball_unbroken_max malformed) (n 0) = true) /\
  let r := generateMockSimulation malformed None in
  runSimulation offline malformed None = Resolved {| simulation := r |} /\
  (leb (five_k_time_seconds malformed) (n 0) = true ->
   estimated_tier r = elite /\ total_roxzone_time_seconds r = n 180) /\
  (ltb (wall_ball_unbroken_max malformed) (n 0) = true ->
   In {| station := WALL_BALLS; time_penalty_seconds := n 15 |}
      (penalty_warnings r)).
Proof.
  split; [left; reflexivity|].
  apply (malformed_profile_is_simulated offline malformed None).
  left. reflexivity.
Defined.

(** C4 as stated fails: a profile with a zero five-kilometre time and a
    negative wall-ball count is not rejected; the request resolves with an
    elite-tier simulation of 2238 seconds. *)
Lemma malformed_profile_not_rejected :
  leb (five_k_time_seconds malformed) (n 0) = true /\
  ltb (wall_ball_unbroken_max malformed) (n 0) = true /\
  (forall reason, runSimulation offline malformed None <> Rejected reason) /\
  (exists r,
     runSimulation offline malformed None = Resolved r /\
     estimated_tier (simulation r) = elite /\
     likely_seconds (predictions (simulation r)) = n 2238).
Proof.
  split; [reflexivity|]. split; [reflexivity|].
  split; [intros reason H; discriminate H|].
  eexists. split; [reflexivity|]. split; vm_compute; reflexivity.
Qed.

End SimulationSpec.

(** ** The dashboard store *)

Module DashboardStoreSpec.
Import Js DashboardStore JsFacts.

(** Arithmetic of the store on the counts 0 .. 16. *)
Lemma count_geb_16 k : (k <= 16)%nat -> geb (count k) (of_Z 16) = (16 <=? k)%nat.
Proof. intros H. each_count k H. Qed.

Lemma count_leb_0 k : (k <= 16)%nat -> leb (count k) (of_Z 0) = (k =? 0)%nat.
Proof. intros H. each_count k H. Qed.

Lemma count_ltb_16 k : (k <= 16)%nat -> ltb (count k) (of_Z 16) = (k <? 16)%nat.
Proof. intros H. each_count k H. Qed.

Lemma count_in_range k :
  (k <= 16)%nat ->
  leb (of_Z 0) (count k) = true /\ leb (count k) (of_Z 16) = true.
Proof. intros H. each_count k H; split; reflexivity. Qed.

Lemma count_succ k : (k <= 16)%nat -> add (count k) (of_Z 1) = count (S k).
Proof. intros H. each_count k H. Qed.

Lemma count_pred k : (k <= 16)%nat -> sub (count (S k)) (of_Z 1) = count k.
Proof. intros H. each_count k H. Qed.

Lemma count_min_15 k :
  (k <= 16)%nat -> min (count k) (of_Z 15) = count (Nat.min k 15).
Proof. intros H. each_count k H. Qed.

Lemma count_name k :
  (k <= 16)%nat -> array_get SEGMENT_NAMES (count k) = nth_error SEGMENT_NAMES k.
Proof. intros H. each_count k H. Qed.

Lemma initLiveRace_tracked displayName st :
  exists user, tracked (initLiveRace displayName st) 0 user.
Proof.
  eexists. unfold tracked, initLiveRace. cbn [participants splits].
  repeat split; try reflexivity. lia.
Qed.

Lemma length_removelast {A : Type} (l : list A) :
  List.length (removelast l) = pred (List.length l).
Proof.
  rewrite removelast_firstn_len. apply firstn_length_le. lia.
Qed.

Lemma advanceSegment_full t st user :
  tracked st 16 user -> advanceSegment t st = st.
Proof.
  intros (Hp & _ & Hsc & _). unfold advanceSegment.
  rewrite Hp, Hsc, count_geb_16 by lia. reflexivity.
Qed.

Lemma advanceSegment_tracked t st k user :
  tracked st k user -> (k < 16)%nat ->
  exists user', tracked (advanceSegment t st) (S k) user'.
Proof.
  intros (Hp & Hk & Hsc & Hlen & Hidx & Hel & Hname) Hlt.
  unfold advanceSegment. rewrite Hp, Hsc, count_geb_16 by lia.
  replace (16 <=? k)%nat with false by (symmetry; apply Nat.leb_gt; lia).
  eexists. unfold tracked.
  cbn [participants splits segmentsCompleted currentSegmentIndex
       elapsedSeconds lastStationName].
  rewrite count_succ, count_min_15, count_name by lia.
  repeat split.
  - lia.
  - rewrite length_app, Hlen. cbn [List.length]. lia.
  - unfold lastElapsed. rewrite map_app. cbn [map]. rewrite last_last.
    reflexivity.
Qed.

Lemma undoSegment_empty st user :
  tracked st 0 user -> undoSegment st = st.
Proof.
  intros (Hp & _ & Hsc & _). unfold undoSegment.
  rewrite Hp, Hsc, count_leb_0 by lia. reflexivity.
Qed.

Lemma undoSegment_tracked st k user :
  tracked st (S k) user -> exists user', tracked (undoSegment st) k user'.
Proof.
  intros (Hp & Hk & Hsc & Hlen & Hidx & Hel & Hname).
  unfold undoSegment. rewrite Hp, Hsc, count_leb_0, Hlen by lia.
  cbn [Nat.eqb orb].
  eexists. unfold tracked.
  cbn [participants splits segmentsCompleted currentSegmentIndex
       elapsedSeconds lastStationName].
  rewrite count_pred, count_name by lia.
  replace (Nat.min k 15) with k by lia.
  repeat split.
  - lia.
  - rewrite length_removelast, Hlen. reflexivity.
Qed.

(** Undo after advance, below the ceiling, gives back the very same store. *)
Lemma undo_after_advance t st k user :
  tracked st k user -> (k < 16)%nat ->
  undoSegment (advanceSegment t st) = st.
Proof.
  intros (Hp & Hk & Hsc & Hlen & Hidx & Hel & Hname) Hlt.
  unfold advanceSegment. rewrite Hp, Hsc, count_geb_16 by lia.
  replace (16 <=? k)%nat with false by (symmetry; apply Nat.leb_gt; lia).
  unfold undoSegment.
  cbn [participants splits segmentsCompleted currentSegmentIndex
       elapsedSeconds lastStationName id name isUser isActive].
  rewrite count_succ, count_leb_0, length_app by lia.
  cbn [List.length]. rewrite Nat.add_1_r. cbn [Nat.eqb orb].
  rewrite removelast_last, count_pred, count_name by lia.
  replace (Nat.min k 15) with k in Hidx, Hname by lia.
  rewrite <- Hsc at 1. rewrite <- Hidx, <- Hel, <- Hname.
  destruct st as [ps act sp]. cbn [participants isActive splits] in *.
  subst ps. destruct user. reflexivity.
Qed.

Lemma call_tracked st k user c :
  tracked st k user -> exists k' user', tracked (call st c) k' user'.
Proof.
  intros Ht. destruct c as [t|]; cbn [call].
  - destruct (Nat.eq_dec k 16) as [->|Hne].
    + rewrite (advanceSegment_full t st user Ht). eauto.
    + destruct (advanceSegment_tracked t st k user Ht) as (u & Hu).
      * destruct Ht as (_ & Hk & _). lia.
      * eauto.
  - destruct k as [|k].
    + rewrite (undoSegment_empty st user Ht). eauto.
    + destruct (undoSegment_tracked st k user Ht) as (u & Hu). eauto.
Qed.

Lemma calls_tracked cs :
  forall st k user,
    tracked st k user -> exists k' user', tracked (calls st cs) k' user'.
Proof.
  induction cs as [|c cs IH]; intros st k user Ht; cbn [calls fold_left].
  - eauto.
  - destruct (call_tracked st k user c Ht) as (k1 & u1 & H1).
    exact (IH _ _ _ H1).
Qed.

(** C5: under every sequence of [advanceSegment] and [undoSegment] calls
    from the initial live-race state there is one participant whose
    [segmentsCompleted] lies in [0, 16]; and whenever it is below 16,
    [advanceSegment] followed by [undoSegment] gives back the store as it
    was: the participant and the split list. *)
Theorem segments_bounded_and_undo_inverts_advance
    (displayName : string) (st0 : DashboardState) (cs : list Call) :
  let st := calls (initLiveRace displayName st0) cs in
  exists user,
    participants st = [user] /\
    leb (of_Z 0) (segmentsCompleted user) = true /\
    leb (segmentsCompleted user) (of_Z 16) = true /\
    (ltb (segmentsCompleted user) (of_Z 16) = true ->
     forall t, undoSegment (advanceSegment t st) = st).
Proof.
  cbv zeta.
  destruct (initLiveRace_tracked displayName st0) as (u0 & H0).
  destruct (calls_tracked cs _ _ _ H0) as (k & user & Ht).
  exists user.
  pose proof Ht as (Hp & Hk & Hsc & _).
  split; [exact Hp|].
  rewrite Hsc.
  destruct (count_in_range k Hk) as (Hlo & Hhi).
  split; [exact Hlo|]. split; [exact Hhi|].
  rewrite count_ltb_16 by exact Hk.
  intros Hlt t. apply Nat.ltb_lt in Hlt.
  exact (undo_after_advance t _ k user Ht Hlt).
Qed.

Lemma segments_bounded_and_undo_inverts_advance_witness :
  exists user,
    participants one_undone = [user] /\
    ltb (segmentsCompleted user) (of_Z 16) = true /\
    undoSegment (advanceSegment (of_Z 340) one_undone) = one_undone.
Proof.
  destruct (segments_bounded_and_undo_inverts_advance
              "" initial
              [AdvanceSegment (of_Z 95); AdvanceSegment (of_Z 340); UndoSegment])
    as (user & Hp & _ & _ & Hinv).
  exists user. split; [exact Hp|].
  assert (Hlt : ltb (segmentsCompleted user) (of_Z 16) = true).
  { vm_compute in Hp. injection Hp as <-. reflexivity. }
  split; [exact Hlt|]. exact (Hinv Hlt (of_Z 340)).
Defined.

End DashboardStoreSpec.

(** ** The race track mapper *)

Module RaceTrackMapperSpec.
Import Js RaceTrackMapper JsFacts.

Lemma position_is_lap_position k :
  (k <= 16)%nat -> position_of k = lap_position k.
Proof. intros H. each_count k H. Qed.

Lemma position_bounds k :
  (k <= 16)%nat ->
  leb (of_Z 0) (position_of k) = true /\ leb (position_of k) (of_Z 8) = true.
Proof. intros H. each_count k H; split; reflexivity. Qed.

Lemma finished_at_16 k :
  (k <= 16)%nat -> isFinished (getTrackPosition (count k)) = (k =? 16)%nat.
Proof. intros H. each_count k H. Qed.

(** Every pair [j <= k <= 16], checked pair by pair. *)
Lemma positions_ordered :
  forallb
    (fun k => forallb (fun j => leb (position_of j) (position_of k)) (seq 0 (S k)))
    (seq 0 17) = true.
Proof. vm_compute. reflexivity. Qed.

Lemma position_monotone j k :
  (j <= k)%nat -> (k <= 16)%nat ->
  leb (position_of j) (position_of k) = true.
Proof.
  intros Hjk Hk.
  pose proof positions_ordered as H.
  rewrite forallb_forall in H.
  specialize (H k). rewrite in_seq in H.
  assert (Hin : forallb (fun j => leb (position_of j) (position_of k))
                        (seq 0 (S k)) = true) by (apply H; lia).
  rewrite forallb_forall in Hin. apply Hin. apply in_seq. lia.
Qed.

(** C6: for every count of completed segments in [0, 16] the continuous
    position is floor (k / 2), plus 0.5 when k is odd; it lies in [0, 8]; it
    does not decrease as the count grows; and the position is finished
    exactly at 16. *)
Theorem track_position_monotone_bounded (k : nat) (Hk : (k <= 16)%nat) :
  let p := getTrackPosition (count k) in
  continuousPosition p = lap_position k /\
  leb (of_Z 0) (continuousPosition p) = true /\
  leb (continuousPosition p) (of_Z 8) = true /\
  isFinished p = (k =? 16)%nat /\
  (forall j, (j <= k)%nat ->
     leb (continuousPosition (getTrackPosition (count j))) (continuousPosition p)
     = true).
Proof.
  cbv zeta.
  split; [exact (position_is_lap_position k Hk)|].
  split; [exact (proj1 (position_bounds k Hk))|].
  split; [exact (proj2 (position_bounds k Hk))|].
  split; [exact (finished_at_16 k Hk)|].
  intros j Hj. exact (position_monotone j k Hj Hk).
Qed.

Lemma track_position_monotone_bounded_witness :
  (7 <= 16)%nat /\
  let p := getTrackPosition (count 7) in
  continuousPosition p = lap_position 7 /\
  leb (of_Z 0) (continuousPosition p) = true /\
  leb (continuousPosition p) (of_Z 8) = true /\
  isFinished p = (7 =? 16)%nat /\
  (forall j, (j <= 7)%nat ->
     leb (continuousPosition (getTrackPosition (count j))) (continuousPosition p)
     = true).
Proof.
  split; [lia | apply (track_position_monotone_bounded 7); lia].
Defined.

(** *** Inputs outside [0, 16] *)

Lemma clamp_negative (x : number) :
  ltb x (of_Z 0) = true -> clamp x = of_Z 0.
Proof.
  unfold clamp.
  destruct x as [[]|[]| |[] m e]; intros H; try discriminate H; reflexivity.
Qed.

Lemma clamp_above (x : number) :
  gtb x (of_Z 16) = true -> clamp x = of_Z 16.
Proof.
  unfold gtb, clamp. intros H.
  assert (Hmin : min (of_Z 16) x = of_Z 16).
  { unfold min. rewrite H.
    destruct x; try discriminate H; reflexivity. }
  rewrite Hmin. reflexivity.
Qed.

Lemma negative_is_start (x : number) :
  ltb x (of_Z 0) = true -> getTrackPosition x = start_position.
Proof.
  intros H. unfold getTrackPosition. rewrite (clamp_negative x H).
  vm_compute. reflexivity.
Qed.

Lemma above_is_finished (x : number) :
  gtb x (of_Z 16) = true -> getTrackPosition x = finished_position.
Proof.
  intros H. unfold getTrackPosition. rewrite (clamp_above x H).
  vm_compute. reflexivity.
Qed.

(** *** Inputs inside (0, 16) *)

(** A positive number below 16 is its own clamp. *)
Lemma clamp_inside (m : positive) (e : Z) :
  ltb (S754_finite false m e) (of_Z 16) = true ->
  clamp (S754_finite false m e) = S754_finite false m e.
Proof.
  intros Hlt. unfold clamp, min.
  rewrite (ltb_asym _ _ Hlt), Hlt. reflexivity.
Qed.

(** The lap of a positive number below 16 is one of 0 .. 7. *)
Lemma lap_values (m : positive) (e : Z) :
  is_number (S754_finite false m e) = true ->
  ltb (S754_finite false m e) (of_Z 16) = true ->
  In (floor (div (S754_finite false m e) (of_Z 2))) laps.
Proof.
  intros Hnum Hlt.
  unfold is_number, valid_binary, bounded, canonical_mantissa in Hnum.
  apply andb_true_iff in Hnum as [Hcan _].
  apply Z.eqb_eq in Hcan. unfold fexp, emin, prec, emax in Hcan. std.
  pose proof (digits2_pos_bound m) as [Hlo Hhi].
  change (of_Z 16) with (S754_finite false 4503599627370496 (-48)) in Hlt.
  unfold ltb, SFltb in Hlt. cbn [SFcompare] in Hlt.
  assert (He : e < -48 \/ (e = -48 /\ Zpos m < 4503599627370496)).
  { destruct (e ?= -48) eqn:E; try discriminate Hlt.
    - apply Z.compare_eq_iff in E. right. split; [exact E|].
      destruct (Pos.compare_cont Eq m 4503599627370496) eqn:Hm;
        try discriminate Hlt.
      exact Hm.
    - apply Z.compare_lt_iff in E. left. exact E. }
  destruct (Z.eq_dec e (-1074)) as [->|Hne1].
  { destruct (div_two_bottom m ltac:(lia)) as (q & Hq & Hdiv).
    rewrite Hdiv, (floor_bottom q Hq). left. reflexivity. }
  assert (HD : Zpos (digits2_pos m) = 53) by lia.
  rewrite HD in Hlo, Hhi.
  change (2 ^ (53 - 1)) with 4503599627370496 in Hlo.
  change (2 ^ 53) with 9007199254740992 in Hhi.
  destruct (Z.eq_dec e (-1073)) as [->|Hne2].
  { rewrite (div_two_above_bottom m HD), floor_bottom.
    - left. reflexivity.
    - change (2 ^ 53) with 9007199254740992. lia. }
  rewrite (div_two_normal m e HD) by lia.
  destruct (e - 1) as [|k|k] eqn:Hk; try lia.
  cbn [floor cond_Zopp].
  assert (Hq : 0 <= Zpos m / 2 ^ Zpos k < 8).
  { assert (Hpow : 2 ^ 50 <= 2 ^ Zpos k) by (apply Z.pow_le_mono_r; lia).
    change (2 ^ 50) with 1125899906842624 in Hpow.
    split.
    - apply Z.div_pos; lia.
    - apply Z.div_lt_upper_bound; lia. }
  set (q := Zpos m / 2 ^ Zpos k) in *.
  assert (Hcases : q = 0 \/ q = 1 \/ q = 2 \/ q = 3 \/ q = 4 \/ q = 5
                   \/ q = 6 \/ q = 7) by lia.
  clearbody q.
  destruct Hcases as [->|[->|[->|[->|[->|[->|[->| ->]]]]]]];
    vm_compute; tauto.
Qed.

(** Every number that is not NaN is clamped into [0, 16], and positioned on
    the track. *)
Lemma track_position_in_range (x : number) :
  is_number x = true -> is_nan x = false ->
  leb (of_Z 0) (clamp x) = true /\
  leb (clamp x) (of_Z 16) = true /\
  in_range (getTrackPosition x) = true.
Proof.
  intros Hnum Hnan.
  destruct x as [s|s| |s m e]; try discriminate Hnan.
  - destruct s; vm_compute; repeat split; reflexivity.
  - destruct s; vm_compute; repeat split; reflexivity.
  - destruct s.
    { rewrite (negative_is_start (S754_finite true m e) eq_refl),
              (clamp_negative (S754_finite true m e) eq_refl).
      vm_compute; repeat split; reflexivity. }
    destruct (SFcompare (S754_finite false m e) (of_Z 16)) as [[| |]|] eqn:Hc.
    + assert (Heq : eqb (S754_finite false m e) (of_Z 16) = true)
        by (unfold eqb, SFeqb; rewrite Hc; reflexivity).
      change (of_Z 16) with (S754_finite false 4503599627370496 (-48)) in Heq.
      apply eqb_finite_eq in Heq. rewrite Heq.
      vm_compute; repeat split; reflexivity.
    + assert (Hlt : ltb (S754_finite false m e) (of_Z 16) = true)
        by (unfold ltb, SFltb; rewrite Hc; reflexivity).
      unfold getTrackPosition. rewrite (clamp_inside m e Hlt).
      rewrite (ltb_not_geb _ _ Hlt).
      split; [reflexivity|].
      split; [unfold leb, SFleb; rewrite Hc; reflexivity|].
      pose proof (lap_values m e Hnum Hlt) as Hlap.
      unfold in_range. cbn [stationIndex continuousPosition].
      destruct (eqb (rem (S754_finite false m e) (of_Z 2)) (of_Z 0));
        set (lap := floor (div (S754_finite false m e) (of_Z 2))) in *;
        clearbody lap; unfold laps in Hlap; cbn [map In] in Hlap;
        destruct Hlap as [<-|[<-|[<-|[<-|[<-|[<-|[<-|[<-|[]]]]]]]]];
        vm_compute; reflexivity.
    + assert (Hgt : gtb (S754_finite false m e) (of_Z 16) = true).
      { unfold gtb, ltb, SFltb.
        rewrite (compare_antisym (S754_finite false m e) (of_Z 16)), Hc.
        reflexivity. }
      rewrite (above_is_finished _ Hgt), (clamp_above _ Hgt).
      vm_compute; repeat split; reflexivity.
    + change (of_Z 16) with (S754_finite false 4503599627370496 (-48)) in Hc.
      discriminate Hc.
Qed.

(** The activity is a segment name, [Finished], or the fallback
    [Unknown]. *)
Lemma activity_is_named (x : number) :
  In (currentActivity (getTrackPosition x))
     ("Finished" :: "Unknown" :: SEGMENT_ACTIVITIES)%string.
Proof.
  unfold getTrackPosition.
  destruct (geb (clamp x) (of_Z 16)); cbn [currentActivity].
  - left. reflexivity.
  - right. destruct (array_get SEGMENT_ACTIVITIES (clamp x)) as [a|] eqn:Ha.
    + right. unfold array_get in Ha.
      destruct (to_integer (clamp x)) as [z|]; [|discriminate Ha].
      destruct (z <? 0); [discriminate Ha|].
      exact (nth_error_In _ _ Ha).
    + left. reflexivity.
Qed.

(** C10 (amended): [getTrackPosition] returns a position for every number.
    For every number other than NaN the input is first clamped into
    [0, 16] and the result has its station index within 0 .. 7 and its
    position within 0 .. 8; a negative input yields the start position and
    an input above 16 the finished position; the activity is never
    undefined.  NaN alone is not clamped. *)
Theorem track_position_total (x : number)
    (Hnum : is_number x = true) (Hnan : is_nan x = false) :
  leb (of_Z 0) (clamp x) = true /\
  leb (clamp x) (of_Z 16) = true /\
  in_range (getTrackPosition x) = true /\
  (ltb x (of_Z 0) = true -> getTrackPosition x = start_position) /\
  (gtb x (of_Z 16) = true -> getTrackPosition x = finished_position) /\
  In (currentActivity (getTrackPosition x))
     ("Finished" :: "Unknown" :: SEGMENT_ACTIVITIES)%string.
Proof.
  destruct (track_position_in_range x Hnum Hnan) as (Hlo & Hhi & Hrange).
  split; [exact Hlo|]. split; [exact Hhi|]. split; [exact Hrange|].
  split; [exact (negative_is_start x)|].
  split; [exact (above_is_finished x)|].
  exact (activity_is_named x).
Qed.

Lemma track_position_total_witness :
  is_number (lit 7 2) = true /\
  is_nan (lit 7 2) = false /\
  in_range (getTrackPosition (lit 7 2)) = true /\
  is_number (of_Z (-3)) = true /\
  getTrackPosition (of_Z (-3)) = start_position /\
  is_number (of_Z 40) = true /\
  getTrackPosition (of_Z 40) = finished_position.
Proof.
  split; [reflexivity|]. split; [reflexivity|].
  split; [apply (track_position_total (lit 7 2)); reflexivity|].
  split; [reflexivity|].
  split; [apply (track_position_total (of_Z (-3))); reflexivity|].
  split; [reflexivity|].
  apply (track_position_total (of_Z 40)); reflexivity.
Defined.

(** C10 as stated fails at NaN: [Math.min] and [Math.max] return NaN, which
    passes no comparison, and the station index and the position come out
    NaN, outside every range. *)
Lemma nan_is_not_clamped :
  clamp NaN = NaN /\
  stationIndex (getTrackPosition NaN) = NaN /\
  continuousPosition (getTrackPosition NaN) = NaN /\
  in_range (getTrackPosition NaN) = false.
Proof. vm_compute. repeat split; reflexivity. Qed.

End RaceTrackMapperSpec.

(** ** The redline tracker *)

Module RedlineTrackerSpec.
Import Js RedlineTracker.













End RedlineTrackerSpec.

(** ** The coach engine *)

Module CoachEngineSpec.
Import Js CoachEngine.

(** The rule selected is the first one whose condition holds. *)
Lemma evaluate_first_match (state : RaceState) (k : nat) :
  rule_holds k state = true ->
  (forall j, (j < k)%nat -> rule_holds j state = false) ->
  evaluate state = rule_outcome k state.
Proof.
  intros Hk Hfirst.
  assert (H1 : (1 < k)%nat -> rule_holds 1 state = false) by (intros; apply Hfirst; lia).
  assert (H2 : (2 < k)%nat -> rule_holds 2 state = false) by (intros; apply Hfirst; lia).
  assert (H3 : (3 < k)%nat -> rule_holds 3 state = false) by (intros; apply Hfirst; lia).
  assert (H4 : (4 < k)%nat -> rule_holds 4 state = false) by (intros; apply Hfirst; lia).
  assert (H5 : (5 < k)%nat -> rule_holds 5 state = false) by (intros; apply Hfirst; lia).
  clear Hfirst. cbn [rule_holds] in H1, H2, H3, H4, H5.
  unfold evaluate.
  destruct k as [|[|[|[|[|[|[|k]]]]]]]; cbn [rule_holds rule_outcome] in Hk |- *;
    try discriminate Hk.
  - rewrite Hk. reflexivity.
  - rewrite H1, Hk by lia. reflexivity.
  - rewrite H1, H2, Hk by lia. reflexivity.
  - rewrite H1, H2, H3, Hk by lia. reflexivity.
  - rewrite H1, H2, H3, H4 by lia.
    destruct (competitorDelta state) as [cd|]; [|discriminate Hk].
    rewrite Hk. reflexivity.
  - rewrite H1, H2, H3, H4 by lia.
    specialize (H5 ltac:(lia)).
    destruct (competitorDelta state) as [cd|]; [|reflexivity].
    rewrite H5. reflexivity.
Qed.

(** With both readings present and a max heart rate that is not zero, a
    ratio of at least 0.93 is the ratio the rules see. *)
Lemma hrPct_is_ratio (state : RaceState) (hr mx : number) :
  currentHR state = Some hr ->
  maxHR state = Some mx ->
  is_zero mx = false ->
  geb (div hr mx) (lit 93 100) = true ->
  hrPct state = div hr mx.
Proof.
  intros Hc Hm Hz Hge. unfold hrPct. rewrite Hc, Hm.
  destruct hr as [sh|sh| |sh mh eh], mx as [sx|sx| |sx mx ex];
    try discriminate Hz; try discriminate Hge; reflexivity.
Qed.

(** Without a max heart rate that counts (a reading missing, or a max
    heart rate of zero) the rules see a ratio of 0, and the tip is not the
    critical one. *)
Lemma no_ratio_not_critical (state : RaceState) :
  currentHR state = None \/ maxHR state = None \/
  (exists mx, maxHR state = Some mx /\ is_zero mx = true) ->
  hrPct state = of_Z 0 /\ priority (evaluate state) <> critical.
Proof.
  intros H.
  assert (Hpct : hrPct state = of_Z 0).
  { unfold hrPct.
    destruct H as [H|[H|(mx & H & Hz)]]; rewrite H.
    - reflexivity.
    - destruct (currentHR state); reflexivity.
    - destruct (currentHR state) as [hr|]; [|reflexivity].
      unfold truthy. rewrite Hz, andb_false_r. reflexivity. }
  split; [exact Hpct|].
  unfold evaluate. rewrite Hpct.
  change (geb (of_Z 0) (lit 93 100)) with false.
  change (geb (of_Z 0) (lit 85 100)) with false.
  cbn [andb].
  destruct (ltb (delta state) (of_Z (-30)) && isEarlyRace state);
    [discriminate|].
  destruct (gtb (delta state) (of_Z 20)); [discriminate|].
  destruct (competitorDelta state) as [cd|]; [|discriminate].
  destruct (gtb cd (of_Z 15)); discriminate.
Qed.

(** C8 (amended): rule evaluation is priority-ordered and the first match
    wins.  When two rules [i < j] hold at once and no rule below [i] holds,
    [evaluate] returns the outcome of rule [i].  Rule 1 reads the ratio the
    code computes, which is currentHR / maxHR only when both readings are
    present and neither is zero or NaN: whenever that ratio is at least
    0.93, and so whenever both readings are present, the max heart rate is
    not zero and currentHR / maxHR is at least 0.93, the critical tip is
    returned, whatever the pacing delta and the competitor gap are.  With a
    reading missing or a max heart rate of zero the ratio is taken to be 0
    and the tip is never the critical one. *)
Theorem coach_lowest_rule_wins (state : RaceState) (i j : nat)
    (Hij : (i < j)%nat)
    (Hi : rule_holds i state = true)
    (Hj : rule_holds j state = true)
    (Hlow : forall h, (h < i)%nat -> rule_holds h state = false) :
  evaluate state = rule_outcome i state /\
  (forall other : RaceState,
     geb (hrPct other) (lit 93 100) = true ->
     evaluate other = critical_tip other /\ priority (evaluate other) = critical) /\
  (forall (other : RaceState) (hr mx : number),
     currentHR other = Some hr ->
     maxHR other = Some mx ->
     is_zero mx = false ->
     geb (div hr mx) (lit 93 100) = true ->
     evaluate other = critical_tip other) /\
  (forall other : RaceState,
     currentHR other = None \/ maxHR other = None \/
     (exists mx, maxHR other = Some mx /\ is_zero mx = true) ->
     hrPct other = of_Z 0 /\ priority (evaluate other) <> critical).
Proof.
  split; [exact (evaluate_first_match state i Hi Hlow)|].
  assert (Hcrit : forall other : RaceState,
             geb (hrPct other) (lit 93 100) = true ->
             evaluate other = critical_tip other).
  { intros other Hhr. unfold evaluate. rewrite Hhr. reflexivity. }
  split; [|split].
  - intros other Hhr. rewrite (Hcrit other Hhr). split; reflexivity.
  - intros other hr mx Hc Hm Hz Hge. apply Hcrit.
    rewrite (hrPct_is_ratio other hr mx Hc Hm Hz Hge). exact Hge.
  - exact no_ratio_not_critical.
Qed.

Lemma coach_lowest_rule_wins_witness :
  (1 < 2)%nat /\
  rule_holds 1 overheated = true /\
  rule_holds 2 overheated = true /\
  rule_holds 5 overheated = true /\
  evaluate overheated = critical_tip overheated.
Proof.
  split; [lia|]. split; [reflexivity|]. split; [reflexivity|].
  split; [reflexivity|].
  apply (coach_lowest_rule_wins overheated 1 2); try reflexivity; try lia.
  intros h Hh. assert (h = 0)%nat as -> by lia. reflexivity.
Defined.

(** C8 as stated fails: with a heart rate of 150 and a max heart rate of 0
    the quotient currentHR / maxHR is Infinity, at least 0.93, yet the code
    takes the ratio to be 0 and, the athlete being 100 s behind, returns the
    behind-pace warning of rule 3. *)
Lemma zero_max_hr_is_not_critical :
  currentHR zero_max = Some (of_Z 150) /\
  maxHR zero_max = Some (of_Z 0) /\
  div (of_Z 150) (of_Z 0) = Infinity /\
  geb (div (of_Z 150) (of_Z 0)) (lit 93 100) = true /\
  evaluate zero_max = behind_tip zero_max /\
  priority (evaluate zero_max) = warning.
Proof. vm_compute. repeat split; reflexivity. Qed.

End CoachEngineSpec.

(** ** The race store *)

Module RaceStoreSpec.
Import Js RaceStore.

(** A start timestamp is only ever held by a running session. *)
Lemma started_means_running (st : RaceState) :
  reachable st -> liveStatus st <> running -> raceStartedAt st = None.
Proof.
  induction 1 as [|st op Hst IH]; [reflexivity|].
  destruct op; cbn [apply]; intros Hnot.
  - reflexivity.
  - reflexivity.
  - unfold recomputePhase in *.
    destruct (liveStatus st) eqn:Hls; cbn [raceStartedAt liveStatus] in *;
      apply IH; rewrite ?Hls; congruence.
  - exfalso. apply Hnot. reflexivity.
  - unfold pauseRace in *.
    destruct (started (raceStartedAt st)) eqn:Hs; [reflexivity|].
    apply IH. exact Hnot.
  - exfalso. apply Hnot. reflexivity.
  - reflexivity.
  - unfold tickElapsed in *.
    destruct (liveStatus st) eqn:Hls; try (apply IH; rewrite ?Hls; congruence).
    destruct (started (raceStartedAt st)); cbn [liveStatus] in Hnot;
      exfalso; apply Hnot; first [reflexivity | exact Hls].
  - unfold loadPersistedRace in *.
    destruct found; cbn [raceStartedAt liveStatus] in *; apply IH; exact Hnot.
Qed.

(** C9 (amended): a finished session holds no start timestamp, and
    [pauseRace], [tickElapsed], [finishRace], [recomputePhase] and
    [loadPersistedRace] leave it finished ([pauseRace] and [tickElapsed]
    leave it unchanged).  [startRace] and [resumeRace] carry no guard: each
    makes a finished session running again.  [selectRace] and [clearRace]
    reset it to idle. *)
Theorem finished_left_by_start_resume_or_reset (st : RaceState)
    (Hreach : reachable st) (Hfin : liveStatus st = finished) :
  (forall now, pauseRace now st = st) /\
  (forall now, tickElapsed now st = st) /\
  (forall now, liveStatus (finishRace now st) = finished) /\
  (forall today, liveStatus (recomputePhase today st) = finished) /\
  (forall today found, liveStatus (loadPersistedRace today found st) = finished) /\
  (forall now, liveStatus (startRace now st) = running) /\
  (forall now, liveStatus (resumeRace now st) = running) /\
  (forall today race, liveStatus (selectRace today race st) = idle) /\
  liveStatus (clearRace st) = idle.
Proof.
  assert (Hnone : raceStartedAt st = None).
  { apply (started_means_running st Hreach). rewrite Hfin. discriminate. }
  repeat split.
  - intros now. unfold pauseRace. rewrite Hnone. reflexivity.
  - intros now. unfold tickElapsed. rewrite Hfin. reflexivity.
  - intros today. unfold recomputePhase. rewrite Hfin. exact Hfin.
  - intros today found. unfold loadPersistedRace.
    destruct found; [exact Hfin | exact Hfin].
Qed.

Lemma finished_left_by_start_resume_or_reset_witness :
  reachable finished_session /\
  liveStatus finished_session = finished /\
  pauseRace (of_Z 1700003700000) finished_session = finished_session /\
  tickElapsed (of_Z 1700003700000) finished_session = finished_session /\
  liveStatus (resumeRace (of_Z 1700003700000) finished_session) = running.
Proof.
  assert (Hreach : reachable finished_session)
    by (unfold finished_session; do 2 apply reach_step; apply reach_initial).
  split; [exact Hreach|]. split; [reflexivity|].
  destruct (finished_left_by_start_resume_or_reset finished_session Hreach eq_refl)
    as (Hpause & Htick & _ & _ & _ & _ & Hresume & _).
  split; [apply Hpause|]. split; [apply Htick|]. apply Hresume.
Defined.

(** C9 as stated fails: on a session that was started and finished,
    [startRace] and [resumeRace] both set the live status to running. *)
Lemma finished_session_restarts :
  liveStatus finished_session = finished /\
  liveStatus (startRace (of_Z 1700003700000) finished_session) = running /\
  liveStatus (resumeRace (of_Z 1700003700000) finished_session) = running.
Proof. repeat split; reflexivity. Qed.

End RaceStoreSpec.

(* ================================================================= *)
(** * Further properties *)

(** ** Lists *)

Module ListFacts.

(** The last element of a list that has a first one. *)
Lemma last_cons_default {A : Type} (l : list A) : forall x d : A,
  last (x :: l) d = last l x.
Proof.
  induction l as [|y l IH]; intros x d; [reflexivity|].
  change (last (x :: y :: l) d) with (last (y :: l) d).
  rewrite (IH y d), (IH y x). reflexivity.
Qed.

End ListFacts.

(** ** The pacing plan *)

Module PlanShapeSpec.
Import Js Simulation PlanShape JsFacts.

Lemma plan_step_idx profile goalTimeSeconds st seg :
  idx (plan_step profile goalTimeSeconds st seg) = idx st + 1.
Proof. reflexivity. Qed.

(** A field of the entries that [plan_step] fills from the slot index
    alone. *)
Lemma plans_by_slot {A : Type} (F : SegmentPlan -> A) (G : Z -> A)
    profile goalTimeSeconds :
  (forall st seg,
     map F (plans (plan_step profile goalTimeSeconds st seg))
     = map F (plans st) ++ [G (idx st)]) ->
  forall segs st,
    map F (plans (fold_left (plan_step profile goalTimeSeconds) segs st))
    = map F (plans st) ++ map G (slots_from (idx st) (List.length segs)).
Proof.
  intros Hstep segs.
  induction segs as [|seg segs IH]; intros st; cbn [fold_left List.length slots_from map].
  - rewrite app_nil_r. reflexivity.
  - rewrite IH, Hstep, plan_step_idx, <- app_assoc. reflexivity.
Qed.

(** A field that [plan_step] copies from the segment. *)
Lemma plans_by_segment {A : Type} (F : SegmentPlan -> A) (G : Segment -> A)
    profile goalTimeSeconds :
  (forall st seg,
     map F (plans (plan_step profile goalTimeSeconds st seg))
     = map F (plans st) ++ [G seg]) ->
  forall segs st,
    map F (plans (fold_left (plan_step profile goalTimeSeconds) segs st))
    = map F (plans st) ++ map G segs.
Proof.
  intros Hstep segs.
  induction segs as [|seg segs IH]; intros st; cbn [fold_left map].
  - rewrite app_nil_r. reflexivity.
  - rewrite IH, Hstep, <- app_assoc. reflexivity.
Qed.

Ltac by_plan_step :=
  intros st seg; unfold plan_step; cbn [plans]; rewrite map_app; reflexivity.

Lemma plan_types profile goalTimeSeconds :
  map segment_type (plans (plan_pass profile goalTimeSeconds)) = slot_types.
Proof.
  unfold plan_pass.
  rewrite (plans_by_segment segment_type type); [reflexivity | by_plan_step].
Qed.

Lemma plan_orders profile goalTimeSeconds :
  map segment_order (plans (plan_pass profile goalTimeSeconds))
  = map n [1; 2; 3; 4; 5; 6; 7; 8; 9; 10; 11; 12; 13; 14; 15; 16].
Proof.
  unfold plan_pass.
  rewrite (plans_by_slot segment_order slot_order); [|by_plan_step].
  vm_compute. reflexivity.
Qed.

Lemma plan_order_and_risk profile goalTimeSeconds :
  map order_and_risk (plans (plan_pass profile goalTimeSeconds))
  = map (fun i => (slot_order i, slot_risk profile goalTimeSeconds i))
        (slots_from 0 16).
Proof.
  unfold plan_pass.
  rewrite (plans_by_slot order_and_risk
             (fun i => (slot_order i, slot_risk profile goalTimeSeconds i)));
    [reflexivity | by_plan_step].
Qed.

(** X1: whatever the profile and the goal, the plan has sixteen entries,
    numbered 1 to 16, whose types are the eight runs interleaved with the
    eight stations in race order. *)
Theorem plan_has_sixteen_slots
    (profile : AthleteProfile) (goalTimeSeconds : option number) :
  let plan := segment_plans (generateMockSimulation profile goalTimeSeconds) in
  List.length plan = 16%nat /\
  map segment_order plan
    = map n [1; 2; 3; 4; 5; 6; 7; 8; 9; 10; 11; 12; 13; 14; 15; 16] /\
  map segment_type plan = slot_types.
Proof.
  cbv zeta. unfold generateMockSimulation. cbn [segment_plans].
  split; [|split; [apply plan_orders | apply plan_types]].
  rewrite <- (length_map segment_type), plan_types. reflexivity.
Qed.

Lemma high_risk_orders (l : list SegmentPlan) :
  map segment_order (filter (fun s => is_high_risk (risk_level s)) l)
  = map fst (filter (fun x => is_high_risk (snd x)) (map order_and_risk l)).
Proof.
  induction l as [|pl l IH]; [reflexivity|].
  cbn [map filter order_and_risk snd].
  destruct (is_high_risk (risk_level pl)); cbn [map fst]; rewrite IH; reflexivity.
Qed.

Lemma risk_levels (l : list SegmentPlan) :
  map risk_level l = map snd (map order_and_risk l).
Proof. rewrite map_map. reflexivity. Qed.

(** X2: in prediction mode the risk levels do not depend on the profile:
    segments 1 to 9 are low, 10 to 12 moderate and 13 to 16 high (the
    thirteenth because 12 * 0.05 is 0.6000000000000001, above 0.6), so the
    high-risk segments are always 13, 14, 15 and 16. *)
Theorem prediction_risk_is_fixed (profile : AthleteProfile) :
  let r := generateMockSimulation profile None in
  map risk_level (segment_plans r) = low_moderate_high /\
  high_risk_segments (risk_analysis r) = map n [13; 14; 15; 16] /\
  gtb (mul (n 12) (lit 5 100)) (lit 6 10) = true.
Proof.
  cbv zeta. unfold generateMockSimulation.
  cbn [segment_plans risk_analysis high_risk_segments].
  rewrite high_risk_orders, risk_levels, plan_order_and_risk.
  vm_compute. repeat split; reflexivity.
Qed.

(** X3: in goal mode the risk levels follow the feasibility of the goal
    alone.  A goal that is too fast makes all sixteen segments critical; an
    aggressive goal makes segments 1 to 9 moderate and 10 to 16 high; a
    realistic or easy goal has no high-risk segment, with 1 to 12 low and 13
    to 16 moderate. *)
Theorem goal_risk_follows_feasibility
    (profile : AthleteProfile) (g : number) (Hgoal : gtb g (n 0) = true) :
  let r := generateMockSimulation profile (Some g) in
  match goalFeasibility profile (Some g) with
  | too_fast =>
      map risk_level (segment_plans r) = repeat critical 16 /\
      high_risk_segments (risk_analysis r)
        = map n [1; 2; 3; 4; 5; 6; 7; 8; 9; 10; 11; 12; 13; 14; 15; 16]
  | aggressive =>
      map risk_level (segment_plans r) = repeat moderate 9 ++ repeat high 7 /\
      high_risk_segments (risk_analysis r) = map n [10; 11; 12; 13; 14; 15; 16]
  | realistic | easy =>
      map risk_level (segment_plans r) = repeat low 12 ++ repeat moderate 4 /\
      high_risk_segments (risk_analysis r) = []
  end.
Proof.
  cbv zeta. unfold generateMockSimulation.
  cbn [segment_plans risk_analysis high_risk_segments].
  rewrite high_risk_orders, risk_levels, plan_order_and_risk.
  unfold slot_risk, isGoalMode. rewrite Hgoal.
  destruct (goalFeasibility profile (Some g)); vm_compute; split; reflexivity.
Qed.

Lemma goal_risk_follows_feasibility_witness :
  gtb (n 4800) (n 0) = true /\
  goalFeasibility scenarioA (Some (n 4800)) = aggressive /\
  high_risk_segments
    (risk_analysis (generateMockSimulation scenarioA (Some (n 4800))))
  = map n [10; 11; 12; 13; 14; 15; 16].
Proof.
  split; [reflexivity|].
  assert (Hf : goalFeasibility scenarioA (Some (n 4800)) = aggressive)
    by (vm_compute; reflexivity).
  split; [exact Hf|].
  pose proof (goal_risk_follows_feasibility scenarioA (n 4800) eq_refl) as H.
  cbv zeta in H. rewrite Hf in H. exact (proj2 H).
Defined.

(** X4: the confidence score and the blow-up probability lie within
    [0, 1], for every profile and every goal. *)
Theorem scores_are_probabilities
    (profile : AthleteProfile) (goalTimeSeconds : option number) :
  let r := generateMockSimulation profile goalTimeSeconds in
  in_unit_interval (confidence_score (predictions r)) = true /\
  in_unit_interval (blow_up_probability (risk_analysis r)) = true.
Proof.
  cbv zeta. unfold generateMockSimulation.
  cbn [predictions confidence_score risk_analysis blow_up_probability].
  destruct (isGoalMode goalTimeSeconds);
    destruct (goalFeasibility profile goalTimeSeconds);
    destruct (tier_of profile); vm_compute; split; reflexivity.
Qed.

(** A goal that is not a number above zero leaves every step of the second
    pass as in prediction mode. *)
Lemma plan_step_without_goal profile (g : number) :
  gtb g (n 0) = false ->
  forall st seg,
    plan_step profile (Some g) st seg = plan_step profile None st seg.
Proof.
  intros Hg st seg.
  unfold plan_step, segment_time, goalFeasibility, scaleFactor, isGoalMode.
  rewrite Hg. cbv beta iota. reflexivity.
Qed.

Lemma plan_pass_without_goal profile (g : number) :
  gtb g (n 0) = false -> plan_pass profile (Some g) = plan_pass profile None.
Proof.
  intros Hg. unfold plan_pass.
  generalize (segments profile) as segs.
  generalize {| idx := 0; runNum := n 0; totalRunTime := n 0;
                totalStationTime := n 0; plans := [] |} as st.
  intros st segs. revert st.
  induction segs as [|seg segs IH]; intros st; cbn [fold_left]; [reflexivity|].
  rewrite (plan_step_without_goal profile g Hg). apply IH.
Qed.

(** X5: a goal time that is zero, negative or NaN is ignored: the
    simulation is the prediction-mode one in every field but the echoed
    [goal_time_seconds]. *)
Theorem goal_not_above_zero_is_ignored
    (profile : AthleteProfile) (g : number) (Hg : gtb g (n 0) = false) :
  let r := generateMockSimulation profile (Some g) in
  let q := generateMockSimulation profile None in
  goal_time_seconds r = Some g /\
  mode r = prediction /\
  goal_feasibility r = None /\
  predictions r = predictions q /\
  segment_plans r = segment_plans q /\
  risk_analysis r = risk_analysis q /\
  penalty_warnings r = penalty_warnings q /\
  total_run_time_seconds r = total_run_time_seconds q /\
  total_station_time_seconds r = total_station_time_seconds q /\
  total_roxzone_time_seconds r = total_roxzone_time_seconds q /\
  estimated_tier r = estimated_tier q.
Proof.
  cbv zeta. unfold generateMockSimulation. cbv zeta.
  rewrite (plan_pass_without_goal profile g Hg).
  unfold goalFeasibility, isGoalMode. rewrite Hg.
  cbv beta iota.
  cbn [mode goal_time_seconds goal_feasibility predictions segment_plans
       risk_analysis penalty_warnings total_run_time_seconds
       total_station_time_seconds total_roxzone_time_seconds estimated_tier].
  repeat split; reflexivity.
Qed.

Lemma goal_not_above_zero_is_ignored_witness :
  gtb (n 0) (n 0) = false /\
  gtb NaN (n 0) = false /\
  predictions (generateMockSimulation scenarioA (Some (n 0)))
  = predictions (generateMockSimulation scenarioA None) /\
  segment_plans (generateMockSimulation scenarioA (Some NaN))
  = segment_plans (generateMockSimulation scenarioA None).
Proof.
  split; [reflexivity|]. split; [reflexivity|]. split.
  - apply (goal_not_above_zero_is_ignored scenarioA (n 0)). reflexivity.
  - apply (goal_not_above_zero_is_ignored scenarioA NaN). reflexivity.
Defined.

(** *** Tiers *)

(** Comparing with two positive constants of one exponent, the second the
    larger: the pairs of answers that can occur. *)
Lemma compare_same_exponent (x : number) (ma mb : positive) (e : Z) :
  (ma < mb)%positive ->
  match SFcompare x (S754_finite false ma e),
        SFcompare x (S754_finite false mb e) with
  | Some Lt, Some Lt | Some Eq, Some Lt | Some Gt, Some _ | None, None => True
  | _, _ => False
  end.
Proof.
  intros Hlt.
  destruct x as [s|s| |s m ex]; cbn [SFcompare]; try exact I;
    try (destruct s; exact I).
  destruct s; [exact I|].
  destruct (ex ?= e); try exact I.
  change (Pos.compare_cont Eq m ma) with (m ?= ma)%positive.
  change (Pos.compare_cont Eq m mb) with (m ?= mb)%positive.
  destruct (Pos.compare_spec m ma) as [E|E|E].
  - replace (m ?= mb)%positive with Lt; [exact I|].
    symmetry. apply Pos.compare_lt_iff. lia.
  - replace (m ?= mb)%positive with Lt; [exact I|].
    symmetry. apply Pos.compare_lt_iff. lia.
  - destruct (m ?= mb)%positive; exact I.
Qed.

Lemma compare_finite_none (x : number) s m e :
  is_nan x = true <-> SFcompare x (S754_finite s m e) = None.
Proof.
  destruct x as [sx|sx| |sx mx ex]; cbn [SFcompare is_nan]; split; intros H;
    try discriminate H; try reflexivity; destruct sx; discriminate H.
Qed.

(** X6: the tier is read off the five-kilometre time alone, and the order
    of the tests does not matter: elite below 1200 s, advanced from 1200 to
    below 1440, intermediate from 1440 to 1800 inclusive, beginner above
    1800.  A NaN time is classified intermediate, and no time is classified
    recreational. *)
Theorem tier_is_an_interval (profile : AthleteProfile) (tier : PerformanceTier) :
  tier_of profile = tier <->
  tier_bounds tier (five_k_time_seconds profile) = true.
Proof.
  unfold tier_of, tier_bounds, gtb, ltb, leb, SFltb, SFleb.
  change (n (20 * 60)) with (S754_finite false 5277655813324800 (-42)).
  change (n (24 * 60)) with (S754_finite false 6333186975989760 (-42)).
  change (n (30 * 60)) with (S754_finite false 7916483719987200 (-42)).
  change (n 1200) with (S754_finite false 5277655813324800 (-42)).
  change (n 1440) with (S754_finite false 6333186975989760 (-42)).
  change (n 1800) with (S754_finite false 7916483719987200 (-42)).
  set (x := five_k_time_seconds profile).
  rewrite !(compare_antisym x).
  pose proof (compare_same_exponent x 5277655813324800 6333186975989760 (-42)
                eq_refl) as H1.
  pose proof (compare_same_exponent x 6333186975989760 7916483719987200 (-42)
                eq_refl) as H2.
  pose proof (compare_finite_none x false 5277655813324800 (-42)) as Hnan.
  clearbody x.
  destruct (is_nan x);
    destruct (SFcompare x (S754_finite false 5277655813324800 (-42)))
      as [[| |]|];
    destruct (SFcompare x (S754_finite false 6333186975989760 (-42)))
      as [[| |]|];
    destruct (SFcompare x (S754_finite false 7916483719987200 (-42)))
      as [[| |]|];
    try contradiction H1; try contradiction H2;
    try (destruct Hnan as [Hn _]; discriminate (Hn eq_refl));
    try (destruct Hnan as [_ Hn]; discriminate (Hn eq_refl));
    destruct tier; cbn; split; intros H; try discriminate H; reflexivity.
Qed.

End PlanShapeSpec.

(** ** The dashboard store under all of its actions *)

Module LiveRaceSpec.
Import Js DashboardStore LiveRace JsFacts ListFacts DashboardStoreSpec.

Lemma recorded_snoc sp : forall i prev s,
  recorded i prev (sp ++ [s]) <->
  recorded i prev sp /\
  segmentIndex s = count (i + List.length sp) /\
  segmentName s = nth_error SEGMENT_NAMES (i + List.length sp) /\
  splitSeconds s
  = sub (elapsedAtCompletion s) (last (map elapsedAtCompletion sp) prev).
Proof.
  induction sp as [|a sp IH]; intros i prev s; cbn [app recorded List.length map].
  - rewrite Nat.add_0_r. cbn [last]. tauto.
  - rewrite last_cons_default, IH.
    replace (S i + List.length sp)%nat with (i + S (List.length sp))%nat by lia.
    tauto.
Qed.

Lemma recorded_removelast sp :
  recorded 0 (of_Z 0) sp -> recorded 0 (of_Z 0) (removelast sp).
Proof.
  destruct sp as [|s sp] using rev_ind; [trivial|].
  rewrite removelast_last, recorded_snoc. tauto.
Qed.

Lemma live_advance t st k user :
  live st k user -> (k < 16)%nat ->
  exists user', live (advanceSegment t st) (S k) user'.
Proof.
  intros (Hp & Hact & Hk & Hid & Hu & Hsc & Hidx & Hname & Hlen & Hrec) Hlt.
  unfold advanceSegment. rewrite Hp, Hsc, count_geb_16 by lia.
  replace (16 <=? k)%nat with false by (symmetry; apply Nat.leb_gt; lia).
  eexists. unfold live.
  cbn [participants splits segmentsCompleted currentSegmentIndex
       elapsedSeconds lastStationName isActive id isUser].
  rewrite count_succ, count_min_15, count_name by lia.
  repeat split; try assumption; try lia.
  - rewrite length_app, Hlen. cbn [List.length]. lia.
  - apply recorded_snoc.
    cbn [segmentIndex segmentName splitSeconds elapsedAtCompletion].
    rewrite Hlen, count_name by lia. cbn [Nat.add].
    repeat split; try assumption; reflexivity.
Qed.

Lemma live_advance_full t st user :
  live st 16 user -> advanceSegment t st = st.
Proof.
  intros (Hp & _ & _ & _ & _ & Hsc & _). unfold advanceSegment.
  rewrite Hp, Hsc. reflexivity.
Qed.

Lemma live_undo st k user :
  live st (S k) user -> exists user', live (undoSegment st) k user'.
Proof.
  intros (Hp & Hact & Hk & Hid & Hu & Hsc & Hidx & Hname & Hlen & Hrec).
  unfold undoSegment. rewrite Hp, Hsc, count_leb_0, Hlen by lia.
  cbn [Nat.eqb orb].
  eexists. unfold live.
  cbn [participants splits segmentsCompleted currentSegmentIndex
       elapsedSeconds lastStationName isActive id isUser].
  rewrite count_pred, count_name by lia.
  replace (Nat.min k 15) with k by lia.
  repeat split; try assumption; try lia.
  - rewrite length_removelast, Hlen. reflexivity.
  - apply recorded_removelast, Hrec.
Qed.

Lemma live_undo_empty st user :
  live st 0 user -> undoSegment st = st.
Proof.
  intros (Hp & _ & _ & _ & _ & Hsc & _). unfold undoSegment.
  rewrite Hp, Hsc. reflexivity.
Qed.

Lemma live_updateElapsed seconds st k user :
  live st k user -> exists user', live (updateElapsed seconds st) k user'.
Proof.
  intros (Hp & Hact & Hk & Hid & Hu & Hsc & Hidx & Hname & Hlen & Hrec).
  unfold updateElapsed. rewrite Hp. eexists. unfold live.
  cbn [participants splits segmentsCompleted currentSegmentIndex
       elapsedSeconds lastStationName isActive id isUser].
  repeat split; assumption.
Qed.

Lemma live_initLiveRace displayName st :
  exists user, live (initLiveRace displayName st) 0 user.
Proof.
  eexists. unfold live, initLiveRace.
  cbn [participants splits segmentsCompleted currentSegmentIndex
       elapsedSeconds lastStationName isActive id isUser List.length recorded].
  repeat split; try reflexivity. lia.
Qed.

Lemma reached_dispatch st a : reached st -> reached (dispatch st a).
Proof.
  intros [->|(k & user & Hl)].
  - destruct a; cbn [dispatch]; try (left; reflexivity).
    right. exists 0%nat. apply live_initLiveRace.
  - destruct a as [displayName|t| |seconds|]; cbn [dispatch].
    + right. exists 0%nat. apply live_initLiveRace.
    + right. destruct (Nat.eq_dec k 16) as [->|Hne].
      * rewrite (live_advance_full t st user Hl). eauto.
      * destruct (live_advance t st k user Hl) as (u & Hu).
        { destruct Hl as (_ & _ & Hk & _). lia. }
        eauto.
    + right. destruct k as [|k].
      * rewrite (live_undo_empty st user Hl). eauto.
      * destruct (live_undo st k user Hl) as (u & Hu). eauto.
    + right. destruct (live_updateElapsed seconds st k user Hl) as (u & Hu).
      eauto.
    + left. reflexivity.
Qed.

Lemma reached_fold acts : forall st,
  reached st -> reached (fold_left dispatch acts st).
Proof.
  induction acts as [|a acts IH]; intros st H; cbn [fold_left].
  - exact H.
  - apply IH, reached_dispatch, H.
Qed.

(** X7: whatever actions the store has taken since it was created, it is
    either as created (no participant, inactive, no split) or it holds one
    participant, the user, with a count of completed segments between 0
    and 16, as many splits as completed segments, the current index and
    station name of that count capped at 15, and a split list whose entry
    [i] carries index [i], the name of segment [i] and, as split time, its
    completion time less that of the entry before it. *)
Theorem store_is_empty_or_consistent (acts : list Action) :
  session acts = initial \/ exists k user, live (session acts) k user.
Proof.
  apply (reached_fold acts initial). left. reflexivity.
Qed.

Lemma live_head st k user u :
  live st k user -> head (participants st) = Some u -> u = user.
Proof.
  intros (Hp & _) H. rewrite Hp in H. cbn in H. congruence.
Qed.

Lemma session_head acts user :
  head (participants (session acts)) = Some user ->
  exists k, live (session acts) k user.
Proof.
  intros H.
  destruct (reached_fold acts initial (or_introl eq_refl)) as [E|(k & u & Hl)];
    fold (session acts) in *.
  - rewrite E in H. discriminate H.
  - rewrite (live_head _ _ _ _ Hl H). eauto.
Qed.

(** X8: in any session, while fewer than 16 segments are completed,
    [undoSegment] after [advanceSegment] gives back the participant's
    counters and the split list, and sets the elapsed time to the completion
    time of the last split (0 without one): the store is the one before the
    two calls with its clock moved there, whatever a timer tick had written. *)
Theorem undo_after_advance_rewinds_clock
    (acts : list Action) (t : number) (user : Participant) :
  let st := session acts in
  head (participants st) = Some user ->
  ltb (segmentsCompleted user) (of_Z 16) = true ->
  undoSegment (advanceSegment t st)
  = updateElapsed (lastElapsed (splits st)) st.
Proof.
  cbv zeta. intros Hh Hlt16.
  destruct (session_head acts user Hh) as (k & Hl).
  set (st := session acts) in *. clearbody st.
  destruct Hl as (Hp & Hact & Hk & Hid & Hu & Hsc & Hidx & Hname & Hlen & Hrec).
  rewrite Hsc, count_ltb_16 in Hlt16 by exact Hk. apply Nat.ltb_lt in Hlt16.
  unfold advanceSegment. rewrite Hp, Hsc, count_geb_16 by lia.
  replace (16 <=? k)%nat with false by (symmetry; apply Nat.leb_gt; lia).
  unfold undoSegment, updateElapsed. rewrite Hp.
  cbn [participants splits segmentsCompleted currentSegmentIndex
       elapsedSeconds lastStationName id name isUser isActive].
  rewrite count_succ, count_leb_0, length_app by lia.
  cbn [List.length]. rewrite Nat.add_1_r. cbn [Nat.eqb orb].
  rewrite removelast_last, count_pred, count_name by lia.
  replace (Nat.min k 15) with k in Hidx, Hname by lia.
  rewrite Hsc, Hidx, Hname. reflexivity.
Qed.

Lemma undo_after_advance_rewinds_clock_witness :
  undoSegment (advanceSegment (of_Z 400) (session ticking))
  = updateElapsed (of_Z 340) (session ticking).
Proof.
  refine (undo_after_advance_rewinds_clock ticking (of_Z 400) _ _ _);
    reflexivity.
Defined.

(** X9: in any session with at least one completed segment, [undoSegment]
    followed by [advanceSegment] at the completion time of the split that
    was removed writes the same split again and gives back the
    participant's counters: the store is the one before the two calls with
    its clock at that completion time. *)
Theorem advance_after_undo_restores_split
    (acts : list Action) (user : Participant) :
  let st := session acts in
  head (participants st) = Some user ->
  gtb (segmentsCompleted user) (of_Z 0) = true ->
  advanceSegment (lastElapsed (splits st)) (undoSegment st)
  = updateElapsed (lastElapsed (splits st)) st.
Proof.
  cbv zeta. intros Hh Hgt.
  destruct (session_head acts user Hh) as (k & Hl).
  set (st := session acts) in *. clearbody st.
  destruct Hl as (Hp & Hact & Hk & Hid & Hu & Hsc & Hidx & Hname & Hlen & Hrec).
  destruct k as [|k].
  { rewrite Hsc in Hgt. discriminate Hgt. }
  destruct st as [ps act sp]. cbn [participants isActive splits] in *.
  destruct sp as [|s sp _] using rev_ind; [discriminate Hlen|].
  rewrite length_app in Hlen. cbn [List.length] in Hlen.
  assert (Hlen' : List.length sp = k) by lia.
  apply recorded_snoc in Hrec.
  destruct Hrec as (Hrec & Hsi & Hsn & Hss).
  cbn [Nat.add] in Hsi, Hsn. rewrite Hlen' in Hsi, Hsn.
  unfold undoSegment, updateElapsed, lastElapsed.
  cbn [participants splits isActive].
  rewrite Hp, Hsc, count_leb_0, length_app by lia.
  cbn [List.length]. rewrite Nat.add_1_r. cbn [Nat.eqb orb].
  rewrite removelast_last, map_app. cbn [map]. rewrite last_last.
  unfold advanceSegment.
  cbn [participants splits segmentsCompleted currentSegmentIndex
       elapsedSeconds lastStationName id name isUser isActive].
  rewrite count_pred, count_geb_16 by lia.
  replace (16 <=? k)%nat with false by (symmetry; apply Nat.leb_gt; lia).
  rewrite count_succ, count_min_15, !count_name by lia.
  rewrite Hidx, Hname, <- Hsi, <- Hsn.
  unfold lastElapsed. rewrite <- Hss.
  destruct s. reflexivity.
Qed.

Lemma advance_after_undo_restores_split_witness :
  advanceSegment (of_Z 340) (undoSegment (session ticking))
  = updateElapsed (of_Z 340) (session ticking).
Proof.
  refine (advance_after_undo_restores_split ticking _ _ _); reflexivity.
Defined.

End LiveRaceSpec.

(** ** The track marker *)

Module TrackMarkerSpec.
Import Js RaceTrackMapper TrackMarker JsFacts RaceTrackMapperSpec.

(** X10: after [k] completed segments, [k] from 0 to 16, the marker stands at
    exactly 6.25 [k] percent of the track: the sixteen segments are evenly
    spaced and the last one ends at 100. *)
Theorem marker_percent_of_count (k : nat) (Hk : (k <= 16)%nat) :
  marker_percent (count k) = mul (count k) (lit 625 100).
Proof. each_count k Hk. Qed.

Lemma marker_percent_of_count_witness :
  marker_percent (count 5) = lit 3125 100.
Proof.
  rewrite (marker_percent_of_count 5); [reflexivity | lia].
Defined.

Lemma marker_of_lap (lap : number) (odd : bool) :
  In lap laps ->
  In (positionToPercent (add lap (if odd then lit 5 10 else of_Z 0))) sixteenths.
Proof.
  unfold laps. cbn [map In].
  intros [<-|[<-|[<-|[<-|[<-|[<-|[<-|[<-|[]]]]]]]]]; destruct odd;
    vm_compute; tauto.
Qed.

(** X11: for every number other than NaN, whole or not, inside 0 .. 16 or
    not, the marker stands on one of the seventeen marks 0, 6.25, ..., 100. *)
Theorem marker_percent_on_a_mark (x : number)
    (Hnum : is_number x = true) (Hnan : is_nan x = false) :
  In (marker_percent x) sixteenths.
Proof.
  unfold marker_percent.
  destruct x as [s|s| |s m e]; try discriminate Hnan.
  - destruct s; vm_compute; tauto.
  - destruct s; vm_compute; tauto.
  - destruct s.
    { rewrite (negative_is_start (S754_finite true m e) eq_refl).
      vm_compute; tauto. }
    destruct (SFcompare (S754_finite false m e) (of_Z 16)) as [[| |]|] eqn:Hc.
    + assert (Heq : eqb (S754_finite false m e) (of_Z 16) = true)
        by (unfold eqb, SFeqb; rewrite Hc; reflexivity).
      change (of_Z 16) with (S754_finite false 4503599627370496 (-48)) in Heq.
      apply eqb_finite_eq in Heq. rewrite Heq.
      vm_compute; tauto.
    + assert (Hlt : ltb (S754_finite false m e) (of_Z 16) = true)
        by (unfold ltb, SFltb; rewrite Hc; reflexivity).
      unfold getTrackPosition. rewrite (clamp_inside m e Hlt).
      rewrite (ltb_not_geb _ _ Hlt).
      cbn [continuousPosition].
      pose proof (lap_values m e Hnum Hlt) as Hlap.
      destruct (eqb (rem (S754_finite false m e) (of_Z 2)) (of_Z 0)).
      * exact (marker_of_lap _ false Hlap).
      * exact (marker_of_lap _ true Hlap).
    + assert (Hgt : gtb (S754_finite false m e) (of_Z 16) = true).
      { unfold gtb, ltb, SFltb.
        rewrite (compare_antisym (S754_finite false m e) (of_Z 16)), Hc.
        reflexivity. }
      rewrite (above_is_finished _ Hgt).
      vm_compute; tauto.
    + change (of_Z 16) with (S754_finite false 4503599627370496 (-48)) in Hc.
      discriminate Hc.
Qed.

Lemma marker_percent_on_a_mark_witness :
  In (marker_percent (lit 37 10)) sixteenths.
Proof.
  apply (marker_percent_on_a_mark (lit 37 10)); reflexivity.
Defined.

End TrackMarkerSpec.

(** ** The redline tracker *)

Module RedlineSessionSpec.
Import Js RedlineTracker RedlineSession JsFacts ListFacts.

(** What one sample does to the marker, the counter and the outcome. *)
Lemma recordHRSample_cases hr mx now t :
  let r := recordHRSample hr mx now t in
  (snd r = Returned None /\ alertCounter (fst r) = alertCounter t) \/
  (exists a, snd r = Returned (Some a) /\
             redlineStartTime t <> None /\
             redlineStartTime (fst r) = None /\
             id a = add (alertCounter t) (of_Z 1) /\
             alertCounter (fst r) = add (alertCounter t) (of_Z 1)) \/
  (exists e, snd r = Thrown e /\
             redlineStartTime t <> None /\
             redlineStartTime (fst r) = redlineStartTime t /\
             alertCounter (fst r) = add (alertCounter t) (of_Z 1)).
Proof.
  cbv zeta. unfold recordHRSample.
  destruct hr as [hr|]; [|left; split; reflexivity].
  destruct mx as [mx|]; [|left; split; reflexivity].
  destruct (leb mx (of_Z 0)); [left; split; reflexivity|].
  destruct (ltb (div hr mx) REDLINE_THRESHOLD); [left; split; reflexivity|].
  destruct (redlineStartTime t) as [start|]; [|left; split; reflexivity].
  destruct (geb (sub now start) REDLINE_DURATION_MS);
    [|left; split; reflexivity].
  right. destruct (is_time_value start).
  - left. eexists. cbn [fst snd redlineStartTime alertCounter id].
    repeat split. discriminate.
  - right. eexists. cbn [fst snd redlineStartTime alertCounter].
    repeat split. discriminate.
Qed.

(** X12: over any stretch of samples and unmounts, from any tracker state,
    an alert takes two samples: twice the number of alerts returned is at
    most the number of events, plus one when an excursion was already open.
    So no two alerts come from consecutive samples.  A call that throws
    (the excursion's start is not a time value) returns no alert and leaves
    the excursion open. *)
Theorem alerts_take_two_samples (t : Tracker) (events : list Event) :
  (2 * List.length (alerts_of (snd (play t events)))
   <= List.length events + open_excursion t)%nat.
Proof.
  revert t. induction events as [|ev events IH]; intros t.
  - cbn. lia.
  - destruct ev as [s|]; cbn [play List.length].
    + pose proof (recordHRSample_cases (currentHR s) (maxHR s) (at_ms s) t) as H.
      cbv zeta in H.
      destruct (recordHRSample (currentHR s) (maxHR s) (at_ms s) t)
        as [t' a] eqn:E.
      specialize (IH t').
      destruct (play t' events) as [t'' firings]. cbn [fst snd] in *.
      destruct H as [(-> & _)|[(x & -> & Hopen & Hclosed & _)
                              |(e & -> & Hopen & _)]].
      * unfold open_excursion in *.
        destruct (redlineStartTime t'); destruct (redlineStartTime t); lia.
      * cbn [alerts_of flat_map app List.length].
        fold (alerts_of firings).
        unfold open_excursion in *. rewrite Hclosed in IH.
        destruct (redlineStartTime t); [lia | congruence].
      * cbn [alerts_of flat_map app]. fold (alerts_of firings).
        unfold open_excursion in *.
        destruct (redlineStartTime t); [|congruence].
        destruct (redlineStartTime t'); lia.
    + specialize (IH (resetRedlineTracker t)).
      unfold open_excursion in *. cbn [resetRedlineTracker redlineStartTime] in IH.
      lia.
Qed.

(** X13: every call that reaches the two-minute mark takes the next value
    of the counter, whether it returns an alert, which carries that value
    as its id, or throws after the increment.  So over any stretch of
    samples and unmounts the firings carry the successive values of the
    counter, starting one above its value at the start, the returned
    alerts' ids follow the counter with a gap for every call that threw,
    and the counter ends at the last value taken; an unmount does not set
    it back. *)
Theorem firings_count_up (t : Tracker) (events : list Event) :
  map number_of (snd (play t events))
  = counting_from (alertCounter t) (List.length (snd (play t events))) /\
  alertCounter (fst (play t events))
  = last (map number_of (snd (play t events))) (alertCounter t).
Proof.
  revert t. induction events as [|ev events IH]; intros t.
  - cbn. split; reflexivity.
  - destruct ev as [s|]; cbn [play].
    + pose proof (recordHRSample_cases (currentHR s) (maxHR s) (at_ms s) t) as H.
      cbv zeta in H.
      destruct (recordHRSample (currentHR s) (maxHR s) (at_ms s) t)
        as [t' a] eqn:E.
      specialize (IH t').
      destruct (play t' events) as [t'' firings]. cbn [fst snd] in *.
      destruct IH as (IHids & IHc).
      destruct H as [(-> & Hc)|[(x & -> & _ & _ & Hid & Hc)
                               |(e & -> & _ & _ & Hc)]].
      * rewrite <- Hc. split; assumption.
      * cbn [map List.length counting_from number_of].
        rewrite Hid, <- Hc, <- IHids.
        split; [reflexivity|].
        rewrite IHc, Hc, last_cons_default. reflexivity.
      * cbn [map List.length counting_from number_of].
        rewrite <- Hc, <- IHids.
        split; [reflexivity|].
        rewrite IHc, last_cons_default. reflexivity.
    + exact (IH (resetRedlineTracker t)).
Qed.


End RedlineSessionSpec.

(** ** The wearable store *)

Module WearableStoreSpec.
Import Js Simulation WearableStore.

(** Every call leaves the store as created. *)
Lemma session_is_initial
    (get_alerts : Promise (list Alert))
    (get_competitor_alerts : string -> Promise (list Alert))
    (post_resolve : string -> Promise Alert)
    (now_iso : string) (acts : list Action) :
  session get_alerts get_competitor_alerts post_resolve now_iso acts = initial.
Proof.
  unfold session.
  induction acts as [|a acts IH]; cbn [fold_left]; [reflexivity|].
  replace (dispatch get_alerts get_competitor_alerts post_resolve now_iso
             initial a) with initial; [exact IH|].
  destruct a as [|c| |[c|]|alertId]; cbn [dispatch]; try reflexivity.
  unfold fetchAlerts. destruct (String.eqb c EmptyString); reflexivity.
Qed.

(** X15: with the wearable service as shipped and the mock API switched on,
    no call of the wearable store changes it: after any list of calls it is
    not connected, not monitoring, has no heart rate and no alert, and the
    service's poll timer is not set; a further [connect] reports that
    permission was not granted.  The backend is never consulted. *)
Theorem wearable_store_never_changes
    (get_alerts : Promise (list Alert))
    (get_competitor_alerts : string -> Promise (list Alert))
    (post_resolve : string -> Promise Alert)
    (now_iso : string) (acts : list Action) :
  let st := session get_alerts get_competitor_alerts post_resolve now_iso acts in
  st = initial /\
  snd (connect st) = Resolved false /\
  currentHR st = None.
Proof.
  cbv zeta. rewrite session_is_initial. repeat split.
Qed.

End WearableStoreSpec.

(** ** The engines of the live screen *)

Module AgentDashboardSpec.
Import Js Simulation CoachEngine ScoutEngine RedlineTracker DashboardStore.
Import AgentDashboard JsFacts DashboardStoreSpec.

Lemma hrPct_without_reading (state : RaceState) :
  CoachEngine.currentHR state = None -> hrPct state = of_Z 0.
Proof. intros H. unfold hrPct. rewrite H. reflexivity. Qed.

Lemma evaluate_without_reading (userP : Participant) (max_hr : option number) :
  In (evaluate (coach_state userP None max_hr))
     (pace_tips (coach_state userP None max_hr)).
Proof.
  unfold evaluate, pace_tips.
  rewrite hrPct_without_reading by reflexivity.
  change (geb (of_Z 0) (lit 93 100)) with false.
  change (geb (of_Z 0) (lit 85 100)) with false.
  cbn [andb competitorDelta coach_state].
  destruct (ltb (delta (coach_state userP None max_hr)) (of_Z (-30))
            && isEarlyRace (coach_state userP None max_hr)).
  { left. reflexivity. }
  destruct (gtb (delta (coach_state userP None max_hr)) (of_Z 20)).
  { right. left. reflexivity. }
  right. right. left. reflexivity.
Qed.

(** X16: the heart rate the live screen reads is the wearable store's, which
    is never set.  So whenever the dashboard store has a participant, a run
    of the engines returns no redline alert, leaves the redline indicator
    off and no excursion open, gives a coach tip chosen by pace alone (the
    ahead, the behind or the segment tip, never an HR tip), and, as no
    competitor is passed to the scout, an insight that is not a gap
    analysis; and the run ends normally, the tracker's RangeError being out
    of reach without a reading. *)
Theorem engines_read_no_heart_rate
    (get_alerts : Promise (list WearableStore.Alert))
    (get_competitor_alerts : string -> Promise (list WearableStore.Alert))
    (post_resolve : string -> Promise WearableStore.Alert)
    (now_iso : string) (worn : list WearableStore.Action)
    (store : DashboardState) (userP : Participant)
    (max_hr : option number) (now now' : number) (scr : Screen) :
  head (participants store) = Some userP ->
  let hr :=
    WearableStore.currentHR
      (WearableStore.session get_alerts get_competitor_alerts post_resolve
                             now_iso worn) in
  let run := updateEngines store hr max_hr now now' scr in
  let scr' := fst run in
  snd run = Returned tt /\
  localAlerts scr' = localAlerts scr /\
  redlineStatus scr' = {| isInRedline := false; secondsInRedline := of_Z 0 |} /\
  redlineStartTime (tracker scr') = None /\
  (exists tip,
     coachTip scr' = Some tip /\ In tip (pace_tips (coach_state userP hr max_hr))) /\
  (exists insight,
     scoutInsight scr' = Some insight /\ category insight <> gap_analysis).
Proof.
  intros Hh.
  rewrite WearableStoreSpec.session_is_initial.
  cbn [WearableStore.currentHR WearableStore.initial]. cbv zeta.
  unfold updateEngines.
  destruct (participants store) as [|u rest]; [discriminate Hh|].
  cbn [head] in Hh. injection Hh as ->.
  cbn [recordHRSample clear_start fst snd coachTip scoutInsight localAlerts
       redlineStatus tracker getRedlineStatus redlineStartTime].
  repeat split.
  - eexists. split; [reflexivity|]. apply evaluate_without_reading.
  - eexists. split; [reflexivity|].
    unfold generateInsight. cbn [leader_of fold_left]. unfold own_insight.
    destruct (gtb (behindSeconds userP) (of_Z 45)); [discriminate|].
    destruct (ltb (behindSeconds userP) (of_Z (-45))
              && ltb (segmentsCompleted userP) (of_Z 8)); [discriminate|].
    cbv zeta. unfold approaching.
    destruct (String.prefix "Run" _ && ltb (segmentsCompleted userP) (of_Z 15)).
    + destruct (nextNames _) as [ns|].
      * destruct (negb (String.eqb ns EmptyString) && has HARD_STATIONS ns);
          [discriminate|].
        destruct (has HARD_STATIONS _); discriminate.
      * destruct (has HARD_STATIONS _); discriminate.
    + destruct (has HARD_STATIONS _); discriminate.
Qed.

Lemma engines_read_no_heart_rate_witness :
  let run :=
    updateEngines (LiveRace.session LiveRace.ticking) None (Some (of_Z 190))
                  (of_Z 1000) (of_Z 1001) mounted in
  let scr' := fst run in
  snd run = Returned tt /\
  localAlerts scr' = [] /\
  isInRedline (redlineStatus scr') = false /\
  coachTip scr'
  = Some (ahead_tip (coach_state (participant_at 2 350) None (Some (of_Z 190)))).
Proof.
  pose proof (engines_read_no_heart_rate
                (Rejected "offline") (fun _ => Rejected "offline")
                (fun _ => Rejected "offline") EmptyString
                [WearableStore.Connect; WearableStore.StartMonitoring None]
                (LiveRace.session LiveRace.ticking)
                {| id := "user"; name := "Kim"; isUser := true;
                   segmentsCompleted := of_Z 2;
                   currentSegmentIndex := of_Z 2;
                   elapsedSeconds := of_Z 350;
                   lastStationName := Some "Run 2"%string |}
                (Some (of_Z 190)) (of_Z 1000) (of_Z 1001) mounted eq_refl)
    as (Hr & Ha & Hs & _).
  cbv zeta. split; [exact Hr|]. split; [exact Ha|]. split.
  - change (WearableStore.currentHR _) with (@None number) in Hs.
    rewrite Hs. reflexivity.
  - vm_compute. reflexivity.
Defined.

(** The segment types by index, and their tips. *)
Lemma segment_type_and_tip (j : nat) :
  (j <= 15)%nat ->
  exists ty tip,
    getSegmentType (count j) = Some ty /\
    nth_error SEGMENT_TYPES j = Some ty /\
    lookup ty SEGMENT_TIPS = Some tip.
Proof.
  intros Hj.
  do 16 (destruct j as [|j];
         [do 2 eexists; repeat split; vm_compute; reflexivity|]).
  exfalso. lia.
Qed.

(** X17: whatever the dashboard store has been through, the state the live
    screen hands to the coach names one of the sixteen segments: the segment
    type is defined, it has its own entry in [SEGMENT_TIPS], and the default
    tip reads that entry under the context Segment k+1/16 with k at most 15.
    The fallback tip is never shown and the segment number never passes
    16. *)
Theorem default_tip_names_the_segment
    (acts : list LiveRace.Action) (userP : Participant)
    (hr max_hr : option number) :
  head (participants (LiveRace.session acts)) = Some userP ->
  exists (k : nat) (ty tip : string),
    (k <= 15)%nat /\
    getSegmentType (currentSegmentIndex userP) = Some ty /\
    nth_error SEGMENT_TYPES k = Some ty /\
    lookup ty SEGMENT_TIPS = Some tip /\
    default_tip (coach_state userP hr max_hr)
    = {| message := [Lit tip];
         priority := info;
         context := [Lit "Segment "; Num (count (S k)); Lit "/16"] |}.
Proof.
  intros Hh.
  destruct (LiveRaceSpec.session_head acts userP Hh) as (k & Hl).
  destruct Hl as (_ & _ & Hk & _ & _ & _ & Hidx & _).
  assert (Hj : (Nat.min k 15 <= 15)%nat) by lia.
  destruct (segment_type_and_tip _ Hj) as (ty & tip & Hty & Hnth & Htip).
  exists (Nat.min k 15), ty, tip.
  split; [exact Hj|]. rewrite Hidx.
  split; [exact Hty|]. split; [exact Hnth|]. split; [exact Htip|].
  unfold default_tip, coach_state.
  cbn [CoachEngine.currentSegmentIndex currentSegmentType].
  rewrite Hidx, Hty. cbn [key_of]. rewrite Htip.
  rewrite count_succ by lia. reflexivity.
Qed.

Lemma default_tip_names_the_segment_witness :
  exists (k : nat) (ty tip : string),
    (k <= 15)%nat /\
    nth_error SEGMENT_TYPES k = Some ty /\
    lookup ty SEGMENT_TIPS = Some tip /\
    default_tip (coach_state (participant_at 2 350) None None)
    = {| message := [Lit tip];
         priority := info;
         context := [Lit "Segment "; Num (count (S k)); Lit "/16"] |}.
Proof.
  destruct (default_tip_names_the_segment
              LiveRace.ticking
              {| id := "user"; name := "Kim"; isUser := true;
                 segmentsCompleted := of_Z 2;
                 currentSegmentIndex := of_Z 2;
                 elapsedSeconds := of_Z 350;
                 lastStationName := Some "Run 2"%string |}
              None None eq_refl)
    as (k & ty & tip & Hk & _ & Hnth & Htip & Hd).
  exists k, ty, tip. repeat split; assumption.
Defined.

(** X18: with no competitor passed and the pace within 45 s of 270 s a
    segment (or more than 45 s ahead of it from the eighth segment on), the
    scout's insight depends on the count [k] of completed segments alone.
    At 4 to 7 and 12 to 15 completed segments it is a critical moment about
    the station of the current lap (Sled Pull, Burpee BJ, Lunges, Wall
    Balls): headed "is next" on the run before it (even [k]) and "In ..."
    during it (odd [k]), with that station's own entry of
    [HARD_STATION_TIPS] as its detail.  At every other count it is the
    general insight: the current activity, 8 - ceil(k / 2) stations
    remaining (always in the plural there: exactly one station remains only
    at 13 and 14), and the steady-rhythm detail. *)
Theorem scout_insight_on_pace (user : Participant) (k : nat)
    (Hk : (k <= 16)%nat)
    (Hsc : segmentsCompleted user = count k)
    (Hbehind : gtb (behindSeconds user) (of_Z 45) = false)
    (Hahead : ltb (behindSeconds user) (of_Z (-45))
              && ltb (segmentsCompleted user) (of_Z 8) = false) :
  if hard_stretch k
  then
    exists station tip,
      nth_error SEGMENT_NAMES (2 * (k / 2) + 1) = Some station /\
      lookup station HARD_STATION_TIPS = Some tip /\
      generateInsight user []
      = {| headline :=
             if Nat.even k
             then [Lit station; Lit " is next — prepare now"]
             else [Lit "In "; Lit station; Lit " — stay composed"];
           detail := Some [Lit tip];
           category := critical_moment |}
  else
    generateInsight user []
    = {| headline :=
           [ Lit (RaceTrackMapper.currentActivity
                    (RaceTrackMapper.getTrackPosition (count k)));
             Lit " — ";
             Num (sub (of_Z 8) (ceil (div (count k) (of_Z 2))));
             Lit " station";
             Lit "s";
             Lit " remaining" ];
         detail :=
           Some [Lit "Steady rhythm. Focus on smooth transitions — every second saved between stations adds up."];
         category := general |}.
Proof.
  unfold generateInsight. cbn [leader_of fold_left]. unfold own_insight.
  rewrite Hbehind, Hahead. cbv zeta.
  unfold approaching, general_insight. rewrite Hsc.
  clear Hsc Hbehind Hahead.
  do 17 (destruct k as [|k];
         [cbn [hard_stretch existsb Nat.eqb orb];
          first [ reflexivity
                | do 2 eexists; repeat split; vm_compute; reflexivity ]|]).
  exfalso. lia.
Qed.

Lemma scout_insight_on_pace_witness :
  category (generateInsight (on_pace 6) []) = critical_moment /\
  headline (generateInsight (on_pace 6) [])
  = [Lit "Burpee BJ"; Lit " is next — prepare now"] /\
  category (generateInsight (on_pace 9) []) = general.
Proof.
  pose proof (scout_insight_on_pace (on_pace 6) 6 ltac:(lia)
                eq_refl eq_refl eq_refl) as H6.
  pose proof (scout_insight_on_pace (on_pace 9) 9 ltac:(lia)
                eq_refl eq_refl eq_refl) as H9.
  cbn [hard_stretch existsb Nat.eqb orb] in H6, H9.
  destruct H6 as (station & tip & Hst & _ & H6).
  rewrite H6, H9. cbn [category headline Nat.even].
  vm_compute in Hst. injection Hst as <-.
  repeat split.
Defined.

Lemma strictly_between_In (lo hi e : Z) :
  lo < e < hi -> In e (strictly_between lo hi).
Proof.
  intros H. unfold strictly_between. apply in_map_iff.
  exists (Z.to_nat (e - lo - 1)). split; [lia|].
  apply in_seq. lia.
Qed.

Lemma ahead_and_behind_table :
  forallb (fun k => forallb (ahead_and_behind k)
                            (strictly_between (270 * k + 45) (300 * k - 30)))
          [3; 4; 5] = true.
Proof. vm_compute. reflexivity. Qed.

(** X19: the coach measures the pace against 300 s a segment and the scout
    against 270 s.  With three, four or five segments completed and a whole
    number of elapsed seconds more than 45 s over the scout's pace and more
    than 30 s under the coach's, and no heart rate, the same run of the
    engines has the coach say the athlete is ahead and must hold back and
    the scout say the athlete is behind target pace. *)
Theorem coach_says_ahead_scout_says_behind
    (userP : Participant) (k e : Z) (max_hr : option number)
    (Hk : 3 <= k <= 5)
    (He : between_paces k e = true)
    (Hsc : segmentsCompleted userP = of_Z k)
    (Hidx : currentSegmentIndex userP = of_Z k)
    (Hel : elapsedSeconds userP = of_Z e) :
  evaluate (coach_state userP None max_hr)
  = ahead_tip (coach_state userP None max_hr) /\
  generateInsight userP [] = behind_insight (behindSeconds userP).
Proof.
  unfold between_paces in He. apply andb_true_iff in He as [Hlo Hhi].
  apply Z.ltb_lt in Hlo, Hhi.
  assert (Hin : In e (strictly_between (270 * k + 45) (300 * k - 30)))
    by (apply strictly_between_In; lia).
  assert (Hrules : ahead_and_behind k e = true).
  { pose proof ahead_and_behind_table as T.
    cbn [forallb] in T. rewrite !andb_true_iff in T.
    destruct T as (T3 & T4 & T5 & _).
    assert (Hcases : k = 3 \/ k = 4 \/ k = 5) by lia.
    destruct Hcases as [->|[->| ->]];
      [ exact (proj1 (forallb_forall _ _) T3 e Hin)
      | exact (proj1 (forallb_forall _ _) T4 e Hin)
      | exact (proj1 (forallb_forall _ _) T5 e Hin) ]. }
  unfold ahead_and_behind in Hrules. cbv zeta in Hrules.
  rewrite !andb_true_iff in Hrules. destruct Hrules as ((Hd & Hearly) & Hb).
  assert (Hdelta : delta (coach_state userP None max_hr)
                   = delta (coach_state (participant_at k e) None None)).
  { unfold delta, coach_state.
    cbn [CoachEngine.elapsedSeconds targetElapsedSeconds participant_at
         segmentsCompleted elapsedSeconds].
    rewrite Hsc, Hel. reflexivity. }
  assert (Hearly' : isEarlyRace (coach_state userP None max_hr) = true).
  { unfold isEarlyRace, coach_state in *.
    cbn [CoachEngine.currentSegmentIndex participant_at currentSegmentIndex]
      in *.
    rewrite Hidx. exact Hearly. }
  assert (Hbehind : behindSeconds userP = behindSeconds (participant_at k e)).
  { unfold behindSeconds.
    cbn [participant_at segmentsCompleted elapsedSeconds].
    rewrite Hsc, Hel. reflexivity. }
  split.
  - unfold evaluate.
    rewrite hrPct_without_reading by reflexivity.
    change (geb (of_Z 0) (lit 93 100)) with false. cbv iota.
    rewrite Hdelta, Hd, Hearly'. reflexivity.
  - unfold generateInsight. cbn [leader_of fold_left]. unfold own_insight.
    cbv zeta. rewrite Hbehind, Hb. reflexivity.
Qed.

Lemma coach_says_ahead_scout_says_behind_witness :
  let userP := participant_at 4 1150 in
  message (evaluate (coach_state userP None None))
  = [Num (of_Z 50); Lit "s ahead -- hold back. Save for Run 5+."] /\
  headline (generateInsight userP [])
  = [Lit "~"; Num (of_Z 70); Lit "s behind target pace"].
Proof.
  destruct (coach_says_ahead_scout_says_behind
              (participant_at 4 1150) 4 1150 None
              ltac:(lia) eq_refl eq_refl eq_refl eq_refl) as (Hc & Hs).
  cbv zeta. rewrite Hc, Hs. split; vm_compute; reflexivity.
Defined.

End AgentDashboardSpec.

(** ** The race store's clock *)

Module RaceClockSpec.
Import Js RaceStore.

(** X20: in every state the race store can reach, the status is running
    exactly when a start timestamp is held. *)
Theorem running_iff_started (st : RaceState) (Hreach : reachable st) :
  liveStatus st = running <-> raceStartedAt st <> None.
Proof.
  split.
  - induction Hreach as [|st op Hst IH]; [discriminate|].
    destruct op; cbn [apply]; try discriminate.
    + unfold recomputePhase.
      destruct (liveStatus st) eqn:Hls; cbn [raceStartedAt liveStatus];
        rewrite ?Hls; try discriminate; exact IH.
    + unfold pauseRace. destruct (started (raceStartedAt st)); [discriminate|].
      exact IH.
    + unfold tickElapsed.
      destruct (liveStatus st) eqn:Hls; try (rewrite Hls; discriminate).
      destruct (started (raceStartedAt st));
        cbn [raceStartedAt liveStatus]; intros _; apply IH; reflexivity.
    + unfold loadPersistedRace. destruct found; exact IH.
  - intros Hsome.
    destruct (liveStatus st) eqn:Hls; try reflexivity; exfalso; apply Hsome;
      apply (RaceStoreSpec.started_means_running st Hreach);
      rewrite Hls; discriminate.
Qed.

Lemma running_iff_started_witness :
  liveStatus (apply initial (StartRace (of_Z 1700000000000))) = running <->
  raceStartedAt (apply initial (StartRace (of_Z 1700000000000))) <> None.
Proof.
  apply (running_iff_started (apply initial (StartRace (of_Z 1700000000000)))).
  apply reach_step, reach_initial.
Defined.

(** X21: a pause stops the clock.  On a session whose start timestamp [t]
    is neither zero nor NaN, with accumulated time [p], pausing at [now1]
    banks [p + (now1 - t)]: finishing at any later time gives the total of
    finishing at [now1], and a tick while paused changes nothing.  After
    resuming at [now2], a tick at [now3] shows the whole seconds of the
    banked time plus [now3 - now2]; unless the clock read zero or NaN at the
    resume, in which case the tick takes the race as not started and leaves
    the total as it was. *)
Theorem pause_stops_the_clock (st : RaceState) (t now1 now2 now3 : number)
    (Hstart : started (raceStartedAt st) = Some t) :
  let banked := add (racePausedElapsed st) (sub now1 t) in
  let held := pauseRace now1 st in
  liveStatus held = paused /\
  racePausedElapsed held = banked /\
  totalElapsedSeconds (finishRace now2 held)
  = totalElapsedSeconds (finishRace now1 st) /\
  tickElapsed now2 held = held /\
  totalElapsedSeconds (tickElapsed now3 (resumeRace now2 held))
  = if truthy now2
    then floor (div (add banked (sub now3 now2)) (of_Z 1000))
    else totalElapsedSeconds st.
Proof.
  cbv zeta. unfold pauseRace, finishRace, tickElapsed, resumeRace.
  rewrite Hstart.
  cbn [liveStatus raceStartedAt racePausedElapsed totalElapsedSeconds started].
  destruct (truthy now2); repeat split.
Qed.

Lemma pause_stops_the_clock_witness :
  let st := apply initial (StartRace (of_Z 1700000000000)) in
  let held := pauseRace (of_Z 1700000090500) st in
  totalElapsedSeconds (finishRace (of_Z 1700009999000) held) = of_Z 90 /\
  totalElapsedSeconds
    (tickElapsed (of_Z 1700000205000) (resumeRace (of_Z 1700000200000) held))
  = of_Z 95 /\
  totalElapsedSeconds
    (tickElapsed (of_Z 5000) (resumeRace (of_Z 0) held))
  = of_Z 0.
Proof.
  destruct (pause_stops_the_clock
              (apply initial (StartRace (of_Z 1700000000000)))
              (of_Z 1700000000000) (of_Z 1700000090500)
              (of_Z 1700009999000) (of_Z 1700009999500) eq_refl)
    as (_ & _ & Hfin & _ & _).
  destruct (pause_stops_the_clock
              (apply initial (StartRace (of_Z 1700000000000)))
              (of_Z 1700000000000) (of_Z 1700000090500)
              (of_Z 1700000200000) (of_Z 1700000205000) eq_refl)
    as (_ & _ & _ & _ & Htick).
  destruct (pause_stops_the_clock
              (apply initial (StartRace (of_Z 1700000000000)))
              (of_Z 1700000000000) (of_Z 1700000090500)
              (of_Z 0) (of_Z 5000) eq_refl)
    as (_ & _ & _ & _ & Hzero).
  cbv zeta. split; [|split].
  - rewrite Hfin. vm_compute. reflexivity.
  - rewrite Htick. vm_compute. reflexivity.
  - rewrite Hzero. vm_compute. reflexivity.
Defined.

End RaceClockSpec.

(** ** The controls of the live screen *)

Module LiveTrackingSpec.
Import Js LiveTracking.

Lemma finished_step (w : World) (ev : Event) :
  RaceStore.liveStatus (race w) = RaceStore.finished ->
  is_new_race ev = false ->
  step w ev = w.
Proof.
  intros Hfin Hev.
  destruct ev as [c now|now]; cbn [step].
  - unfold offered. rewrite Hfin.
    destruct c; cbn [is_status negb andb orb]; try reflexivity.
    discriminate Hev.
  - unfold tick. rewrite Hfin. reflexivity.
Qed.

(** X22: on the live screen a finished session is terminal.  Once the status
    is finished, no press of Start, Pause, Resume, Finish, Next Segment or
    Undo and no timer tick changes either store; New Race is the one control
    offered, and it clears the race store to idle and empties the dashboard
    store. *)
Theorem finished_is_terminal_on_screen (w : World) (events : list Event)
    (Hfin : RaceStore.liveStatus (race w) = RaceStore.finished)
    (Hnone : forallb (fun ev => negb (is_new_race ev)) events = true) :
  fold_left step events w = w /\
  (forall c, offered w c = true -> c = NewRace) /\
  (forall now,
     step w (Press NewRace now)
     = {| race := RaceStore.clearRace (race w);
          dashboard := DashboardStore.initial |}).
Proof.
  split; [|split].
  - induction events as [|ev events IH]; [reflexivity|].
    cbn [forallb] in Hnone. apply andb_true_iff in Hnone as [Hev Hrest].
    cbn [fold_left]. rewrite (finished_step w ev Hfin).
    + exact (IH Hrest).
    + destruct (is_new_race ev); [discriminate Hev | reflexivity].
  - intros c. unfold offered. rewrite Hfin.
    destruct c; cbn [is_status negb andb orb]; intros H;
      try discriminate H; reflexivity.
  - intros now. cbn [step]. unfold offered. rewrite Hfin. reflexivity.
Qed.

Lemma finished_is_terminal_on_screen_witness :
  RaceStore.totalElapsedSeconds (race raced) = of_Z 3600 /\
  fold_left step
    [ Press Start (of_Z 1700003700000); Press Resume (of_Z 1700003700000);
      Tick (of_Z 1700003701000); Press NextSegment (of_Z 1700003702000);
      Press Undo (of_Z 1700003703000) ]
    raced = raced.
Proof.
  split; [reflexivity|].
  apply (finished_is_terminal_on_screen raced); reflexivity.
Defined.

Lemma status_after_store_op (r : RaceStore.RaceState) (now : number) :
  RaceStore.liveStatus (RaceStore.startRace now r) = RaceStore.running /\
  RaceStore.liveStatus (RaceStore.resumeRace now r) = RaceStore.running /\
  RaceStore.liveStatus (RaceStore.finishRace now r) = RaceStore.finished /\
  (RaceStore.liveStatus r = RaceStore.running ->
   RaceStore.liveStatus (RaceStore.pauseRace now r) <> RaceStore.idle) /\
  RaceStore.liveStatus (RaceStore.tickElapsed now r) = RaceStore.liveStatus r.
Proof.
  repeat split.
  - intros Hrun. unfold RaceStore.pauseRace.
    destruct (RaceStore.started (RaceStore.raceStartedAt r));
      cbn [RaceStore.liveStatus]; [|rewrite Hrun]; discriminate.
  - unfold RaceStore.tickElapsed.
    destruct (RaceStore.liveStatus r) eqn:Hls; try exact Hls.
    destruct (RaceStore.started (RaceStore.raceStartedAt r));
      [reflexivity | exact Hls].
Qed.

(** While the status is idle the dashboard store is as the screen mounted
    it, or empty after New Race. *)
Lemma idle_step (displayName : string) (w : World) (ev : Event) :
  (RaceStore.liveStatus (race w) = RaceStore.idle ->
   dashboard w = dashboard (mounted (race w) displayName)
   \/ dashboard w = DashboardStore.initial) ->
  RaceStore.liveStatus (race (step w ev)) = RaceStore.idle ->
  dashboard (step w ev) = dashboard (mounted (race w) displayName)
  \/ dashboard (step w ev) = DashboardStore.initial.
Proof.
  intros Hinv.
  destruct ev as [c now|now]; cbn [step].
  - destruct (offered w c) eqn:Hoff; [|exact Hinv].
    destruct (status_after_store_op (race w) now)
      as (Hstart & Hresume & Hfinish & Hpause & _).
    destruct c; cbn [handle race dashboard]; intros Hidle.
    + rewrite Hstart in Hidle. discriminate Hidle.
    + exfalso. unfold offered in Hoff.
      destruct (RaceStore.liveStatus (race w)) eqn:Hls;
        try discriminate Hoff.
      exact (Hpause eq_refl Hidle).
    + rewrite Hresume in Hidle. discriminate Hidle.
    + rewrite Hfinish in Hidle. discriminate Hidle.
    + right. reflexivity.
    + exfalso. unfold offered in Hoff. rewrite Hidle in Hoff.
      discriminate Hoff.
    + unfold offered, userP in Hoff. rewrite Hidle in Hoff.
      destruct (Hinv Hidle) as [E|E]; rewrite E in Hoff;
        discriminate Hoff.
  - unfold tick.
    destruct (is_status (RaceStore.liveStatus (race w)) RaceStore.running)
      eqn:Hrun; [|exact Hinv].
    cbn [race dashboard]. intros Hidle.
    destruct (status_after_store_op (race w) now) as (_ & _ & _ & _ & Htick).
    rewrite Htick in Hidle. rewrite Hidle in Hrun. discriminate Hrun.
Qed.

(** X25: no segment is recorded before the start.  From the screen as it
    mounts, after any presses and ticks, while the status is idle the
    dashboard store is still as mounted (no completed segment, no split) or
    has been emptied by New Race: Next Segment is offered only while
    running, and Undo only with a completed segment. *)
Theorem no_segment_before_start
    (r : RaceStore.RaceState) (displayName : string) (events : list Event) :
  let w := fold_left step events (mounted r displayName) in
  RaceStore.liveStatus (race w) = RaceStore.idle ->
  dashboard w = DashboardStore.initLiveRace displayName DashboardStore.initial
  \/ dashboard w = DashboardStore.initial.
Proof.
  cbv zeta.
  assert (H : forall w,
             (RaceStore.liveStatus (race w) = RaceStore.idle ->
              dashboard w = dashboard (mounted r displayName)
              \/ dashboard w = DashboardStore.initial) ->
             RaceStore.liveStatus (race (fold_left step events w))
             = RaceStore.idle ->
             dashboard (fold_left step events w)
             = dashboard (mounted r displayName)
             \/ dashboard (fold_left step events w) = DashboardStore.initial).
  { induction events as [|ev events IH]; intros w Hinv; cbn [fold_left].
    - exact Hinv.
    - apply IH. exact (idle_step displayName w ev Hinv). }
  apply H. intros _. left. reflexivity.
Qed.

Lemma no_segment_before_start_witness :
  let w :=
    fold_left step
      [ Press NextSegment (of_Z 1700000000000); Press Undo (of_Z 1700000001000);
        Tick (of_Z 1700000002000); Press Finish (of_Z 1700000003000) ]
      (mounted RaceStore.initial "Kim") in
  RaceStore.liveStatus (race w) = RaceStore.idle /\
  DashboardStore.splits (dashboard w) = [].
Proof.
  cbv zeta. split; [reflexivity|].
  destruct (no_segment_before_start
              RaceStore.initial "Kim"
              [ Press NextSegment (of_Z 1700000000000);
                Press Undo (of_Z 1700000001000);
                Tick (of_Z 1700000002000);
                Press Finish (of_Z 1700000003000) ] eq_refl) as [E|E];
    rewrite E; reflexivity.
Defined.

End LiveTrackingSpec.

(** ** The stores behind the screens *)

Module ScreensSpec.
Import Js CoachEngine RaceTrackMapper TrackMarker DashboardStore LiveRace.
Import JsFacts.

(** X23: the track and the store name the segments from two tables, which
    agree.  Whatever the dashboard store has been through, for its
    participant the marker stands at 6.25 percent a completed segment, and
    the activity shown on the track is the station name the store holds;
    only after the sixteenth segment do they part, the track reading
    Finished and the store still Wall Balls. *)
Theorem track_agrees_with_store (acts : list Action) (userP : Participant) :
  head (participants (session acts)) = Some userP ->
  let pos := getTrackPosition (segmentsCompleted userP) in
  marker_percent (segmentsCompleted userP)
  = mul (segmentsCompleted userP) (lit 625 100) /\
  if isFinished pos
  then segmentsCompleted userP = count 16 /\
       currentActivity pos = "Finished"%string /\
       lastStationName userP = Some "Wall Balls"%string
  else lastStationName userP = Some (currentActivity pos).
Proof.
  intros Hh.
  destruct (LiveRaceSpec.session_head acts userP Hh) as (k & Hl).
  destruct Hl as (_ & _ & Hk & _ & _ & Hsc & _ & Hname & _).
  cbv zeta. rewrite Hsc, Hname. clear Hsc Hname Hh.
  do 17 (destruct k as [|k]; [vm_compute; repeat split; reflexivity|]).
  exfalso. lia.
Qed.

Lemma track_agrees_with_store_witness :
  marker_percent (of_Z 2) = lit 125 10 /\
  Some "Run 2"%string = Some (currentActivity (getTrackPosition (of_Z 2))).
Proof.
  pose proof (track_agrees_with_store
                ticking
                {| id := "user"; name := "Kim"; isUser := true;
                   segmentsCompleted := of_Z 2;
                   currentSegmentIndex := of_Z 2;
                   elapsedSeconds := of_Z 350;
                   lastStationName := Some "Run 2"%string |}
                eq_refl) as H.
  cbv zeta in H. cbn [segmentsCompleted lastStationName] in H.
  destruct H as (Hm & Ha).
  split; [rewrite Hm; reflexivity|].
  change (isFinished (getTrackPosition (of_Z 2))) with false in Ha.
  exact Ha.
Defined.

(** X24: the agentic screen looks for a participant with id alice to
    measure a competitor gap, and the store only ever holds the user.  So
    after any actions of the store the coach sets a tip exactly when the
    store holds a participant, and a tip it sets is never the competitor
    tip. *)
Theorem competitor_tip_is_never_shown
    (acts : list Action) (hr max_hr : option number) :
  (AgenticDashboard.updateCoach (session acts) hr max_hr = None <->
   participants (session acts) = []) /\
  (forall tip,
     AgenticDashboard.updateCoach (session acts) hr max_hr = Some tip ->
     context tip <> [Lit "Competitor gap"]).
Proof.
  destruct (LiveRaceSpec.reached_fold acts DashboardStore.initial
              (or_introl eq_refl)) as [E|(k & u & Hl)];
    fold (session acts) in *.
  - rewrite E. split; [split; reflexivity|]. intros tip H. discriminate H.
  - destruct Hl as (Hp & _ & _ & Hid & Hu & _).
    unfold AgenticDashboard.updateCoach. rewrite Hp.
    cbn [find]. rewrite Hu, Hid.
    change (String.eqb "user" "alice") with false. cbv iota zeta.
    split; [split; intros H; discriminate H|].
    intros tip H. injection H as <-.
    unfold evaluate.
    cbn [competitorDelta].
    repeat match goal with
           | |- context [if ?b then _ else _] => destruct b
           end; cbn [context critical_tip ahead_tip behind_tip elevated_tip
                     default_tip hr_context]; discriminate.
Qed.

End ScreensSpec.

(** ** The coach's priorities *)

Module CoachPrioritySpec.
Import Js CoachEngine.

(** X26: the priority of a tip tells which rule gave it.  The tip is
    critical exactly when the heart-rate ratio is at least 0.93; it is a
    warning exactly when that rule fails and the athlete is more than 30 s
    ahead in the first six segments or more than 20 s behind; in all other
    cases it is informational. *)
Theorem priority_tells_the_rule (state : RaceState) :
  (priority (evaluate state) = critical <-> rule_holds 1 state = true) /\
  (priority (evaluate state) = warning <->
   rule_holds 1 state = false /\
   (rule_holds 2 state = true \/ rule_holds 3 state = true)) /\
  (priority (evaluate state) = info <->
   rule_holds 1 state = false /\ rule_holds 2 state = false /\
   rule_holds 3 state = false).
Proof.
  unfold evaluate. cbn [rule_holds].
  destruct (geb (hrPct state) (lit 93 100)).
  { cbn [priority critical_tip]. intuition congruence. }
  destruct (ltb (delta state) (of_Z (-30)) && isEarlyRace state).
  { cbn [priority ahead_tip]. intuition congruence. }
  destruct (gtb (delta state) (of_Z 20)).
  { cbn [priority behind_tip]. intuition congruence. }
  match goal with
  | |- context [priority ?tip] => assert (Hp : priority tip = info)
  end.
  { destruct (geb (hrPct state) (lit 85 100) && ltb (hrPct state) (lit 93 100));
      [reflexivity|].
    destruct (competitorDelta state) as [cd|]; [|reflexivity].
    destruct (gtb cd (of_Z 15)); reflexivity. }
  rewrite Hp. intuition congruence.
Qed.

End CoachPrioritySpec.
